(* ===== verification/_CoqProject ===== *)
-Q . S2P
Prelude.v
PyStr.v
Utf8.v
Io.v
Normalize.v
Chunker.v
Records.v
Loader.v
Pipeline.v
Jsonl.v
JsonlFile.v
Encodable.v
Ingest.v
ChunkMain.v
Index.v
IngestMain.v
Citation.v
Query.v
