(* ===== verification/Prelude.v ===== *)
(** * A verified model of the chunking, indexing and citation pipeline of
      [shirley-yp/projects_2024]

    The repository is a small retrieval-augmented question answering tool
    of four scripts.  [src/chunk.py] turns a document into overlapping,
    line-addressed text chunks with their provenance (file, line range
    and, for PDFs, page range) and writes them to a JSONL file;
    [src/ingest_chroma.py] reads that file back, embeds the texts and adds
    them to a Chroma collection; [src/search_chroma.py] and
    [src/answer_ollama.py] query the collection and print citations (the
    latter also builds a prompt for a local language model).

    ** Data flow

      file bytes --read_text_any (UTF-8, ignore)--> (text, page_of_line?)
               --normalize_lines--> lines --chunk_by_lines--> triples
               --build_records--> records --write_jsonl (UTF-8)--> chunks.jsonl
                                          --repr, print--> summary output
      chunks.jsonl --load_jsonl (UTF-8, strict)--> dicts
               --prepare_data, batch loop--> collection (+ progress output)
      collection --Chroma query--> hits --search_output--> output
                                        --build_prompt, ollama--> answer output

    ** Files of the development (in dependency order)

    - [Prelude] (this file): the Python value model shared by every
      component: strings as lists of code points ([pystr]), the exceptions
      the code raises ([exn]), the result type [res] with its bind
      notation, list comprehensions that may raise ([res_map]), list
      indexing [py_getitem] and slicing [py_slice]; the hint databases
      [pyrag] and [pyrag_rw] and the tactics [py_norm] and [py_cases].
    - [PyStr]: the [str] methods the code calls, from CPython's semantics:
      [py_isspace] (the [str.isspace] table), [py_strip] and its halves,
      [py_split], [py_join], the two [replace] calls of the newline
      normalisation; the split/join round trips and the stripping lemmas.
    - [Utf8]: CPython's UTF-8 codec: the strict encoder and the decoder
      with its [strict] and [ignore] handlers (invalid sequences cut as
      [ucs4lib_utf8_decode] cuts them), used by every file, pipe and
      standard output; lemmas: the decoder reads back what the encoder
      writes, the encoder fails exactly on surrogates, the [ignore]
      decoder yields only scalar values.
    - [Io]: the effects of the [main] functions: the monad [io] of
      standard output and exceptions with its notation; [print] as the
      writes [sys.stdout.write] does of each argument, separator and
      end, each through the strict UTF-8 encoder of standard output (a
      string holding a surrogate raises [UnicodeEncodeError], what was
      written before stays); [str(Path(s))] ([path_str]) and
      [Path(s).name] ([path_name]); the combinator [eventually] (every
      run of a step relation reaches a state) for liveness.
    - [Normalize]: [normalize_lines] (chunk.py 50-62) as a fold over its
      state [blank_run]; theorems: no double blank line, line shape,
      content preserved, idempotence.
    - [Chunker]: [chunk_by_lines] (chunk.py 64-85), the [while] loop over
      the loop state [(chunks, i)] with fuel; theorems: assertion errors,
      termination, equivalence with the reference [chunks_spec], bounds,
      ordering, coverage, the spec's scenarios and its divergences.
    - [Records]: [build_records] (chunk.py 87-106): ids
      [{stem}__chunk_{idx:05d}] with [Path.stem] and [format(idx, "05d")],
      the page lookups; theorems: the records of the reference chunks, page
      order, distinct ids, id order below 100000 chunks, and above it the
      ids of chunks 100000-899999 sorting before those of 90000-99999.
    - [Loader]: [read_text_any] (chunk.py 9-48): suffix dispatch, the
      text branch decoding the file's bytes ([read_text]), the PDF page loop building the text and [page_of_line]; theorems: the raw
      lines and page map, its invariants, the error on other suffixes.
    - [Pipeline]: [main] of chunk.py (lines 122-128) in the [res] monad;
      theorems: its refinement of the components' references, the late
      validation of parameters, the pages of records when no page has a
      blank line, and, for every PDF whose first page ends with a line
      break, a page map longer than the normalized lines it is looked up
      with (finding), from the count of lines [collapse] drops.
    - [Jsonl]: [write_jsonl] (chunk.py 108-112) with the encoder of
      [json.dumps(ensure_ascii=False)], and [load_jsonl] (ingest_chroma.py
      14-22) with a model of CPython's [json.loads] scanner; theorem: the
      file round trip of records; lemmas on the library model: the
      [loads]/[dumps] round trip of dicts, and that the scanner always
      terminates within its fuel.
    - [JsonlFile]: the file [chunks.jsonl] as bytes: written with the
      strict UTF-8 encoder, read with the strict decoder; theorems: the
      byte-level round trip of records whose strings are scalar values,
      and the [UnicodeEncodeError] of a file name holding a surrogate
      (finding).
    - [Encodable]: where the characters of a record come from: every
      string method, the chunker, the record builder and the loader keep
      a property of characters that ASCII and the line break have; so a
      file of bytes whose name and PDF text are scalar values gives
      records the UTF-8 encoder accepts.
    - [Ingest]: [main] of ingest_chroma.py (lines 52-85): the subscripts
      and [int()] calls that build [ids], [texts] and [metadatas] from the
      dicts, and the batch loop; the embedding model is the class
      [Embedder], the collection the list of entries added; theorems: one
      entry per record in order, the batches partition the records, the
      error and the silent no-op of a non-positive batch size, embeddings
      independent of the batch size.
    - [ChunkMain]: the whole [main] of chunk.py (lines 114-140) in the
      [io] monad: the records written as bytes, then the summary, with
      Python's [repr] of a [str] and of the example dict as
      [unicode_repr] writes it; theorem: for valid parameters and a
      supported suffix, [main] raises nothing but [UnicodeEncodeError],
      and raises it exactly when [str(src)] or [str(out)] holds a
      surrogate (at the write, or at the [Source:] or [Chunks:] line).
      The arrow of line 132 is mojibake in the source (finding).
    - [Index]: the two scripts composed through the file's bytes: every
      record of the chunker reaches the collection with its id, text and
      metadata.
    - [IngestMain]: the whole [main] of ingest_chroma.py (lines 25-90) in
      the [io] monad, with its prints; the batch loop also as a step
      relation [loop_step] on [ingest_loop_state]; theorems: the fold and the
      relation agree, the loop invariant holds of every reachable state
      (rule induction), every run ends with all records added and
      [Inserted total/total] printed last (liveness), and the output of
      [main] on the file [chunk.py] wrote, when the strings it prints from
      its command line are encodable.
    - [Citation]: [search_chroma.py] (lines 20, 36-62) and
      [answer_ollama.py] ([format_sources], lines 13-32; the prompt with
      [textwrap.dedent], lines 73-93; the printed sources, lines 97-116);
      theorems: the preview bound, the citation line of a record, and that
      [dedent] leaves the prompt indented as soon as two hits come back
      (finding).
    - [Query]: the [main] of search_chroma.py (lines 20-62) and of
      answer_ollama.py (lines 58-115), [call_ollama] (lines 35-46) and the
      failing import of line 10; Chroma is the class [Chroma] whose law is
      the query contract (at most [k] hits, each a stored entry), with an
      instance that meets it; what the scripts print is a list of [print]
      calls run on the strict standard output; lemmas: the output of a
      search, the ollama call, the script's [ImportError] before any
      output once [chromadb.config] lacks [Settingss].

    ** What is not modelled

    External code enters the model as parameters or interfaces:
    pypdf's text extraction (its result per page is an input), the
    embedding model (the [Embedder] interface), the Chroma client and
    store (the [Chroma] class: how it ranks hits, treats ids already
    present and checks the arguments of [add] is not modelled; the
    collection is the list of entries added and [count()] its length),
    the [ollama] process (its return code and bytes are a parameter), and
    the names [chromadb.config] defines (a parameter lacking [Settingss]).
    argparse's parsing is not modelled: the scripts start from the values
    it returns.  Creating the output directories and the file system
    itself are not modelled: a script's input file is its bytes, its
    output file the bytes it writes (a write that raises is modelled as
    writing nothing).  Standard output is the text stream of a UTF-8
    locale outside Python's UTF-8 mode, with the strict error handler
    (under the C locale or in UTF-8 mode Python uses [surrogateescape],
    which is not modelled).  Whether a non-ASCII character is
    printable, which [repr] asks of the Unicode database, is a parameter
    (false on the surrogates, as in the database).  Floats: a JSON float
    is kept as its lexeme, and a distance's formatting is a
    parameter.  [int()] of a [str] or a [float] is not modelled
    ([NotModelled]).  [answer_ollama.py] fails at import ([Settingss], a
    finding); its [main] is modelled as written and proved to be
    unreachable.

    ** Fuel and bounds

    Two computations are not structurally recursive.  The [while i < n] of
    [chunk_by_lines] gets fuel [n + 1]: with [step >= 1] it runs at most
    [n] rounds, and [Chunker] proves this fuel (and any larger) reaches
    its exit.  The JSON scanner gets fuel [2 * length + 1]: each nesting
    level costs two units and consumes at least one character, and [Jsonl]
    proves [loads] never runs out of it.  The UTF-8 decoder recurses on
    the suffix after each sequence, structurally.  The batch loop is a
    fold over [range(0, total, batch)]; as a relation each step consumes
    one range value, and the liveness proof is an induction on the number
    left.  Integers cross the file only up to 4300 digits, CPython's
    default [int] conversion limit. *)

From stdpp Require Export base list sets strings.
From Stdlib Require Export ZArith Lia Sorted.
From Stdlib Require Ascii.

Declare Scope py_scope.
Delimit Scope py_scope with py.
Open Scope Z_scope.

Create HintDb pyrag discriminated.
Create Rewrite HintDb pyrag_rw.

(** ** Python values *)

(** A Python [str] is a sequence of Unicode code points. *)
Abbreviation pystr := (list Z).

(** Literal strings of the development are written in ASCII and converted
    to code points; line breaks are written with [NL] and [CR]. *)
Definition py (s : String.string) : pystr :=
  map (fun a => Z.of_nat (Ascii.nat_of_ascii a)) (String.list_ascii_of_string s).
Arguments py s%_string.

(** The code points the code names: ["\n"], ["\r"], ["."], ["0"]. *)
Definition NL : Z := 10.
Definition CR : Z := 13.

(** ** Exceptions and results *)

(** The exceptions the modelled code can raise.  [AssertionError] is the
    failure of an [assert] statement, [ValueError msg] the one raised by
    [read_text_any] and by [range], [IndexError] a list subscript out of
    range, [KeyError k] a missing dict key, [TypeError] a subscript or a
    conversion applied to a value of the wrong type, [JSONDecodeError]
    the rejection of a line by [json.loads] (its message and position are
    not modelled), [UnicodeEncodeError] and [UnicodeDecodeError] the
    failures of the strict UTF-8 codec, [RuntimeError msg] the one
    [call_ollama] raises and [ImportError msg] a failed import (their
    positions and reasons are not modelled).  [NotModelled] marks the few library behaviours the
    development leaves out ([int()] of a [str] or of a [float]): no
    theorem concludes anything on an input that reaches it.  [OutOfFuel] is not a Python exception: it is what a fuelled loop
    returns when it has not terminated, and the theorems show it is never
    returned. *)
Inductive exn :=
  | AssertionError
  | ValueError (msg : pystr)
  | IndexError
  | KeyError (key : pystr)
  | TypeError
  | JSONDecodeError
  | UnicodeEncodeError
  | UnicodeDecodeError
  | RuntimeError (msg : pystr)
  | ImportError (msg : pystr)
  | NotModelled
  | OutOfFuel.

Definition res (A : Type) : Type := (exn + A)%type.

Definition res_bind {A B} (m : res A) (k : A -> res B) : res B :=
  match m with
  | inl e => inl e
  | inr a => k a
  end.

Notation "x <- m ;; k" := (res_bind m (fun x => k))
  (at level 60, m at next level, right associativity) : py_scope.
Notation "'raise' e" := (@inl exn _ e) (at level 10) : py_scope.
Notation "'ok' a" := (@inr exn _ a) (at level 10) : py_scope.

(** A list comprehension whose body may raise: the first exception, in
    list order, aborts it. *)
Fixpoint res_map {A B} (f : A -> res B) (xs : list A) : res (list B) :=
  match xs with
  | [] => inr []
  | x :: xs' => res_bind (f x) (fun y => res_bind (res_map f xs') (fun ys => inr (y :: ys)))
  end.

Lemma res_bind_ok {A B} (a : A) (k : A -> res B) : res_bind (inr a) k = k a.
Proof. reflexivity. Qed.

Lemma res_bind_inv {A B} (m : res A) (k : A -> res B) (b : B) :
  res_bind m k = inr b -> exists a, m = inr a /\ k a = inr b.
Proof. destruct m; simpl; [discriminate | eauto]. Qed.

Lemma res_map_ok {A B C} (f : B -> res C) (g : A -> B) (h : A -> C) xs :
  (forall x, f (g x) = inr (h x)) -> res_map f (map g xs) = inr (map h xs).
Proof. intros Hf. induction xs as [|x xs IH]; simpl; [done |]. by rewrite Hf, IH. Qed.


(** ** Lists as Python lists *)

Definition py_len {A} (l : list A) : Z := Z.of_nat (length l).

(** [l[i]]: a negative index counts from the end; out of range raises. *)
Definition py_getitem {A} (l : list A) (i : Z) : res A :=
  let n := py_len l in
  let j := if i <? 0 then i + n else i in
  if (0 <=? j) && (j <? n) then
    match l !! Z.to_nat j with Some x => inr x | None => inl IndexError end
  else inl IndexError.

(** The bound of a slice: a negative bound counts from the end, and both
    are clamped to [[0, len]]. *)
Definition py_slice_bound (n i : Z) : Z :=
  if i <? 0 then Z.max 0 (i + n) else Z.min i n.

(** [l[a:b]]. *)
Definition py_slice {A} (l : list A) (a b : Z) : list A :=
  let n := py_len l in
  let a' := py_slice_bound n a in
  let b' := py_slice_bound n b in
  take (Z.to_nat (b' - a')) (drop (Z.to_nat a') l).

(** ** Tactics *)

(** Turn the boolean comparisons of the code into propositions. *)
Ltac py_norm :=
  repeat match goal with
  | H : (_ <? _) = true |- _ => apply Z.ltb_lt in H
  | H : (_ <? _) = false |- _ => apply Z.ltb_ge in H
  | H : (_ <=? _) = true |- _ => apply Z.leb_le in H
  | H : (_ <=? _) = false |- _ => apply Z.leb_gt in H
  | H : (_ =? _) = true |- _ => apply Z.eqb_eq in H
  | H : (_ =? _) = false |- _ => apply Z.eqb_neq in H
  | H : _ && _ = true |- _ => apply andb_prop in H; destruct H
  end.

(** Case on the comparisons of the goal, normalise them, and try [lia]. *)
Ltac py_cases :=
  repeat match goal with
  | |- context [?a <? ?b] => destruct (a <? b) eqn:?
  | |- context [?a <=? ?b] => destruct (a <=? b) eqn:?
  | |- context [?a =? ?b] => destruct (a =? b) eqn:?
  end; py_norm; simpl; try done; try lia.

(** Refute [x ∈ l] for a closed [x] and a closed literal list [l]. *)
Ltac not_in_literal :=
  let H := fresh "H" in
  intros H; apply list_elem_of_In in H; vm_compute in H;
  repeat (destruct H as [H | H]; [discriminate H |]); destruct H.

(** ** Generic lemmas on indexing and slicing *)

Section ListModel.
Context {A : Type}.
Implicit Types l : list A.

Lemma Forall_rev_iff (P : A -> Prop) l : Forall P (rev l) <-> Forall P l.
Proof.
  split; [| apply Forall_rev].
  intros H. rewrite <- (rev_involutive l). by apply Forall_rev.
Qed.

Lemma py_len_nonneg l : 0 <= py_len l.
Proof. unfold py_len. lia. Qed.

Lemma py_len_app l1 l2 : py_len (l1 ++ l2) = py_len l1 + py_len l2.
Proof. unfold py_len. rewrite length_app. lia. Qed.

Lemma py_getitem_in_range l i :
  0 <= i < py_len l -> exists x, l !! Z.to_nat i = Some x /\ py_getitem l i = inr x.
Proof.
  intros Hi. unfold py_getitem, py_len in *.
  destruct (lookup_lt_is_Some_2 l (Z.to_nat i)) as [x Hx]; [lia |].
  exists x. split; [done |].
  py_cases. rewrite Hx. done.
Qed.

Lemma py_getitem_lookup l i x :
  0 <= i -> py_getitem l i = inr x -> l !! Z.to_nat i = Some x.
Proof.
  intros Hi. unfold py_getitem. py_cases; intros H; try discriminate.
  destruct (l !! Z.to_nat i); congruence.
Qed.

(** Within bounds, a slice is a [take] of a [drop]. *)
Lemma py_slice_take_drop l a b :
  0 <= a <= b -> b <= py_len l ->
  py_slice l a b = take (Z.to_nat (b - a)) (drop (Z.to_nat a) l).
Proof.
  intros Hab Hb. unfold py_slice, py_slice_bound.
  replace (if a <? 0 then _ else _) with a by py_cases.
  replace (if b <? 0 then _ else _) with b by py_cases.
  done.
Qed.

Lemma py_slice_length l a b :
  0 <= a <= b -> b <= py_len l -> length (py_slice l a b) = Z.to_nat (b - a).
Proof.
  intros Hab Hb. rewrite py_slice_take_drop by done.
  unfold py_len in Hb. rewrite length_take, length_drop. lia.
Qed.

(** The [k]-th element of a slice is element [a + k] of the list. *)
Lemma py_slice_lookup l a b k :
  0 <= a <= b -> b <= py_len l -> (k < Z.to_nat (b - a))%nat ->
  py_slice l a b !! k = l !! (Z.to_nat a + k)%nat.
Proof.
  intros Hab Hb Hk. rewrite py_slice_take_drop by done.
  rewrite lookup_take_lt by lia. apply lookup_drop.
Qed.

Lemma py_slice_all l : py_slice l 0 (py_len l) = l.
Proof.
  rewrite py_slice_take_drop by (unfold py_len; lia).
  unfold py_len. rewrite Z.sub_0_r, Nat2Z.id. simpl. apply take_ge. lia.
Qed.

Lemma omap_all_none {B} (f : A -> option B) l :
  (forall x, x ∈ l -> f x = None) -> omap f l = [].
Proof.
  induction l as [|x l IH]; intros Hf; simpl; [done |].
  rewrite Hf by set_solver. apply IH. set_solver.
Qed.

Lemma lookup_map {B} (f : A -> B) l i : map f l !! i = option_map f (l !! i).
Proof. exact (list_lookup_fmap f l i). Qed.

Lemma elem_of_map_iff {B} (f : A -> B) l y : y ∈ map f l <-> exists x, y = f x /\ x ∈ l.
Proof. exact (list_elem_of_fmap f l y). Qed.

(** A slice holds only elements of the list. *)
Lemma elem_of_py_slice_sub l a b x : x ∈ py_slice l a b -> x ∈ l.
Proof.
  unfold py_slice. cbv zeta. intros H.
  apply elem_of_take in H as (k & Hk & _). rewrite lookup_drop in Hk.
  by eapply list_elem_of_lookup_2.
Qed.

Lemma elem_of_py_slice l a b x :
  0 <= a <= b -> b <= py_len l ->
  x ∈ py_slice l a b <-> exists k, a <= k < b /\ l !! Z.to_nat k = Some x.
Proof.
  intros Hab Hb. rewrite list_elem_of_lookup. split.
  - intros [k Hk].
    assert (k < Z.to_nat (b - a))%nat.
    { apply lookup_lt_Some in Hk. rewrite py_slice_length in Hk; lia. }
    rewrite py_slice_lookup in Hk by done.
    exists (a + Z.of_nat k). split; [lia |].
    rewrite <- Hk. f_equal. lia.
  - intros [k [Hk Hx]]. exists (Z.to_nat (k - a)).
    rewrite py_slice_lookup by lia.
    rewrite <- Hx. f_equal. lia.
Qed.
End ListModel.

#[export] Hint Resolve py_len_nonneg : pyrag.
#[export] Hint Rewrite @py_len_app @res_bind_ok : pyrag_rw.
