(* ===== verification/PyStr.v ===== *)
(** * The [str] methods used by [src/chunk.py]

    Python strings are lists of code points ([pystr]).  This file models,
    from CPython's semantics, the methods the code calls:
    [str.isspace] (the whitespace table used by [strip] and [rstrip]),
    [strip()], [rstrip()], [split("\n")], ["\n".join(...)] and
    [replace("\r\n", "\n").replace("\r", "\n")], and proves the facts the
    components share: stripping is idempotent and only removes whitespace,
    a string is blank exactly when it is all whitespace, and splitting on a
    separator inverts joining with it. *)

From S2P Require Import Prelude.

(** ** Character classes *)

(** [Py_UNICODE_ISSPACE]: the code points for which [str.isspace] holds
    and which [str.strip()] removes. *)
Definition py_isspace (c : Z) : bool :=
  ((9 <=? c) && (c <=? 13)) || ((28 <=? c) && (c <=? 32)) ||
  (c =? 133) || (c =? 160) || (c =? 5760) ||
  ((8192 <=? c) && (c <=? 8202)) || (c =? 8232) || (c =? 8233) ||
  (c =? 8239) || (c =? 8287) || (c =? 12288).

Abbreviation is_space c := (py_isspace c = true).

(** ** Stripping *)

(** [s.lstrip()]. *)
Fixpoint py_lstrip (s : pystr) : pystr :=
  match s with
  | [] => []
  | c :: s' => if py_isspace c then py_lstrip s' else s
  end.

(** [s.rstrip()]. *)
Definition py_rstrip (s : pystr) : pystr := rev (py_lstrip (rev s)).

(** [s.strip()]. *)
Definition py_strip (s : pystr) : pystr := py_lstrip (py_rstrip s).

(** The truth value of a [str]: [if s:] holds when [s] is not empty. *)
Definition py_truthy (s : pystr) : bool :=
  match s with [] => false | _ => true end.

(** [ln.strip() == ""]. *)
Definition py_blank (s : pystr) : bool := negb (py_truthy (py_strip s)).

(** ** Splitting and joining *)

(** [s.split(sep)] for a one-character separator: [k] separators give
    [k + 1] pieces, and the empty string gives [[""]]. *)
Fixpoint py_split (sep : Z) (s : pystr) : list pystr :=
  match s with
  | [] => [[]]
  | c :: s' =>
      let rest := py_split sep s' in
      if c =? sep then [] :: rest
      else match rest with
           | [] => [[c]]
           | p :: ps => (c :: p) :: ps
           end
  end.

(** [sep.join(xs)]. *)
Fixpoint py_join (sep : pystr) (xs : list pystr) : pystr :=
  match xs with
  | [] => []
  | [x] => x
  | x :: xs' => x ++ sep ++ py_join sep xs'
  end.

(** ** Replacing *)

(** [s.replace(chr(a) + chr(b), r)]: non-overlapping, left to right. *)
Fixpoint py_replace2 (a b : Z) (r : pystr) (s : pystr) : pystr :=
  match s with
  | c :: ((d :: s'') as s') =>
      if (c =? a) && (d =? b) then r ++ py_replace2 a b r s''
      else c :: py_replace2 a b r s'
  | _ => s
  end.

(** [s.replace(chr(a), r)]. *)
Definition py_replace1 (a : Z) (r : pystr) (s : pystr) : pystr :=
  flat_map (fun c => if c =? a then r else [c]) s.

(** [s.replace("\r\n", "\n").replace("\r", "\n")], which both
    [read_text_any] and [normalize_lines] apply. *)
Definition unify_newlines (s : pystr) : pystr :=
  py_replace1 CR [NL] (py_replace2 CR NL [NL] s).

(** ** Lemmas *)

Lemma py_isspace_NL : is_space NL.
Proof. reflexivity. Qed.

Lemma py_truthy_false s : py_truthy s = false <-> s = [].
Proof. destruct s; simpl; intuition congruence. Qed.

Section Strip.
Implicit Types s p : pystr.

Lemma py_lstrip_nil_iff s : py_lstrip s = [] <-> Forall (fun c => is_space c) s.
Proof.
  induction s as [|c s IH]; simpl; [split; auto |].
  rewrite Forall_cons. destruct (py_isspace c) eqn:Hc; [tauto |].
  split; [discriminate | intros [? _]; congruence].
Qed.

Lemma py_lstrip_head s c t : py_lstrip s = c :: t -> py_isspace c = false.
Proof.
  induction s as [|c' s IH]; simpl; [discriminate |].
  destruct (py_isspace c') eqn:Hc; [exact IH | congruence].
Qed.

Lemma py_lstrip_suffix s : exists p, s = p ++ py_lstrip s /\ Forall (fun c => is_space c) p.
Proof.
  induction s as [|c s [p [Hp Hsp]]]; simpl; [exists []; auto |].
  destruct (py_isspace c) eqn:Hc.
  - exists (c :: p). simpl. rewrite <- Hp. auto.
  - exists []. auto.
Qed.

Lemma py_lstrip_idem s : py_lstrip (py_lstrip s) = py_lstrip s.
Proof.
  induction s as [|c s IH]; simpl; [done |].
  destruct (py_isspace c) eqn:Hc; simpl; [done |]. by rewrite Hc.
Qed.

Lemma py_rstrip_nil_iff s : py_rstrip s = [] <-> Forall (fun c => is_space c) s.
Proof.
  unfold py_rstrip. rewrite <- (Forall_rev_iff _ s), <- py_lstrip_nil_iff.
  split; [| by intros ->]. intros H.
  by rewrite <- (rev_involutive (py_lstrip _)), H.
Qed.

Lemma py_rstrip_prefix s : exists q, s = py_rstrip s ++ q /\ Forall (fun c => is_space c) q.
Proof.
  destruct (py_lstrip_suffix (rev s)) as [p [Hp Hsp]].
  exists (rev p). unfold py_rstrip. split; [| by apply Forall_rev].
  rewrite <- rev_app_distr, <- Hp. by rewrite rev_involutive.
Qed.

Lemma py_rstrip_idem s : py_rstrip (py_rstrip s) = py_rstrip s.
Proof. unfold py_rstrip. by rewrite rev_involutive, py_lstrip_idem. Qed.

Lemma elem_of_py_rstrip s c : c ∈ py_rstrip s -> c ∈ s.
Proof.
  destruct (py_rstrip_prefix s) as [q [Hq _]]. intros H.
  rewrite Hq. apply elem_of_app. auto.
Qed.

Lemma elem_of_py_lstrip s c : c ∈ py_lstrip s -> c ∈ s.
Proof.
  destruct (py_lstrip_suffix s) as [p [Hp _]]. intros H.
  rewrite Hp. apply elem_of_app. auto.
Qed.

(** A string is blank exactly when all its characters are whitespace. *)
Lemma py_blank_spec s : py_blank s = true <-> Forall (fun c => is_space c) s.
Proof.
  unfold py_blank, py_strip. rewrite negb_true_iff, py_truthy_false.
  rewrite py_lstrip_nil_iff, <- py_rstrip_nil_iff, py_rstrip_idem.
  apply py_rstrip_nil_iff.
Qed.

Lemma py_blank_nil : py_blank [] = true.
Proof. reflexivity. Qed.

Lemma py_blank_rstrip s : py_blank (py_rstrip s) = py_blank s.
Proof.
  apply Bool.eq_iff_eq_true. rewrite !py_blank_spec, <- !py_rstrip_nil_iff.
  by rewrite py_rstrip_idem.
Qed.

(** A string with a non-whitespace character is not blank. *)
Lemma py_blank_false s c : c ∈ s -> py_isspace c = false -> py_blank s = false.
Proof.
  intros Hc Hsp. apply not_true_is_false. rewrite py_blank_spec, Forall_forall.
  intros H. apply H in Hc. congruence.
Qed.

(** A string that is not blank has a non-whitespace character. *)
Lemma py_blank_witness s : py_blank s = false -> exists c, c ∈ s /\ py_isspace c = false.
Proof.
  intros Hb. induction s as [|c s IH]; [done |].
  destruct (py_isspace c) eqn:Hc; [| exists c; set_solver].
  destruct IH as (d & Hd & Hsp); [| exists d; set_solver].
  apply not_true_is_false. intros Hs. apply py_blank_spec in Hs.
  assert (py_blank (c :: s) = true) by (apply py_blank_spec; by constructor). congruence.
Qed.

(** [s.strip()] is empty exactly when [s] is blank. *)
Lemma py_strip_truthy s : py_truthy (py_strip s) = negb (py_blank s).
Proof. unfold py_blank. by rewrite negb_involutive. Qed.
(** Stripping the front stops inside [x] when [x] holds a non-space. *)
Lemma py_lstrip_app x z :
  (exists ch, ch ∈ x /\ py_isspace ch = false) -> py_lstrip (x ++ z) = py_lstrip x ++ z.
Proof.
  induction x as [|c x IH]; intros (ch & Hch & Hs); [set_solver |]. simpl.
  destruct (py_isspace c) eqn:Hc; [| done].
  apply IH. exists ch. split; [| done]. apply elem_of_cons in Hch as [-> | ?]; [congruence | done].
Qed.

Lemma py_rstrip_app z y :
  (exists ch, ch ∈ y /\ py_isspace ch = false) -> py_rstrip (z ++ y) = z ++ py_rstrip y.
Proof.
  intros Hy. unfold py_rstrip. rewrite rev_app_distr, py_lstrip_app.
  - by rewrite rev_app_distr, rev_involutive.
  - destruct Hy as (ch & Hch & Hs). exists ch. split; [| done]. apply list_elem_of_In, in_rev, list_elem_of_In. by rewrite rev_involutive.
Qed.
End Strip.

Section SplitJoin.
Implicit Types s : pystr.
Implicit Types xs : list pystr.

Lemma py_split_nonempty c s : py_split c s <> [].
Proof.
  destruct s as [|d s]; simpl; [discriminate |].
  destruct (d =? c); [discriminate |]. destruct (py_split c s); discriminate.
Qed.

(** No piece of [s.split(c)] contains [c]. *)
Lemma py_split_sep_free c s : Forall (fun l => c ∉ l) (py_split c s).
Proof.
  induction s as [|d s IH]; simpl; [constructor; [set_solver | constructor] |].
  destruct (d =? c) eqn:Hd; py_norm.
  - constructor; [set_solver | exact IH].
  - destruct (py_split c s) as [|p ps]; [constructor; [set_solver | constructor] |].
    inversion IH; subst. constructor; [| done]. rewrite elem_of_cons. intuition.
Qed.

(** Every character of a piece comes from the string. *)
Lemma py_split_elem c s l x : l ∈ py_split c s -> x ∈ l -> x ∈ s.
Proof.
  revert l. induction s as [|d s IH]; simpl; intros l Hl Hx.
  - apply list_elem_of_singleton in Hl. subst. set_solver.
  - destruct (d =? c).
    + apply elem_of_cons in Hl as [-> | Hl]; [set_solver |]. eauto with set_solver.
    + destruct (py_split c s) as [|p ps] eqn:E.
      * apply list_elem_of_singleton in Hl. subst. set_solver.
      * apply elem_of_cons in Hl as [-> | Hl].
        -- apply elem_of_cons in Hx as [-> | Hx]; [set_solver |].
           apply elem_of_cons. right. apply (IH p); [set_solver | done].
        -- apply elem_of_cons. right. apply (IH l); [set_solver | done].
Qed.

Lemma py_split_sep c s : py_split c (c :: s) = [] :: py_split c s.
Proof. simpl. by rewrite Z.eqb_refl. Qed.

Lemma py_join_cons x xs : xs <> [] -> forall sep, py_join sep (x :: xs) = x ++ sep ++ py_join sep xs.
Proof. destruct xs; [congruence | done]. Qed.

(** Joining the pieces with the separator gives the string back. *)
Lemma py_join_split c s : py_join [c] (py_split c s) = s.
Proof.
  induction s as [|d s IH]; simpl; [done |].
  destruct (d =? c) eqn:Hd; py_norm.
  - subst. rewrite py_join_cons by apply py_split_nonempty. simpl. by rewrite IH.
  - destruct (py_split c s) as [|p ps]; simpl in *; [by subst |].
    destruct ps; simpl in *; by rewrite IH.
Qed.

(** Splitting a join of separator-free pieces gives the pieces back. *)
Lemma py_split_join c xs :
  xs <> [] -> Forall (fun l => c ∉ l) xs -> py_split c (py_join [c] xs) = xs.
Proof.
  assert (Hpiece : forall l rest, c ∉ l -> py_split c (l ++ rest) =
    match py_split c rest with [] => [l] | p :: ps => (l ++ p) :: ps end).
  { induction l as [|d l IHl]; intros rest Hl; simpl.
    - destruct (py_split c rest) eqn:E; [by apply py_split_nonempty in E | done].
    - rewrite IHl by set_solver.
      destruct (d =? c) eqn:Hd; py_norm; [set_solver |].
      destruct (py_split c rest) eqn:E; [by apply py_split_nonempty in E | done]. }
  induction xs as [|x xs IH]; intros Hne Hfree; [done |].
  inversion Hfree as [|? ? Hx Hxs]; subst.
  destruct xs as [|y ys].
  - pose proof (Hpiece x [] Hx) as H. simpl in H. by rewrite !app_nil_r in H.
  - rewrite py_join_cons by done. rewrite Hpiece by done. cbn [app].
    rewrite py_split_sep, IH by (done || discriminate). by rewrite app_nil_r.
Qed.

(** Terminating every piece with [c] is joining them with [c] and an
    empty last piece. *)
Lemma concat_snoc_join c ls : concat (map (fun l => l ++ [c]) ls) = py_join [c] (ls ++ [[]]).
Proof.
  induction ls as [|l ls IH]; [done |]. cbn [concat map app].
  rewrite py_join_cons by (destruct ls; discriminate). rewrite IH. by rewrite <- app_assoc.
Qed.

(** Every character of a piece is a character of the join. *)
Lemma py_join_elem sep xs x c : x ∈ xs -> c ∈ x -> c ∈ py_join sep xs.
Proof.
  induction xs as [|y xs IH]; [set_solver |]. intros Hx Hc.
  destruct xs as [|z zs].
  - apply list_elem_of_singleton in Hx. by subst.
  - rewrite py_join_cons by done. apply elem_of_cons in Hx as [-> | Hx]; set_solver.
Qed.
(** Every character of a join comes from the separator or a piece. *)
Lemma elem_of_py_join sep xs c :
  c ∈ py_join sep xs -> c ∈ sep \/ exists x, x ∈ xs /\ c ∈ x.
Proof.
  induction xs as [|y xs IH]; [set_solver |]. intros Hc.
  destruct xs as [|z zs]; [right; exists y; set_solver |].
  rewrite py_join_cons in Hc by done.
  apply elem_of_app in Hc as [Hc | Hc]; [right; exists y; set_solver |].
  apply elem_of_app in Hc as [Hc | Hc]; [by left |].
  destruct (IH Hc) as [? | (x & Hx & Hcx)]; [by left | right; exists x; set_solver].
Qed.
(** Joining blank pieces with a whitespace separator gives a blank
    string. *)
Lemma py_blank_join sep xs :
  Forall (fun c => is_space c) sep -> Forall (fun x => py_blank x = true) xs ->
  py_blank (py_join sep xs) = true.
Proof.
  intros Hsep Hxs. apply py_blank_spec, Forall_forall. intros c Hc.
  apply elem_of_py_join in Hc as [Hc | (x & Hx & Hcx)].
  - by eapply Forall_forall in Hsep.
  - eapply Forall_forall in Hxs; [| exact Hx]. apply py_blank_spec in Hxs.
    by eapply Forall_forall in Hxs.
Qed.
(** Joining two non-empty lists of pieces. *)
Lemma py_join_app sep xs ys :
  xs <> [] -> ys <> [] -> py_join sep (xs ++ ys) = py_join sep xs ++ sep ++ py_join sep ys.
Proof.
  intros Hx Hy. induction xs as [|x xs IH]; [done |].
  destruct xs as [|x' xs].
  - cbn [app]. by rewrite py_join_cons.
  - rewrite <- app_comm_cons, !py_join_cons by (done || by destruct ys).
    rewrite IH by done. by rewrite <- !app_assoc.
Qed.

(** Splitting at a separator splits each side. *)
Lemma py_split_app_sep c x y : py_split c (x ++ c :: y) = py_split c x ++ py_split c y.
Proof.
  induction x as [|d x IH]; simpl; [by rewrite Z.eqb_refl |].
  rewrite IH. destruct (d =? c); [done |].
  destruct (py_split c x) as [|p ps] eqn:E; [by apply py_split_nonempty in E | done].
Qed.

(** The first piece of a text that starts with a non-separator starts
    with it. *)
Lemma py_split_head c d u : d <> c -> exists p ps, py_split c (d :: u) = (d :: p) :: ps.
Proof.
  intros Hd. simpl. replace (d =? c) with false by (symmetry; by apply Z.eqb_neq).
  destruct (py_split c u) as [|p ps] eqn:E; [by apply py_split_nonempty in E | by eexists _, _].
Qed.
End SplitJoin.

Section Newlines.
Implicit Types s : pystr.

Lemma py_replace1_not_in a r s : a ∉ r -> a ∉ py_replace1 a r s.
Proof.
  intros Hr. unfold py_replace1. rewrite list_elem_of_In, in_flat_map.
  intros [c [_ Hc]]. destruct (c =? a) eqn:E; py_norm.
  - apply Hr. by apply list_elem_of_In.
  - destruct Hc as [-> | []]. done.
Qed.

Lemma py_replace1_id a r s : a ∉ s -> py_replace1 a r s = s.
Proof.
  induction s as [|c s IH]; intros Hs; [done |]. unfold py_replace1 in *. simpl.
  destruct (c =? a) eqn:E; py_norm; [set_solver |]. rewrite IH by set_solver. done.
Qed.

Lemma py_replace2_cons2 a b r c d s :
  py_replace2 a b r (c :: d :: s) =
  if (c =? a) && (d =? b) then r ++ py_replace2 a b r s
  else c :: py_replace2 a b r (d :: s).
Proof. reflexivity. Qed.

Lemma py_replace2_id a b r s : a ∉ s -> py_replace2 a b r s = s.
Proof.
  induction s as [|c [|d s] IH]; intros Hs; [done | done |].
  rewrite py_replace2_cons2. destruct (c =? a) eqn:E; py_norm; [set_solver |].
  cbn [andb]. rewrite IH by set_solver. done.
Qed.

(** After [unify_newlines] no carriage return is left. *)
Lemma unify_newlines_no_cr s : CR ∉ unify_newlines s.
Proof. apply py_replace1_not_in. unfold CR, NL. set_solver. Qed.

(** A string without carriage returns is left unchanged. *)
Lemma unify_newlines_id s : CR ∉ s -> unify_newlines s = s.
Proof. intros H. unfold unify_newlines. by rewrite py_replace2_id, py_replace1_id. Qed.
End Newlines.

#[export] Hint Resolve py_split_nonempty py_split_sep_free unify_newlines_no_cr : pyrag.
#[export] Hint Rewrite py_rstrip_idem py_blank_rstrip py_join_split : pyrag_rw.

