(* ===== verification/Utf8.v ===== *)
(** * UTF-8: the codec of the files and of the pipe to ollama

    Every byte the scripts read or write goes through CPython's UTF-8
    codec ([Objects/unicodeobject.c], [Objects/stringlib/codecs.h]):
    - [src.read_text(encoding="utf-8", errors="ignore")] reads a text
      document ([src/chunk.py] line 19);
    - [out_path.open("w", encoding="utf-8")] writes [chunks.jsonl]
      ([src/chunk.py] lines 110-112) and [path.open("r", encoding="utf-8")]
      reads it back ([src/ingest_chroma.py] lines 16-17), both strict;
    - [prompt.encode("utf-8")] and [.decode("utf-8", errors="ignore")]
      carry the prompt to ollama and its answer back
      ([src/answer_ollama.py] lines 39, 45-46).

    A byte is a [Z] in [[0, 256)].  The encoder is [ucs4lib_utf8_encoder]
    with the [strict] handler: a surrogate code point raises
    [UnicodeEncodeError].  The decoder is [ucs4lib_utf8_decode] with the
    error cases of [unicode_decode_utf8]: [utf8_scan] cuts the bytes into
    characters and invalid sequences, an invalid sequence being the
    longest prefix of a well-formed sequence (an invalid start byte alone;
    after a valid start, the bytes accepted before the first refused
    one; at the end of the data, the rest).  [errors="ignore"] drops the
    invalid sequences, [strict] raises [UnicodeDecodeError] at the first.

    The theorems: the decoder reads back what the encoder writes (a round
    trip on every string without surrogates), the encoder fails exactly on
    surrogates, and the [ignore] decoder produces only Unicode scalar
    values, so the text of a [.txt] document is always encodable. *)

From S2P Require Import Prelude PyStr.

(** ** The code *)

(** [Py_UNICODE_IS_SURROGATE]. *)
Definition is_surrogate (c : Z) : bool := (55296 <=? c) && (c <=? 57343).

(** One code point, as [ucs4lib_utf8_encoder] writes it. *)
Definition utf8_encode_char (c : Z) : res (list Z) :=
  if c <? 128 then inr [c]
  else if c <? 2048 then inr [Z.lor 192 (Z.shiftr c 6); Z.lor 128 (Z.land c 63)]
  else if is_surrogate c then inl UnicodeEncodeError
  else if c <? 65536 then
    inr [Z.lor 224 (Z.shiftr c 12); Z.lor 128 (Z.land (Z.shiftr c 6) 63);
         Z.lor 128 (Z.land c 63)]
  else
    inr [Z.lor 240 (Z.shiftr c 18); Z.lor 128 (Z.land (Z.shiftr c 12) 63);
         Z.lor 128 (Z.land (Z.shiftr c 6) 63); Z.lor 128 (Z.land c 63)].

(** [s.encode("utf-8")]: the first surrogate raises. *)
Definition utf8_encode (s : pystr) : res (list Z) :=
  (bss <- res_map utf8_encode_char s ;; inr (concat bss))%py.

(** [IS_CONTINUATION_BYTE]. *)
Definition is_cont (b : Z) : bool := (128 <=? b) && (b <=? 191).

(** The test of the second byte of a sequence in [ucs4lib_utf8_decode]:
    [E0] needs [A0-BF] (no overlong form), [ED] needs [80-9F] (no
    surrogate), [F0] needs [90-BF], [F4] needs [80-8F] (nothing above
    [U+10FFFF]); the other leads take any continuation byte. *)
Definition second_ok (b1 b2 : Z) : bool :=
  if b1 =? 224 then (160 <=? b2) && (b2 <=? 191)
  else if b1 =? 237 then (128 <=? b2) && (b2 <=? 159)
  else if b1 =? 240 then (144 <=? b2) && (b2 <=? 191)
  else if b1 =? 244 then (128 <=? b2) && (b2 <=? 143)
  else is_cont b2.

(** The decoder loop: [Some c] for a decoded character, [None] for an
    invalid sequence ("invalid start byte", "invalid continuation byte",
    "unexpected end of data").  The values are computed as
    [ucs4lib_utf8_decode] computes them. *)
Fixpoint utf8_scan (bs : list Z) : list (option Z) :=
  match bs with
  | [] => []
  | b1 :: r1 =>
      if b1 <? 128 then Some b1 :: utf8_scan r1
      else if (b1 <? 194) || (245 <=? b1) then None :: utf8_scan r1
      else match r1 with
        | [] => [None]
        | b2 :: r2 =>
            if negb (second_ok b1 b2) then None :: utf8_scan r1
            else if b1 <? 224 then
              Some (Z.shiftl b1 6 + b2 - (Z.shiftl 192 6 + 128)) :: utf8_scan r2
            else match r2 with
              | [] => [None]
              | b3 :: r3 =>
                  if negb (is_cont b3) then None :: utf8_scan r2
                  else if b1 <? 240 then
                    Some (Z.shiftl b1 12 + Z.shiftl b2 6 + b3 -
                          (Z.shiftl 224 12 + Z.shiftl 128 6 + 128)) :: utf8_scan r3
                  else match r3 with
                    | [] => [None]
                    | b4 :: r4 =>
                        if negb (is_cont b4) then None :: utf8_scan r3
                        else Some (Z.shiftl b1 18 + Z.shiftl b2 12 + Z.shiftl b3 6 + b4 -
                                   (Z.shiftl 240 18 + Z.shiftl 128 12 + Z.shiftl 128 6 + 128))
                             :: utf8_scan r4
                    end
              end
        end
  end.

(** The [errors=] argument of [bytes.decode] the code uses. *)
Inductive errors_mode := Strict | Ignore.

(** [bs.decode("utf-8", errors=...)]. *)
Definition utf8_decode (errors : errors_mode) (bs : list Z) : res pystr :=
  let cs := utf8_scan bs in
  match errors with
  | Ignore => inr (omap id cs)
  | Strict => if forallb (fun o => bool_decide (is_Some o)) cs then inr (omap id cs)
              else inl UnicodeDecodeError
  end.

(** ** Bytes, code points and the arithmetic of the bit operations *)

(** A Unicode scalar value: a code point that is not a surrogate. *)
Definition scalar (c : Z) : Prop := 0 <= c < 1114112 /\ is_surrogate c = false.

#[export] Instance scalar_dec c : Decision (scalar c).
Proof. unfold scalar. apply _. Defined.

Lemma lor_low_add a y k :
  0 <= k -> a mod 2 ^ k = 0 -> 0 <= y < 2 ^ k -> Z.lor a y = a + y.
Proof.
  intros Hk Ha Hy.
  assert (Hand : Z.land a y = 0).
  { rewrite <- (Z.mod_small y (2 ^ k)) by lia. rewrite <- Z.land_ones by lia.
    rewrite Z.land_assoc, (Z.land_comm a), <- Z.land_assoc, Z.land_ones, Ha by lia.
    apply Z.land_0_r. }
  rewrite <- Z.lxor_lor by done. symmetry. by apply Z.add_nocarry_lxor.
Qed.

Lemma land_63 x : Z.land x 63 = x mod 64.
Proof. change 63 with (Z.ones 6). by rewrite Z.land_ones. Qed.

Lemma shiftr_div x k : 0 <= k -> Z.shiftr x k = x / 2 ^ k.
Proof. apply Z.shiftr_div_pow2. Qed.

Lemma shiftl_mul x k : 0 <= k -> Z.shiftl x k = x * 2 ^ k.
Proof. apply Z.shiftl_mul_pow2. Qed.

Ltac utf8_arith :=
  repeat first
    [ rewrite land_63
    | rewrite shiftr_div by lia
    | rewrite shiftl_mul by lia ];
  repeat match goal with
  | |- context [2 ^ ?k] => let v := eval vm_compute in (2 ^ k) in change (2 ^ k) with v
  end;
  repeat match goal with
  | |- context [Z.lor ?a ?x] =>
      let k := match a with 128 => constr:(6) | 192 => constr:(5) | 224 => constr:(4)
                           | 240 => constr:(3) end in
      rewrite (lor_low_add a x k) by (cbn; Z.to_euclidean_division_equations; lia)
  end.

Lemma is_surrogate_false c : is_surrogate c = false <-> c < 55296 \/ 57343 < c.
Proof. unfold is_surrogate. rewrite andb_false_iff, Z.leb_gt, Z.leb_gt. lia. Qed.

Lemma is_surrogate_true c : is_surrogate c = true <-> 55296 <= c <= 57343.
Proof. unfold is_surrogate. rewrite andb_true_iff, Z.leb_le, Z.leb_le. lia. Qed.

(** Settle every comparison of the goal that [lia] decides. *)
Ltac decide_cmp :=
  repeat match goal with
  | |- context [?a <? ?b] =>
      first [ rewrite (proj2 (Z.ltb_lt a b)) by lia | rewrite (proj2 (Z.ltb_ge a b)) by lia ]
  | |- context [?a <=? ?b] =>
      first [ rewrite (proj2 (Z.leb_le a b)) by lia | rewrite (proj2 (Z.leb_gt a b)) by lia ]
  | |- context [?a =? ?b] =>
      first [ rewrite (proj2 (Z.eqb_eq a b)) by lia | rewrite (proj2 (Z.eqb_neq a b)) by lia ]
  end; cbn [andb orb negb].

(** Settle the comparisons, splitting on the equalities [lia] cannot decide
    (the lead bytes with a special second-byte range). *)
Ltac split_cmp :=
  decide_cmp;
  repeat (match goal with |- context [?a =? ?b] => destruct (a =? b) eqn:? end;
          py_norm; decide_cmp).

(** ** The decoder reads back what the encoder writes *)

Lemma utf8_scan_2 q r rest :
  2 <= q < 32 -> 0 <= r < 64 ->
  utf8_scan ((192 + q) :: (128 + r) :: rest) = Some (64 * q + r) :: utf8_scan rest.
Proof.
  intros Hq Hr. cbn [utf8_scan]. unfold second_ok, is_cont. decide_cmp.
  utf8_arith. do 2 f_equal. lia.
Qed.

Lemma utf8_scan_3 a q r rest :
  0 <= a < 16 -> 0 <= q < 64 -> 0 <= r < 64 ->
  2048 <= 4096 * a + 64 * q + r -> is_surrogate (4096 * a + 64 * q + r) = false ->
  utf8_scan ((224 + a) :: (128 + q) :: (128 + r) :: rest) =
  Some (4096 * a + 64 * q + r) :: utf8_scan rest.
Proof.
  intros Ha Hq Hr Hlo Hs. apply is_surrogate_false in Hs.
  cbn [utf8_scan]. unfold second_ok, is_cont. split_cmp;
  utf8_arith; do 2 f_equal; lia.
Qed.

Lemma utf8_scan_4 a p q r rest :
  0 <= a < 8 -> 0 <= p < 64 -> 0 <= q < 64 -> 0 <= r < 64 ->
  65536 <= 262144 * a + 4096 * p + 64 * q + r < 1114112 ->
  utf8_scan ((240 + a) :: (128 + p) :: (128 + q) :: (128 + r) :: rest) =
  Some (262144 * a + 4096 * p + 64 * q + r) :: utf8_scan rest.
Proof.
  intros Ha Hp Hq Hr Hc.
  cbn [utf8_scan]. unfold second_ok, is_cont. split_cmp;
  utf8_arith; do 2 f_equal; lia.
Qed.

(** One code point: its bytes decode to it, whatever follows them. *)
Lemma utf8_scan_encode_char c (rest : list Z) :
  scalar c ->
  exists bs, utf8_encode_char c = inr bs /\ Forall (fun b => 0 <= b < 256) bs /\
             utf8_scan (bs ++ rest) = Some c :: utf8_scan rest.
Proof.
  intros [Hr Hs]. pose proof Hs as Hs'. apply is_surrogate_false in Hs.
  unfold utf8_encode_char. rewrite Hs'.
  destruct (c <? 128) eqn:H1; [| destruct (c <? 2048) eqn:H2;
    [| destruct (c <? 65536) eqn:H4]]; py_norm;
  (eexists; split; [reflexivity |]); utf8_arith; cbn [app].
  - split; [repeat constructor; lia |]. cbn [utf8_scan]. by decide_cmp.
  - split; [repeat constructor; Z.to_euclidean_division_equations; lia |].
    rewrite utf8_scan_2 by (Z.to_euclidean_division_equations; lia).
    do 2 f_equal. Z.to_euclidean_division_equations; lia.
  - split; [repeat constructor; Z.to_euclidean_division_equations; lia |].
    rewrite utf8_scan_3;
      [do 2 f_equal | .. | rewrite is_surrogate_false];
      Z.to_euclidean_division_equations; lia.
  - split; [repeat constructor; Z.to_euclidean_division_equations; lia |].
    rewrite utf8_scan_4; [do 2 f_equal | ..]; Z.to_euclidean_division_equations; lia.
Qed.

(** A string without surrogates: its bytes decode to it. *)
Lemma utf8_scan_encode s (rest : list Z) :
  Forall scalar s ->
  exists bs, utf8_encode s = inr bs /\ Forall (fun b : Z => 0 <= b < 256) bs /\
             utf8_scan (bs ++ rest) = map Some s ++ utf8_scan rest.
Proof.
  unfold utf8_encode. induction 1 as [|c s Hc Hs IH]; [by exists [] |].
  destruct IH as (bs & Hbs & Hb & Hscan).
  destruct (utf8_scan_encode_char c (bs ++ rest) Hc) as (b & Hb1 & Hb1r & Hscan1).
  apply res_bind_inv in Hbs as (bss & Hbss & [= <-]).
  exists (b ++ concat bss). cbn [res_map]. rewrite Hb1, Hbss. cbn [res_bind].
  split_and!; [done | by apply Forall_app |]. by rewrite <- app_assoc, Hscan1, Hscan.
Qed.

Lemma omap_some {A} (s : list A) : omap id (map Some s) = s.
Proof. induction s; by f_equal /=. Qed.

Lemma forallb_some {A} (s : list A) : forallb (fun o => bool_decide (is_Some o)) (map Some s) = true.
Proof. induction s as [|a s IH]; [done |]. cbn [map forallb]. rewrite IH, bool_decide_true; eauto. Qed.

(** [s.encode("utf-8")] raises exactly when [s] holds a surrogate. *)
Lemma utf8_encode_error s :
  Forall (fun c => 0 <= c < 1114112) s ->
  utf8_encode s = inl UnicodeEncodeError <-> Exists (fun c => is_surrogate c = true) s.
Proof.
  unfold utf8_encode. induction 1 as [|c s Hc Hs IH]; [split; [done | inversion 1] |].
  rewrite Exists_cons. cbn [res_map].
  destruct (is_surrogate c) eqn:Hsur.
  - unfold utf8_encode_char. rewrite Hsur. apply is_surrogate_true in Hsur.
    rewrite (proj2 (Z.ltb_ge c 128)), (proj2 (Z.ltb_ge c 2048)) by lia. cbn. tauto.
  - destruct (utf8_scan_encode_char c [] (conj Hc Hsur)) as (b & -> & _).
    cbn [res_bind]. rewrite <- IH. destruct (res_map utf8_encode_char s); cbn; intuition congruence.
Qed.

(** ** The decoder produces scalar values only *)

Lemma is_cont_true b : is_cont b = true -> 128 <= b <= 191.
Proof. unfold is_cont. intros H. py_norm. lia. Qed.

Lemma second_ok_true b1 b2 :
  second_ok b1 b2 = true ->
  128 <= b2 <= 191 /\ (b1 = 224 -> 160 <= b2) /\ (b1 = 237 -> b2 <= 159) /\
  (b1 = 240 -> 144 <= b2) /\ (b1 = 244 -> b2 <= 143).
Proof. unfold second_ok, is_cont. intros H. repeat case_match; py_norm; lia. Qed.

(** Split on the tests of [utf8_scan] in the goal. *)
Ltac scan_cases :=
  repeat match goal with
  | |- context [if negb ?c then _ else _] =>
      let E := fresh "E" in destruct c eqn:E; cbn [negb];
      [ first [ apply second_ok_true in E | apply is_cont_true in E ] | ]
  | |- context [if ?a || ?b then _ else _] => destruct a eqn:?; [| destruct b eqn:?]; cbn [orb]
  | |- context [if ?c then _ else _] => destruct c eqn:?
  | |- context [match ?l with [] => _ | _ :: _ => _ end] => destruct l
  end; py_norm.

Lemma utf8_scan_scalar bs :
  Forall (fun b : Z => 0 <= b < 256) bs ->
  Forall (fun o => forall c, o = Some c -> scalar c) (utf8_scan bs).
Proof.
  induction bs as [bs IH] using (induction_ltof1 _ (@length _)); unfold ltof in IH.
  intros Hb. destruct bs as [|b1 r1]; [constructor |].
  assert (Hsub : forall r, suffix r r1 -> Forall (fun o => forall c, o = Some c -> scalar c) (utf8_scan r)).
  { intros r Hr. apply IH.
    - apply suffix_length in Hr. cbn. lia.
    - destruct Hr as [k ->]. inversion Hb as [|? ? ? Hk]. by apply Forall_app in Hk as [_ ?]. }
  apply Forall_cons in Hb as [Hb1 Hr1].
  cbn [utf8_scan]. scan_cases;
  repeat apply Forall_cons_2; try apply Forall_nil_2;
  try (apply Hsub; solve_suffix); try discriminate;
  intros c [= <-]; split; utf8_arith; try (apply is_surrogate_false);
  repeat match goal with H : Forall _ (_ :: _) |- _ => apply Forall_cons in H as [? ?] end;
  lia.
Qed.

Lemma omap_scalar (cs : list (option Z)) :
  Forall (fun o => forall c, o = Some c -> scalar c) cs -> Forall scalar (omap id cs).
Proof.
  induction 1 as [|[c|] cs Hc _ IH]; cbn; [constructor | | done].
  constructor; [by apply Hc | done].
Qed.

(** ** The codec *)

Lemma utf8_roundtrip s :
  Forall scalar s ->
  exists bs, utf8_encode s = inr bs /\ Forall (fun b : Z => 0 <= b < 256) bs /\
             utf8_decode Strict bs = inr s /\ utf8_decode Ignore bs = inr s.
Proof.
  intros Hs. destruct (utf8_scan_encode s [] Hs) as (bs & He & Hb & Hscan).
  rewrite app_nil_r in Hscan. exists bs. unfold utf8_decode.
  rewrite Hscan, app_nil_r, forallb_some, omap_some. by split_and!.
Qed.


(** What [errors="ignore"] decodes holds no surrogate, so it encodes
    back without error. *)
Lemma utf8_decode_ignore_scalar bs :
  Forall (fun b : Z => 0 <= b < 256) bs ->
  exists s, utf8_decode Ignore bs = inr s /\ Forall scalar s.
Proof. intros Hb. eexists. split; [reflexivity |]. by apply omap_scalar, utf8_scan_scalar. Qed.

(** The strict decoder, when it succeeds, agrees with the ignoring one. *)
Lemma utf8_decode_strict_ignore bs s :
  utf8_decode Strict bs = inr s -> utf8_decode Ignore bs = inr s.
Proof. unfold utf8_decode. by case_match. Qed.

