(* ===== verification/Io.v ===== *)
(** * Standard output, exceptions and paths: the effects of the scripts' [main]

    The [main] functions of the scripts print as they go and may raise:
    [io A] is a computation that, from what standard output holds so far,
    gives its result (a value or an exception) and what standard output
    holds after it.  An exception stops the computation and keeps the
    output printed before it, as Python does.

    [print] is the builtin with its default [sep=" "] and [end="\n"]: it
    writes each argument, the separator between two of them, then the
    end, each by one [sys.stdout.write].  Standard output is a text
    stream that encodes with UTF-8 and the strict error handler (its
    configuration under a UTF-8 locale such as [en_US.UTF-8], outside
    Python's UTF-8 mode): a write of a string holding a surrogate raises
    [UnicodeEncodeError] and writes nothing, what earlier writes wrote
    stays.  Such strings reach [print] from the command line, where
    Python decodes the bytes of an argument that are not UTF-8 to lone
    surrogates.

    [path_str] is [str(Path(s))] on POSIX ([pathlib] of CPython 3.12):
    repeated slashes and ["."] components are dropped, the root is kept
    (two leading slashes are kept as they are, three or more become one),
    and the empty path is ["."]. *)

From S2P Require Import Prelude PyStr Utf8.

Declare Scope io_scope.
Delimit Scope io_scope with io.

(** ** The monad *)

Definition io (A : Type) : Type := pystr -> res A * pystr.

Definition io_ret {A} (a : A) : io A := fun out => (inr a, out).

Definition io_bind {A B} (m : io A) (k : A -> io B) : io B :=
  fun out => match m out with
             | (inr a, out') => k a out'
             | (inl e, out') => (inl e, out')
             end.

(** A computation of the model that does not print. *)
Definition io_lift {A} (m : res A) : io A := fun out => (m, out).

Notation "x <- m ;; k" := (io_bind m (fun x => k))
  (at level 60, m at next level, right associativity) : io_scope.
Notation "m ;;; k" := (io_bind m (fun _ => k))
  (at level 60, right associativity) : io_scope.

(** [for x in xs: b = f(b, x)] in the monad. *)
Fixpoint io_fold_left {A B} (f : B -> A -> io B) (xs : list A) (b : B) : io B :=
  match xs with
  | [] => io_ret b
  | x :: xs' => io_bind (f b x) (io_fold_left f xs')
  end.

(** ** Standard output *)

(** A string the strict UTF-8 encoder accepts: it holds no surrogate. *)
Definition encodable (s : pystr) : Prop := Forall (fun c => is_surrogate c = false) s.

#[export] Instance encodable_dec s : Decision (encodable s).
Proof. unfold encodable. apply _. Defined.

(** [sys.stdout.write(s)]. *)
Definition io_write (s : pystr) : io unit := fun out =>
  match utf8_encode s with
  | inl e => (inl e, out)
  | inr _ => (inr tt, out ++ s)
  end.

(** The strings [print] writes for [args] before its end: each argument,
    and the separator between two of them. *)
Fixpoint print_writes (args : list pystr) : list pystr :=
  match args with
  | [] => []
  | [x] => [x]
  | x :: args' => x :: [32] :: print_writes args'
  end.

(** [print] of the arguments [args]. *)
Definition io_print (args : list pystr) : io unit :=
  io_fold_left (fun _ s => io_write s) (print_writes args ++ [[NL]]) tt.

(** What [print] of [args] writes when it does not raise. *)
Definition print (args : list pystr) : pystr := py_join [32] args ++ [NL].

(** A sequence of [print] calls, each given by its arguments. *)
Definition io_prints (calls : list (list pystr)) : io unit :=
  io_fold_left (fun _ args => io_print args) calls tt.

Definition prints (calls : list (list pystr)) : pystr := concat (map print calls).

(** ** Runs of a loop as a step relation *)

(** [eventually R P s]: every run of [R] from [s] reaches a state with
    [P], and no run stops before (the combinator of coqutil's
    omnisemantics, for a relation). *)
Section Eventually.
Context {S : Type} (R : S -> S -> Prop).

Inductive eventually (P : S -> Prop) : S -> Prop :=
  | eventually_done s : P s -> eventually P s
  | eventually_step s :
      (exists s', R s s') -> (forall s', R s s' -> eventually P s') -> eventually P s.

Lemma eventually_weaken (P Q : S -> Prop) s :
  eventually P s -> (forall s', P s' -> Q s') -> eventually Q s.
Proof. induction 1; eauto using eventually. Qed.
End Eventually.

(** ** Paths *)

(** [posixpath.splitroot]: the root and the rest. *)
Definition split_root (s : pystr) : pystr * pystr :=
  match s with
  | 47 :: 47 :: 47 :: _ => ([47], tail s)
  | 47 :: 47 :: rest => ([47; 47], rest)
  | 47 :: rest => ([47], rest)
  | _ => ([], s)
  end.

(** The components [Path(s)] keeps: empty ones and ["."] are dropped. *)
Definition path_parts (rel : pystr) : list pystr :=
  filter (fun x => bool_decide (x <> [] /\ x <> py ".")) (py_split 47 rel).

(** [str(Path(s))]. *)
Definition path_str (s : pystr) : pystr :=
  let '(root, rel) := split_root s in
  match root ++ py_join [47] (path_parts rel) with
  | [] => py "."
  | p => p
  end.

(** [Path(s).name]: the last component, or [""]. *)
Definition path_name (s : pystr) : pystr :=
  default [] (last (path_parts (split_root s).2)).

(** ** Lemmas *)

Lemma io_bind_ret {A B} (a : A) (k : A -> io B) out : io_bind (io_ret a) k out = k a out.
Proof. reflexivity. Qed.

Lemma io_bind_lift_ok {A B} (a : A) (k : A -> io B) out : io_bind (io_lift (inr a)) k out = k a out.
Proof. reflexivity. Qed.

Lemma io_bind_lift_err {A B} e (k : A -> io B) out : io_bind (io_lift (inl e)) k out = (inl e, out).
Proof. reflexivity. Qed.

Lemma io_bind_run {A B} (m : io A) (k : A -> io B) out a out' :
  m out = (inr a, out') -> io_bind m k out = k a out'.
Proof. unfold io_bind. by intros ->. Qed.

(** An exception stops the rest of the computation. *)
Lemma io_bind_raise {A B} (m : io A) (k : A -> io B) out e out' :
  m out = (inl e, out') -> io_bind m k out = (inl e, out').
Proof. unfold io_bind. by intros ->. Qed.

Lemma io_bind_assoc {A B C} (m : io A) (k : A -> io B) (h : B -> io C) out :
  io_bind (io_bind m k) h out = io_bind m (fun a => io_bind (k a) h) out.
Proof. unfold io_bind. destruct (m out) as [[e | a] out']; [done |]. reflexivity. Qed.

#[export] Hint Rewrite @io_bind_ret @io_bind_lift_ok @io_bind_lift_err : pyrag_rw.

(** ** The strict encoder and standard output *)

Lemma utf8_encode_char_ok c : is_surrogate c = false -> exists b, utf8_encode_char c = inr b.
Proof. intros Hc. unfold utf8_encode_char. rewrite Hc. repeat case_match; eauto. Qed.

Lemma utf8_encode_char_err c : is_surrogate c = true -> utf8_encode_char c = inl UnicodeEncodeError.
Proof.
  intros Hc. pose proof Hc as Hr. apply is_surrogate_true in Hr. unfold utf8_encode_char.
  rewrite Hc, (proj2 (Z.ltb_ge c 128)), (proj2 (Z.ltb_ge c 2048)) by lia. done.
Qed.

(** The strict encoder succeeds exactly on the strings without surrogate,
    whatever their code points. *)
Lemma utf8_encode_ok s : encodable s -> exists bs, utf8_encode s = inr bs.
Proof.
  unfold utf8_encode. induction 1 as [|c s Hc _ IH]; [by eexists |].
  destruct (utf8_encode_char_ok c Hc) as [b Hb], IH as [bs Hbs]. cbn [res_map].
  rewrite Hb. cbn [res_bind]. destruct (res_map utf8_encode_char s); [done |]. by eexists.
Qed.

Lemma utf8_encode_fail s : ¬ encodable s -> utf8_encode s = inl UnicodeEncodeError.
Proof.
  unfold encodable, utf8_encode. induction s as [|c s IH]; intros Hs; [by destruct Hs |].
  cbn [res_map]. rewrite Forall_cons in Hs. destruct (is_surrogate c) eqn:Hc.
  - by rewrite utf8_encode_char_err.
  - destruct (utf8_encode_char_ok c Hc) as [b ->]. cbn [res_bind].
    destruct (res_map utf8_encode_char s) eqn:Hm; cbn [res_bind] in IH |- *;
      [by rewrite IH by tauto | exfalso].
    apply Hs. split; [done |]. destruct (decide (encodable s)) as [He | He]; [done |].
    specialize (IH He). discriminate.
Qed.

Lemma encodable_app s t : encodable (s ++ t) <-> encodable s /\ encodable t.
Proof. apply Forall_app. Qed.

Lemma encodable_app_2 s t : encodable s -> encodable t -> encodable (s ++ t).
Proof. intros. by apply encodable_app. Qed.

(** Every code point below the surrogates is encodable: ASCII literals,
    digits, the characters the code writes itself. *)
Lemma encodable_low s : Forall (fun c => c < 55296) s -> encodable s.
Proof. intros Hs. eapply Forall_impl; [exact Hs |]. intros c Hc. apply is_surrogate_false. left. exact Hc. Qed.

Lemma encodable_py s : encodable (py s).
Proof.
  apply encodable_low, Forall_forall. intros c Hc. unfold py in Hc.
  apply elem_of_map_iff in Hc as (a & -> & _). pose proof (Ascii.nat_ascii_bounded a). lia.
Qed.

Lemma encodable_nil : encodable [].
Proof. constructor. Qed.

#[export] Hint Resolve encodable_app_2 encodable_py encodable_nil : pyrag.

Lemma io_write_ok s out : encodable s -> io_write s out = (inr tt, out ++ s).
Proof. intros Hs. unfold io_write. by destruct (utf8_encode_ok s Hs) as [bs ->]. Qed.

Lemma io_write_err s out : ¬ encodable s -> io_write s out = (inl UnicodeEncodeError, out).
Proof. intros Hs. unfold io_write. by rewrite utf8_encode_fail. Qed.

Lemma print_writes_join args : concat (print_writes args) = py_join [32] args.
Proof.
  induction args as [|x [|y args] IH]; [done | by cbn; rewrite app_nil_r |].
  cbn [print_writes concat py_join] in *. rewrite IH. done.
Qed.

Lemma io_fold_writes ws out :
  Forall encodable ws -> io_fold_left (fun _ s => io_write s) ws tt out = (inr tt, out ++ concat ws).
Proof.
  intros Hws. revert out. induction Hws as [|w ws Hw _ IH]; intros out; [by rewrite app_nil_r |].
  cbn [io_fold_left concat]. unfold io_bind. rewrite io_write_ok by done. by rewrite IH, app_assoc.
Qed.

Lemma print_writes_encodable args : Forall encodable args -> Forall encodable (print_writes args).
Proof.
  induction args as [|x [|y args] IH]; intros Hargs; inversion Hargs as [|? ? Hx Hrest]; subst;
    cbn [print_writes]; [constructor | by repeat constructor |].
  constructor; [done |]. constructor; [apply encodable_low; repeat constructor; lia |]. by apply IH.
Qed.

(** [print] of encodable arguments writes [print args]. *)
Lemma io_print_ok args out : Forall encodable args -> io_print args out = (inr tt, out ++ print args).
Proof.
  intros Hargs. unfold io_print. rewrite io_fold_writes, concat_app, print_writes_join; [done |].
  apply Forall_app. split; [by apply print_writes_encodable |].
  constructor; [apply encodable_low; repeat constructor; unfold NL; lia | constructor].
Qed.

Lemma io_bind_print {B} args (k : unit -> io B) out :
  Forall encodable args -> io_bind (io_print args) k out = k tt (out ++ print args).
Proof. intros Hargs. unfold io_bind. by rewrite io_print_ok. Qed.

(** [print(s)] of one string holding a surrogate raises and writes
    nothing. *)
Lemma io_print_err s out : ¬ encodable s -> io_print [s] out = (inl UnicodeEncodeError, out).
Proof. intros Hs. unfold io_print. cbn. unfold io_bind. by rewrite io_write_err. Qed.

Lemma io_bind_print_err {B} s (k : unit -> io B) out :
  ¬ encodable s -> io_bind (io_print [s]) k out = (inl UnicodeEncodeError, out).
Proof. intros Hs. unfold io_bind. by rewrite io_print_err. Qed.

Lemma encodable_mid p x q : encodable (p ++ x ++ q) -> encodable x.
Proof. by intros [_ [? _]%encodable_app]%encodable_app. Qed.

Lemma encodable_py_join sep xs : encodable sep -> Forall encodable xs -> encodable (py_join sep xs).
Proof.
  intros Hsep. induction 1 as [|x [|y xs] Hx Hxs IH]; [constructor | exact Hx |].
  cbn [py_join]. repeat apply encodable_app_2; [done | done |]. exact IH.
Qed.

Lemma io_prints_ok calls out :
  Forall (Forall encodable) calls -> io_prints calls out = (inr tt, out ++ prints calls).
Proof.
  unfold io_prints, prints. intros Hc. revert out.
  induction Hc as [|c cs Hc _ IH]; intros out; [by rewrite app_nil_r |].
  cbn [io_fold_left map concat]. rewrite io_bind_print by done. by rewrite IH, app_assoc.
Qed.

(** Proves a printed string encodable: the concatenation is split as
    written, literals and ASCII characters are discharged, the rest by
    the hypotheses and the [pyrag] lemmas. *)
Ltac encodable_solve :=
  repeat match goal with
         | |- encodable (_ ++ _) => apply encodable_app_2
         end;
  first [ assumption | apply encodable_py | apply encodable_nil
        | apply encodable_low; repeat constructor; lia | eauto with pyrag ].

(** Runs one [print] of an encodable string. *)
Ltac print_ok := rewrite io_bind_print by (apply Forall_cons_2; [encodable_solve | apply Forall_nil_2]).
