(* ===== verification/Normalize.v ===== *)
(** * The line normalizer: [normalize_lines] of [src/chunk.py]

    The loop of [normalize_lines] (lines 50-62) keeps two pieces of state,
    the output list [normalized] and the length [blank_run] of the current
    run of blank lines.  It is modelled as [norm_step], one iteration of
    the [for] loop on that state, folded over the lines of the text.  The
    file proves that the loop implements a declarative reference
    [collapse] (keep the first blank line of each run, drop the others,
    right-strip every other line), and from it the properties the spec
    asks of the normalizer. *)

From S2P Require Import Prelude PyStr.

(** ** The code *)

(** The state of the loop: [normalized] and [blank_run]. *)
Record norm_state := mk_norm_state {
  normalized : list pystr;
  blank_run : Z
}.

(** [normalized = []; blank_run = 0]. *)
Definition norm_init : norm_state := mk_norm_state [] 0.

(** One iteration of [for ln in lines:] (lines 55-61). *)
Definition norm_step (st : norm_state) (ln : pystr) : norm_state :=
  if py_blank ln then
    let br := blank_run st + 1 in
    mk_norm_state (if br <=? 1 then normalized st ++ [[]] else normalized st) br
  else mk_norm_state (normalized st ++ [py_rstrip ln]) 0.

(** [normalize_lines(text)]. *)
Definition normalize_lines (text : pystr) : list pystr :=
  let lines := py_split NL (unify_newlines text) in
  normalized (fold_left norm_step lines norm_init).

(** ** The reference: collapse blank runs *)

(** [collapse prev ls]: [prev] says whether the previous line was blank. *)
Fixpoint collapse (prev_blank : bool) (ls : list pystr) : list pystr :=
  match ls with
  | [] => []
  | l :: ls' =>
      if py_blank l then
        if prev_blank then collapse true ls' else [] :: collapse true ls'
      else py_rstrip l :: collapse false ls'
  end.

(** No two consecutive lines are both blank. *)
Fixpoint no_double_blank (ls : list pystr) : bool :=
  match ls with
  | x :: ((y :: _) as rest) => negb (py_blank x && py_blank y) && no_double_blank rest
  | _ => true
  end.

(** The shape of a normalized line: no line break, no trailing
    whitespace. *)
Definition norm_line (l : pystr) : Prop :=
  (NL ∉ l) /\ (CR ∉ l) /\ py_rstrip l = l.

(** ** The loop implements [collapse] *)

Section Loop.
Implicit Types (ls : list pystr) (st : norm_state).

Lemma fold_norm_step ls st :
  0 <= blank_run st ->
  normalized (fold_left norm_step ls st) =
  normalized st ++ collapse (0 <? blank_run st) ls.
Proof.
  revert st. induction ls as [|l ls IH]; intros st Hbr; simpl.
  - by rewrite app_nil_r.
  - unfold norm_step. destruct (py_blank l) eqn:Hl.
    + rewrite IH by (simpl; lia). simpl.
      replace (0 <? blank_run st + 1) with true by py_cases.
      destruct (0 <? blank_run st) eqn:Hb; py_cases;
        rewrite <-?app_assoc; done.
    + rewrite IH by (simpl; lia). simpl. by rewrite <- app_assoc.
Qed.

(** Refinement: the imperative loop computes [collapse]. *)
Lemma normalize_lines_collapse text :
  normalize_lines text = collapse false (py_split NL (unify_newlines text)).
Proof. unfold normalize_lines. by rewrite fold_norm_step. Qed.
End Loop.

(** ** Properties of [collapse] *)

Section Collapse.
Implicit Types (ls : list pystr).

Lemma collapse_true_head ls :
  match collapse true ls with [] => True | x :: _ => py_blank x = false end.
Proof.
  induction ls as [|l ls IH]; simpl; [done |].
  destruct (py_blank l) eqn:Hl; [done |]. by rewrite py_blank_rstrip.
Qed.

Lemma collapse_no_double_blank b ls : no_double_blank (collapse b ls) = true.
Proof.
  revert b. induction ls as [|l ls IH]; intros b; simpl; [done |].
  pose proof (collapse_true_head ls) as Hh.
  destruct (py_blank l) eqn:Hl; [destruct b; [done |] |].
  - specialize (IH true). destruct (collapse true ls) as [|x r]; [done |].
    change (negb (py_blank [] && py_blank x) && no_double_blank (x :: r) = true).
    by rewrite Hh.
  - specialize (IH false). destruct (collapse false ls) as [|x r]; [done |].
    change (negb (py_blank (py_rstrip l) && py_blank x) && no_double_blank (x :: r) = true).
    rewrite py_blank_rstrip, Hl. exact IH.
Qed.

Lemma collapse_lines P b ls :
  P [] -> (forall l, l ∈ ls -> py_blank l = false -> P (py_rstrip l)) ->
  Forall P (collapse b ls).
Proof.
  intros Hnil Hl. revert b. induction ls as [|l ls IH]; intros b; simpl; [done |].
  destruct (py_blank l) eqn:Hb; [destruct b |]; repeat constructor;
    try apply IH; try apply Hl; set_solver.
Qed.

Lemma collapse_idem b ls : collapse b (collapse b ls) = collapse b ls.
Proof.
  revert b. induction ls as [|l ls IH]; intros b; simpl; [done |].
  destruct (py_blank l) eqn:Hl; [destruct b |]; simpl; rewrite ?IH; [done | done |].
  by rewrite py_blank_rstrip, Hl, py_rstrip_idem.
Qed.

Lemma collapse_nonblank b ls :
  filter (fun l => py_blank l = false) (collapse b ls) =
  map py_rstrip (filter (fun l => py_blank l = false) ls).
Proof.
  revert b. induction ls as [|l ls IH]; intros b; simpl; [done |].
  destruct (py_blank l) eqn:Hl; [destruct b |].
  - rewrite filter_cons_False by congruence. auto.
  - rewrite !filter_cons_False by (rewrite ?py_blank_nil; congruence). auto.
  - rewrite !filter_cons_True by (rewrite ?py_blank_rstrip; done). simpl. by rewrite IH.
Qed.

Lemma collapse_false_nonempty l ls : collapse false (l :: ls) <> [].
Proof. simpl. by destruct (py_blank l). Qed.
(** How many lines [collapse] drops: one per blank line that follows a
    blank line, and the first line when it is blank after a blank one. *)
Fixpoint blank_pairs (ls : list pystr) : nat :=
  match ls with
  | x :: ((y :: _) as rest) => (if py_blank x && py_blank y then 1 else 0) + blank_pairs rest
  | _ => 0
  end.

Definition first_blank (ls : list pystr) : bool :=
  match ls with x :: _ => py_blank x | [] => false end.

Lemma blank_pairs_cons l ls :
  blank_pairs (l :: ls) = ((if py_blank l && first_blank ls then 1 else 0) + blank_pairs ls)%nat.
Proof. destruct ls as [|y ls]; [by destruct (py_blank l) |]. reflexivity. Qed.

(** [collapse] keeps every line but the blank ones after a blank one. *)
Lemma collapse_length b ls :
  (length (collapse b ls) + blank_pairs ls + (if b && first_blank ls then 1 else 0) = length ls)%nat.
Proof.
  revert b. induction ls as [|l ls IH]; intros b; [by destruct b |].
  rewrite blank_pairs_cons. cbn [collapse first_blank length].
  specialize (IH true) as IHt. specialize (IH false) as IHf. cbn [andb] in IHf.
  destruct (py_blank l), b, (first_blank ls); cbn [andb length] in *; lia.
Qed.

Lemma blank_pairs_app xs ys : (blank_pairs xs + blank_pairs ys <= blank_pairs (xs ++ ys))%nat.
Proof.
  induction xs as [|x xs IH]; [done |]. rewrite <- app_comm_cons, !blank_pairs_cons.
  destruct xs as [|x' xs]; cbn [first_blank app] in *;
    [destruct (py_blank x), (first_blank ys); cbn; lia | destruct (py_blank x && py_blank x'); lia].
Qed.
End Collapse.

(** ** Properties of [normalize_lines] *)

Lemma norm_line_nil : norm_line [].
Proof. split; [| split]; [set_solver | set_solver | done]. Qed.

Lemma normalize_lines_nonempty text : normalize_lines text <> [].
Proof.
  rewrite normalize_lines_collapse.
  destruct (py_split NL (unify_newlines text)) eqn:E; [by apply py_split_nonempty in E |].
  apply collapse_false_nonempty.
Qed.

(** A normalized line that is blank is the empty string. *)
Lemma norm_line_blank l : norm_line l -> py_blank l = true -> l = [].
Proof.
  intros (_ & _ & Hr) Hb. apply py_blank_spec, py_rstrip_nil_iff in Hb. congruence.
Qed.

(** A string without carriage returns whose lines are normalized lines
    has no carriage return. *)
Lemma join_norm_lines_no_cr ls : Forall norm_line ls -> CR ∉ py_join [NL] ls.
Proof.
  intros Hls Hc. apply elem_of_py_join in Hc as [Hc | (x & Hx & Hcx)].
  - apply list_elem_of_singleton in Hc. discriminate.
  - eapply Forall_forall in Hls as (_ & Hcr & _); [| exact Hx]. done.
Qed.

#[export] Hint Resolve norm_line_nil : pyrag.

(** ** The properties of the normalizer *)

(** C7 [Invariant] (spec §3 Line Index, §8): no two consecutive lines of
    the output of [normalize_lines] are blank; in particular no two
    consecutive entries are empty strings. *)
Theorem normalize_lines_no_double_blank text :
  no_double_blank (normalize_lines text) = true.
Proof. rewrite normalize_lines_collapse. apply collapse_no_double_blank. Qed.

Lemma normalize_lines_norm text : Forall norm_line (normalize_lines text).
Proof.
  rewrite normalize_lines_collapse. apply collapse_lines; [apply norm_line_nil |].
  intros l Hl _. split; [| split]; [| | apply py_rstrip_idem].
  - intros Hn. apply elem_of_py_rstrip in Hn.
    eapply Forall_forall in Hl; [| apply py_split_sep_free]. done.
  - intros Hc. apply elem_of_py_rstrip in Hc.
    eapply unify_newlines_no_cr, py_split_elem; eauto.
Qed.

(** C17 [Type] (spec §4.2): every normalized line is free of line breaks
    (["\n"] and ["\r"]) and carries no trailing whitespace; a blank
    output line is the empty string. *)
Theorem normalize_lines_shape text :
  Forall (fun l => norm_line l /\ (py_blank l = true -> l = [])) (normalize_lines text).
Proof.
  apply Forall_impl with norm_line; [| intros l Hl; split; [done | by apply norm_line_blank]].
  apply normalize_lines_norm.
Qed.

(** C16 [Functional] (spec §4.2): normalization drops nothing but blank
    lines: the non-blank output lines are, in order, the non-blank input
    lines right-stripped. *)
Theorem normalize_lines_content text :
  filter (fun l => py_blank l = false) (normalize_lines text) =
  map py_rstrip (filter (fun l => py_blank l = false) (py_split NL (unify_newlines text))).
Proof. rewrite normalize_lines_collapse. apply collapse_nonblank. Qed.

(** C8 [Functional] (spec §8): normalization is idempotent: normalizing
    the text of normalized lines gives the same lines. *)
Theorem normalize_lines_idem text :
  normalize_lines (py_join [NL] (normalize_lines text)) = normalize_lines text.
Proof.
  pose proof (normalize_lines_norm text) as Hls.
  rewrite (normalize_lines_collapse (py_join _ _)).
  rewrite unify_newlines_id by (by apply join_norm_lines_no_cr).
  rewrite py_split_join; [| apply normalize_lines_nonempty |].
  - rewrite normalize_lines_collapse. apply collapse_idem.
  - eapply Forall_impl; [exact Hls | by intros ? []].
Qed.

(** The runs of the spec: Windows line endings are unified, the first
    blank line of a run is kept, whitespace-only lines count as blank. *)
Example normalize_lines_example :
  normalize_lines (py "a  " ++ [CR; NL; CR; NL] ++ py " " ++ [NL; NL] ++ py "b" ++ [CR] ++ py "c")
  = [py "a"; []; py "b"; py "c"].
Proof. reflexivity. Qed.
