(* ===== verification/Chunker.v ===== *)
(** * The chunker: [chunk_by_lines] of [src/chunk.py]

    [chunk_by_lines] (lines 64-85) checks its parameters with two
    [assert]s, then runs [while i < n:] over the loop state
    [(chunks, i)]: each iteration takes the window [lines[i:end]] with
    [end = min(i + lines_per_chunk, n)], joins and strips it, appends
    [(i + 1, end, text)] when the text is not empty, and advances [i] by
    [step = lines_per_chunk - overlap_lines].  The loop is modelled by
    [chunk_body] (one iteration) and [chunk_while] (the loop, with fuel);
    [chunks_spec] is the declarative reference: one window per start
    [0, step, 2 step, ...] below [n]. *)

From S2P Require Import Prelude PyStr.

(** ** The code *)

(** A chunk triple [(start_line, end_line, text)]. *)
Record chunk := mk_chunk {
  start_line : Z;
  end_line : Z;
  chunk_text : pystr
}.

(** The state of the [while] loop. *)
Record loop_state := mk_loop {
  chunks : list chunk;
  cursor : Z  (* [i] *)
}.

(** One iteration of the loop body (lines 78-83). *)
Definition chunk_body (lines : list pystr) (lines_per_chunk step : Z)
    (st : loop_state) : loop_state :=
  let start := cursor st in
  let end_ := Z.min (cursor st + lines_per_chunk) (py_len lines) in
  let chunk_text := py_strip (py_join [NL] (py_slice lines start end_)) in
  mk_loop
    (if py_truthy chunk_text
     then chunks st ++ [mk_chunk (start + 1) end_ chunk_text]
     else chunks st)
    (cursor st + step).

(** [while i < n: ...], run for at most [fuel] iterations; [None] when
    the fuel runs out before the condition fails. *)
Fixpoint chunk_while (fuel : nat) (lines : list pystr) (lines_per_chunk step : Z)
    (st : loop_state) : option loop_state :=
  match fuel with
  | O => None
  | S fuel' =>
      if cursor st <? py_len lines
      then chunk_while fuel' lines lines_per_chunk step (chunk_body lines lines_per_chunk step st)
      else Some st
  end.

(** [chunk_by_lines(lines, lines_per_chunk, overlap_lines)]: the two
    assertions, then the loop from [chunks = []], [i = 0], with fuel
    [len(lines) + 1]. *)
Definition chunk_by_lines (lines : list pystr) (lines_per_chunk overlap_lines : Z)
    : res (list chunk) :=
  if negb (0 <? lines_per_chunk) then inl AssertionError
  else if negb ((0 <=? overlap_lines) && (overlap_lines <? lines_per_chunk))
  then inl AssertionError
  else
    let step := lines_per_chunk - overlap_lines in
    match chunk_while (S (length lines)) lines lines_per_chunk step (mk_loop [] 0) with
    | Some st => inr (chunks st)
    | None => inl OutOfFuel
    end.

(** The parameters the assertions accept. *)
Definition valid_params (lines_per_chunk overlap_lines : Z) : Prop :=
  0 < lines_per_chunk /\ 0 <= overlap_lines < lines_per_chunk.

(** ** The reference *)

(** The chunk of the window starting at index [start], if its text is
    not blank. *)
Definition window (lines : list pystr) (lines_per_chunk start : Z) : option chunk :=
  let end_ := Z.min (start + lines_per_chunk) (py_len lines) in
  let t := py_strip (py_join [NL] (py_slice lines start end_)) in
  if py_truthy t then Some (mk_chunk (start + 1) end_ t) else None.

(** [m] window starts [i, i + step, i + 2 step, ...]. *)
Fixpoint starts_from (i step : Z) (m : nat) : list Z :=
  match m with
  | O => []
  | S m' => i :: starts_from (i + step) step m'
  end.

(** The number of iterations left from cursor [i]: [ceil((n - i) / step)]. *)
Definition iterations (n step i : Z) : nat := Z.to_nat ((n - i + step - 1) / step).

(** The chunks of the windows at [0, step, 2 step, ...] below [n]. *)
Definition chunks_spec (lines : list pystr) (lines_per_chunk overlap_lines : Z) : list chunk :=
  let step := lines_per_chunk - overlap_lines in
  omap (window lines lines_per_chunk)
    (starts_from 0 step (iterations (py_len lines) step 0)).

(** ** The loop computes the reference *)

Lemma iterations_step n step i :
  0 < step -> i < n -> iterations n step i = S (iterations n step (i + step)).
Proof.
  intros Hstep Hi. unfold iterations.
  replace (n - i + step - 1) with ((n - i - 1) + 1 * step) by lia.
  rewrite Z.div_add by lia.
  replace (n - (i + step) + step - 1) with (n - i - 1) by lia.
  pose proof (Z.div_pos (n - i - 1) step ltac:(lia) ltac:(lia)).
  remember ((n - i - 1) / step) as q. lia.
Qed.

Lemma iterations_done n step i : 0 < step -> n <= i -> iterations n step i = O.
Proof.
  intros Hstep Hi. unfold iterations.
  assert ((n - i + step - 1) / step < 1) by (apply Z.div_lt_upper_bound; lia).
  remember ((n - i + step - 1) / step) as q. lia.
Qed.

Section Loop.
Context (lines : list pystr) (lines_per_chunk step : Z).
Context (Hstep : 0 < step).

Lemma chunk_body_window st :
  chunk_body lines lines_per_chunk step st =
  mk_loop (chunks st ++ option_list (window lines lines_per_chunk (cursor st)))
          (cursor st + step).
Proof.
  unfold chunk_body, window. destruct (py_truthy _); simpl; by rewrite ?app_nil_r.
Qed.

(** With more fuel than iterations, the loop exits and has appended the
    chunks of all remaining windows. *)
Lemma chunk_while_run fuel st :
  (iterations (py_len lines) step (cursor st) < fuel)%nat ->
  chunk_while fuel lines lines_per_chunk step st =
  Some (mk_loop
          (chunks st ++ omap (window lines lines_per_chunk)
                              (starts_from (cursor st) step
                                 (iterations (py_len lines) step (cursor st))))
          (cursor st + Z.of_nat (iterations (py_len lines) step (cursor st)) * step)).
Proof.
  revert st. induction fuel as [|fuel IH]; intros st Hfuel; [lia |]. simpl.
  destruct (cursor st <? py_len lines) eqn:Hlt; py_norm.
  - rewrite iterations_step in * by done.
    rewrite IH; rewrite chunk_body_window; simpl; [| lia].
    rewrite <- app_assoc. do 2 f_equal; [| lia].
    destruct (window _ _ _); done.
  - rewrite iterations_done by done. simpl.
    rewrite app_nil_r, Z.add_0_r. by destruct st.
Qed.

Lemma iterations_le_len : (iterations (py_len lines) step 0 <= length lines)%nat.
Proof.
  unfold iterations, py_len. destruct (length lines) as [|m].
  - rewrite Z.div_small by lia. lia.
  - assert ((Z.of_nat (S m) - 0 + step - 1) / step <= Z.of_nat (S m))
      by (apply Z.div_le_upper_bound; nia).
    remember ((Z.of_nat (S m) - 0 + step - 1) / step) as q. lia.
Qed.
End Loop.

Lemma valid_params_dec W O :
  (if negb (0 <? W) then false
   else if negb ((0 <=? O) && (O <? W)) then false else true) = true <-> valid_params W O.
Proof. unfold valid_params. py_cases; destruct (O <? W) eqn:?; py_norm; simpl; lia. Qed.

(** ** Windows and starts *)

Section Windows.
Context (lines : list pystr) (lines_per_chunk : Z).
Implicit Types (s : Z) (c : chunk).

Lemma window_some s c :
  window lines lines_per_chunk s = Some c ->
  start_line c = s + 1 /\
  end_line c = Z.min (s + lines_per_chunk) (py_len lines) /\
  chunk_text c = py_strip (py_join [NL] (py_slice lines s (end_line c))) /\
  chunk_text c <> [].
Proof.
  unfold window. destruct (py_truthy _) eqn:Ht; [| discriminate].
  intros [= <-]. simpl. split_and!; try done. intros He. by rewrite He in Ht.
Qed.

(** A window that holds a non-blank line is emitted. *)
Lemma window_nonblank s k l :
  0 <= s <= k -> k < Z.min (s + lines_per_chunk) (py_len lines) ->
  lines !! Z.to_nat k = Some l -> py_blank l = false ->
  exists c, window lines lines_per_chunk s = Some c.
Proof.
  intros Hs Hk Hl Hb. unfold window.
  destruct (py_blank_witness l Hb) as (ch & Hch & Hsp).
  assert (Hin : l ∈ py_slice lines s (Z.min (s + lines_per_chunk) (py_len lines))).
  { apply elem_of_py_slice; [lia | lia |]. exists k. split; [lia | done]. }
  assert (Hj : py_blank (py_join [NL] (py_slice lines s
                 (Z.min (s + lines_per_chunk) (py_len lines)))) = false).
  { apply (py_blank_false _ ch); [eapply py_join_elem; eauto | done]. }
  rewrite py_strip_truthy, Hj. by eexists.
Qed.

(** A window of blank lines is not emitted. *)
Lemma window_blank s :
  Forall (fun l => py_blank l = true) lines -> window lines lines_per_chunk s = None.
Proof.
  intros Hall. unfold window. rewrite py_strip_truthy, py_blank_join; [done | |].
  - repeat constructor.
  - apply Forall_forall. intros x Hx. apply elem_of_py_slice_sub in Hx.
    by eapply Forall_forall in Hall.
Qed.
End Windows.

Lemma elem_of_starts_from i s m x :
  x ∈ starts_from i s m <-> exists k, (k < m)%nat /\ x = i + Z.of_nat k * s.
Proof.
  revert i. induction m as [|m IH]; intros i; simpl.
  - split; [set_solver | intros (k & Hk & _); lia].
  - rewrite elem_of_cons, IH. split.
    + intros [-> | (k & Hk & ->)]; [exists O; split; lia | exists (S k); split; lia].
    + intros ([|k] & Hk & ->); [left; lia | right; exists k; split; lia].
Qed.

(** The [k]-th start is below [n] exactly when [k < ceil(n / step)]. *)
Lemma iterations_spec n s k :
  0 < s -> (k < iterations n s 0)%nat <-> Z.of_nat k * s < n.
Proof.
  intros Hs. unfold iterations. rewrite Z.sub_0_r.
  pose proof (Z.div_mod (n + s - 1) s ltac:(lia)).
  pose proof (Z.mod_pos_bound (n + s - 1) s Hs).
  remember ((n + s - 1) / s) as q. remember ((n + s - 1) mod s) as r.
  split; intros H1; nia.
Qed.

Lemma elem_of_chunks_spec lines W O c :
  0 < W - O ->
  c ∈ chunks_spec lines W O <->
  exists k, 0 <= k /\ k * (W - O) < py_len lines /\ window lines W (k * (W - O)) = Some c.
Proof.
  intros Hs. unfold chunks_spec. rewrite list_elem_of_omap. split.
  - intros (x & Hx & Hw). apply elem_of_starts_from in Hx as (k & Hk & ->).
    apply iterations_spec in Hk; [| lia]. exists (Z.of_nat k). split_and!; [lia | lia |].
    by rewrite Z.add_0_l in Hw.
  - intros (k & Hk0 & Hk & Hw). exists (k * (W - O)). split; [| done].
    apply elem_of_starts_from. exists (Z.to_nat k). rewrite iterations_spec by lia.
    rewrite Z2Nat.id by lia. split; lia.
Qed.

Lemma starts_from_sorted i s m :
  0 < s -> StronglySorted Z.lt (starts_from i s m) /\ Forall (Z.le i) (starts_from i s m).
Proof.
  intros Hs. revert i. induction m as [|m IH]; intros i; simpl; [split; constructor |].
  destruct (IH (i + s)) as [Hsort Hge]. split.
  - constructor; [done |]. eapply Forall_impl; [exact Hge | simpl; lia].
  - constructor; [lia |]. eapply Forall_impl; [exact Hge | simpl; lia].
Qed.

(** [omap] of a function that maps [<] on its inputs to [R] on its
    outputs keeps a strictly sorted list sorted. *)
Lemma StronglySorted_omap {A B} (R : B -> B -> Prop) (f : A -> option B) (RA : A -> A -> Prop) l :
  (forall x y a b, RA x y -> f x = Some a -> f y = Some b -> R a b) ->
  StronglySorted RA l -> StronglySorted R (omap f l).
Proof.
  intros Hf Hl. induction Hl as [|x l Hl IH Hx]; simpl; [constructor |].
  destruct (f x) as [a|] eqn:Ha; [| done].
  constructor; [done |]. apply Forall_forall. intros b Hb.
  apply list_elem_of_omap in Hb as (y & Hy & Hfy).
  eapply Hf; [| exact Ha | exact Hfy]. by eapply Forall_forall in Hx.
Qed.

Lemma iterations_cover n s :
  0 < s -> 0 <= n -> n <= Z.of_nat (iterations n s 0) * s.
Proof.
  intros Hs Hn. unfold iterations. rewrite Z.sub_0_r.
  pose proof (Z.div_mod (n + s - 1) s ltac:(lia)).
  pose proof (Z.mod_pos_bound (n + s - 1) s Hs).
  remember ((n + s - 1) / s) as q. remember ((n + s - 1) mod s) as r.
  assert (0 <= q) by nia. rewrite Z2Nat.id by lia. nia.
Qed.

Lemma iterations_one n s : 0 < n <= s -> iterations n s 0 = 1%nat.
Proof.
  intros Hn. unfold iterations. rewrite Z.sub_0_r.
  assert ((n + s - 1) / s = 1); [| lia].
  symmetry. apply Z.div_unique_pos with (n - 1); lia.
Qed.

(** [chunk_by_lines] returns chunks only for valid parameters, and then
    the chunks of the reference. *)
Lemma chunk_by_lines_inr lines W O cs :
  chunk_by_lines lines W O = inr cs -> valid_params W O /\ cs = chunks_spec lines W O.
Proof.
  unfold chunk_by_lines, valid_params. intros H.
  destruct (0 <? W) eqn:H1, (0 <=? O) eqn:H2, (O <? W) eqn:H3; cbn [negb andb] in H;
    try discriminate; py_norm.
  rewrite (chunk_while_run lines W (W - O) ltac:(lia)) in H;
    [| cbn [cursor]; pose proof (iterations_le_len lines (W - O) ltac:(lia)); lia].
  injection H as <-. split; [lia | done].
Qed.

(** ** The properties of the chunker *)

(** The run of the loop for valid parameters. *)
Lemma chunk_by_lines_run lines W O :
  valid_params W O -> chunk_by_lines lines W O = inr (chunks_spec lines W O).
Proof.
  intros Hv. unfold chunk_by_lines. unfold valid_params in Hv.
  replace (0 <? W) with true by py_cases.
  replace ((0 <=? O) && (O <? W)) with true by (py_cases; destruct (O <? W) eqn:?; py_norm; lia).
  cbn [negb andb]. rewrite (chunk_while_run lines W (W - O) ltac:(lia)); [done |].
  cbn [cursor]. pose proof (iterations_le_len lines (W - O) ltac:(lia)). lia.
Qed.

(** C1 [Equivalence] (spec §4.3): [chunk_by_lines] returns chunks exactly
    for valid parameters, and then the [while] loop has computed the
    declarative reference: the non-blank windows
    [lines[k*step : min(k*step + W, n)]] for every [k*step < n], in
    order. *)
Theorem chunk_by_lines_spec lines W O cs :
  chunk_by_lines lines W O = inr cs <-> valid_params W O /\ cs = chunks_spec lines W O.
Proof.
  split; [apply chunk_by_lines_inr |]. intros [Hv ->]. by apply chunk_by_lines_run.
Qed.

(** Invalid parameters fail the assertions. *)
Lemma chunk_by_lines_invalid_run lines W O :
  ~ valid_params W O -> chunk_by_lines lines W O = inl AssertionError.
Proof.
  unfold valid_params, chunk_by_lines. intros Hv.
  destruct (0 <? W) eqn:H1, (0 <=? O) eqn:H2, (O <? W) eqn:H3; py_norm; simpl; done || lia.
Qed.

(** C9 [Error] (spec §4.3, §7): [chunk_by_lines] fails its assertions
    exactly when [lines_per_chunk <= 0], [overlap_lines < 0] or
    [overlap_lines >= lines_per_chunk], before any chunk is produced; with
    valid parameters it never fails. *)
Theorem chunk_by_lines_invalid lines W O :
  chunk_by_lines lines W O = inl AssertionError <-> ~ valid_params W O.
Proof.
  split; [| apply chunk_by_lines_invalid_run].
  intros H Hv. by rewrite chunk_by_lines_run in H.
Qed.

Lemma chunk_by_lines_invalid_witness :
  chunk_by_lines [py "a"] 3 3 = inl AssertionError.
Proof. apply (proj2 (chunk_by_lines_invalid [py "a"] 3 3)). unfold valid_params. lia. Defined.

Lemma chunk_by_lines_spec_witness :
  chunk_by_lines [py "a"; []] 80 20 = inr (chunks_spec [py "a"; []] 80 20).
Proof.
  apply (proj2 (chunk_by_lines_spec [py "a"; []] 80 20 _)).
  split; [unfold valid_params; lia | reflexivity].
Defined.

(** C10 [Termination] (spec §4.3): with a positive step, the [while] loop
    exits within [len(lines) + 1] rounds (or any larger fuel), at a cursor
    [i >= n]. *)
Theorem chunk_while_terminates lines W step fuel :
  0 < step -> (length lines < fuel)%nat ->
  exists st, chunk_while fuel lines W step (mk_loop [] 0) = Some st /\
             py_len lines <= cursor st.
Proof.
  intros Hs Hf. rewrite (chunk_while_run _ _ _ Hs).
  - eexists. split; [done |]. simpl.
    pose proof (iterations_cover (py_len lines) step Hs (py_len_nonneg _)). lia.
  - cbn [cursor]. pose proof (iterations_le_len lines step Hs). lia.
Qed.

Lemma chunk_while_terminates_witness :
  exists st, chunk_while 3 [py "a"; py "b"] 1 1 (mk_loop [] 0) = Some st /\
             py_len [py "a"; py "b"] <= cursor st.
Proof. apply (chunk_while_terminates [py "a"; py "b"] 1 1 3); simpl; lia. Defined.

(** The chunk of a window at a start [k * step] below [n]. *)
Lemma chunks_spec_elem lines W O c :
  valid_params W O -> c ∈ chunks_spec lines W O ->
  exists x, 0 <= x < py_len lines /\ (x mod (W - O) = 0) /\
            window lines W x = Some c.
Proof.
  intros [HW HO] Hc. apply elem_of_chunks_spec in Hc as (k & Hk0 & Hk & Hw); [| lia].
  exists (k * (W - O)). split_and!; [nia | lia | apply Z.mod_mul; lia | done].
Qed.

(** The line ranges of the reference chunks lie within the lines. *)
Lemma chunks_spec_in_range lines W O :
  valid_params W O ->
  Forall (fun c => 1 <= start_line c <= end_line c /\ end_line c <= py_len lines)
    (chunks_spec lines W O).
Proof.
  intros Hv. apply Forall_forall. intros c Hc.
  destruct (chunks_spec_elem lines W O c Hv Hc) as (x & Hx & _ & Hw).
  destruct (window_some _ _ _ _ Hw) as (-> & -> & _). unfold valid_params in Hv. lia.
Qed.

(** C3 [Bounds] (spec §3 Chunk, §8): every chunk returned by
    [chunk_by_lines] has [1 <= start_line <= end_line <= len(lines)], spans
    at most [lines_per_chunk] lines, and its text is the non-empty
    stripped join of exactly the lines [start_line .. end_line]. *)
Theorem chunk_by_lines_bounds lines W O cs :
  chunk_by_lines lines W O = inr cs ->
  Forall (fun c =>
    1 <= start_line c <= end_line c /\ end_line c <= py_len lines /\
    end_line c - start_line c < W /\
    chunk_text c = py_strip (py_join [NL] (py_slice lines (start_line c - 1) (end_line c))) /\
    chunk_text c <> []) cs.
Proof.
  intros H. apply chunk_by_lines_inr in H as [Hv ->].
  apply Forall_forall. intros c Hc.
  destruct (chunks_spec_elem lines W O c Hv Hc) as (x & Hx & _ & Hw).
  destruct (window_some _ _ _ _ Hw) as (Hs & He & Ht & Hne).
  unfold valid_params in Hv. rewrite Hs, Z.add_simpl_r.
  split_and!; [lia | lia | lia | lia | done | done].
Qed.

Definition scenario1_lines : list pystr := [py "a"; py "b"; py "c"; py "d"; py "e"].

Lemma chunk_by_lines_bounds_witness :
  exists cs, chunk_by_lines scenario1_lines 3 1 = inr cs /\
  Forall (fun c =>
    1 <= start_line c <= end_line c /\ end_line c <= py_len scenario1_lines /\
    end_line c - start_line c < 3 /\
    chunk_text c = py_strip (py_join [NL] (py_slice scenario1_lines (start_line c - 1) (end_line c))) /\
    chunk_text c <> []) cs.
Proof.
  eexists. split; [reflexivity |].
  apply (chunk_by_lines_bounds scenario1_lines 3 1). reflexivity.
Defined.

(** C15 [Safety] (spec §8): the chunks come in strictly increasing order
    of start line, and every start line is [1 + k * step] for
    [step = lines_per_chunk - overlap_lines]. *)
Theorem chunk_by_lines_starts lines W O cs :
  chunk_by_lines lines W O = inr cs ->
  StronglySorted (fun a b => start_line a < start_line b) cs /\
  Forall (fun c => (start_line c - 1) mod (W - O) = 0) cs.
Proof.
  intros H. apply chunk_by_lines_inr in H as [Hv ->]. split.
  - apply (StronglySorted_omap _ _ Z.lt).
    + intros x y a b Hxy Ha Hb.
      apply window_some in Ha as [-> _], Hb as [-> _]. lia.
    + apply starts_from_sorted. unfold valid_params in Hv. lia.
  - apply Forall_forall. intros c Hc.
    destruct (chunks_spec_elem lines W O c Hv Hc) as (x & _ & Hmod & Hw).
    apply window_some in Hw as [-> _]. by rewrite Z.add_simpl_r.
Qed.

Lemma chunk_by_lines_starts_witness :
  exists cs, chunk_by_lines scenario1_lines 3 1 = inr cs /\
  StronglySorted (fun a b => start_line a < start_line b) cs /\
  Forall (fun c => (start_line c - 1) mod (3 - 1) = 0) cs.
Proof.
  eexists. split; [reflexivity |].
  apply (chunk_by_lines_starts scenario1_lines 3 1). reflexivity.
Defined.

(** C4 [Safety] (spec §8): no content is silently dropped: every
    non-blank line lies in the line range of some returned chunk. *)
Theorem chunk_by_lines_covers lines W O cs k l :
  chunk_by_lines lines W O = inr cs ->
  lines !! k = Some l -> py_blank l = false ->
  exists c, c ∈ cs /\ start_line c <= Z.of_nat k + 1 <= end_line c.
Proof.
  intros H Hl Hb. apply chunk_by_lines_inr in H as [Hv ->].
  pose proof Hv as [HW HO].
  set (s := W - O). assert (Hs : 0 < s) by (unfold s; lia).
  set (x := Z.of_nat k / s * s).
  assert (Hx : x <= Z.of_nat k < x + s).
  { unfold x. pose proof (Z.div_mod (Z.of_nat k) s ltac:(lia)).
    pose proof (Z.mod_pos_bound (Z.of_nat k) s Hs). lia. }
  assert (Hk : Z.of_nat k < py_len lines) by (apply lookup_lt_Some in Hl; unfold py_len; lia).
  assert (Hx0 : 0 <= x) by (unfold x; apply Z.mul_nonneg_nonneg; [apply Z.div_pos |]; lia).
  destruct (window_nonblank lines W x (Z.of_nat k) l) as [c Hc];
    [lia | unfold s in Hx; lia | by rewrite Nat2Z.id | done |].
  exists c. split.
  - apply elem_of_chunks_spec; [lia |]. exists (Z.of_nat k / s).
    split_and!; [apply Z.div_pos; lia | fold x; lia | done].
  - apply window_some in Hc as (-> & -> & _). unfold s in Hx. lia.
Qed.

Lemma chunk_by_lines_covers_witness :
  exists cs, chunk_by_lines scenario1_lines 3 1 = inr cs /\
  exists c, c ∈ cs /\ start_line c <= Z.of_nat 3 + 1 <= end_line c.
Proof.
  eexists. split; [reflexivity |].
  apply (chunk_by_lines_covers scenario1_lines 3 1 _ 3 (py "d")); reflexivity.
Defined.

(** Spec §8, concrete scenario 1: five lines [a..e]
    with [lines_per_chunk = 3], [overlap_lines = 1] give the windows at
    indices 0, 2 and 4: lines 1-3, 3-5 and the one-line tail 5-5. *)
Theorem chunk_by_lines_scenario1 :
  chunk_by_lines scenario1_lines 3 1 =
  inr [mk_chunk 1 3 (py "a" ++ [NL] ++ py "b" ++ [NL] ++ py "c");
       mk_chunk 3 5 (py "c" ++ [NL] ++ py "d" ++ [NL] ++ py "e");
       mk_chunk 5 5 (py "e")].
Proof. reflexivity. Qed.

(** Spec §4.3, §8 scenario 4: a document whose lines
    are all blank yields no chunk, and no error. *)
Theorem chunk_by_lines_all_blank lines W O :
  valid_params W O -> Forall (fun l => py_blank l = true) lines ->
  chunk_by_lines lines W O = inr [].
Proof.
  intros Hv Hall. rewrite chunk_by_lines_run by done. f_equal.
  apply omap_all_none. intros x _. by apply window_blank.
Qed.

Lemma chunk_by_lines_all_blank_witness :
  (valid_params 80 20 /\ Forall (fun l => py_blank l = true) [[]; py "  "; []]) /\
  chunk_by_lines [[]; py "  "; []] 80 20 = inr [].
Proof.
  assert (Hv : valid_params 80 20) by (unfold valid_params; lia).
  assert (Hb : Forall (fun l => py_blank l = true) [[]; py "  "; []]) by (repeat constructor).
  split; [split; assumption | apply (chunk_by_lines_all_blank _ 80 20 Hv Hb)].
Defined.

(** Spec §4.3 edge cases: a non-blank document of at
    most [step = lines_per_chunk - overlap_lines] lines yields exactly one
    chunk, spanning the whole document. *)
Theorem chunk_by_lines_short lines W O :
  valid_params W O -> 0 < py_len lines <= W - O ->
  Exists (fun l => py_blank l = false) lines ->
  chunk_by_lines lines W O =
  inr [mk_chunk 1 (py_len lines) (py_strip (py_join [NL] lines))].
Proof.
  intros Hv Hn Hex. rewrite chunk_by_lines_run by done. f_equal.
  unfold chunks_spec. rewrite iterations_one by lia. simpl.
  apply Exists_exists in Hex as (l & Hl & Hb).
  apply list_elem_of_lookup in Hl as [k Hk].
  assert (Hkn : Z.of_nat k < py_len lines) by (apply lookup_lt_Some in Hk; unfold py_len; lia).
  unfold valid_params in Hv.
  destruct (window_nonblank lines W 0 (Z.of_nat k) l) as [c Hc];
    [lia | lia | by rewrite Nat2Z.id | done |].
  rewrite Hc. pose proof Hc as Hw. apply window_some in Hw as (Hs & He & Ht & _).
  replace (Z.min (0 + W) (py_len lines)) with (py_len lines) in He by lia.
  destruct c as [s e t]; simpl in *. subst. by rewrite py_slice_all.
Qed.

Lemma chunk_by_lines_short_witness :
  (valid_params 3 1 /\ 0 < py_len [py "a"; []] <= 3 - 1 /\
   Exists (fun l => py_blank l = false) [py "a"; []]) /\
  chunk_by_lines [py "a"; []] 3 1 =
  inr [mk_chunk 1 (py_len [py "a"; []]) (py_strip (py_join [NL] [py "a"; []]))].
Proof.
  assert (Hv : valid_params 3 1) by (unfold valid_params; lia).
  assert (Hn : 0 < py_len [py "a"; []] <= 3 - 1) by (unfold py_len; simpl; lia).
  assert (He : Exists (fun l => py_blank l = false) [py "a"; []]) by (by left).
  split; [exact (conj Hv (conj Hn He)) | apply (chunk_by_lines_short _ 3 1 Hv Hn He)].
Defined.

(** Spec §4.3 edge cases, divergence: a document
    shorter than [lines_per_chunk] but longer than the step yields more
    than one chunk: three lines with [lines_per_chunk = 4] and
    [overlap_lines = 2] give the chunks 1-3 and 3-3, not one chunk. *)
Theorem chunk_by_lines_short_two_chunks :
  chunk_by_lines [py "a"; py "b"; py "c"] 4 2 =
  inr [mk_chunk 1 3 (py "a" ++ [NL] ++ py "b" ++ [NL] ++ py "c"); mk_chunk 3 3 (py "c")].
Proof. reflexivity. Qed.

(** Spec §8, divergence: consecutive returned chunks
    do not always start exactly [step] lines apart: a blank window is
    skipped, so with [lines_per_chunk = 1] and no overlap the lines
    [a, "", b] give chunks starting at lines 1 and 3, two steps apart. *)
Theorem chunk_by_lines_skips_blank_window :
  chunk_by_lines [py "a"; []; py "b"] 1 0 =
  inr [mk_chunk 1 1 (py "a"); mk_chunk 3 3 (py "b")].
Proof. reflexivity. Qed.
