(* ===== verification/Records.v ===== *)
(** * The record builder: [build_records] of [src/chunk.py]

    [build_records] (lines 87-106) turns each chunk triple into a record
    (a Python dict) with the keys [id], [source_file], [start_line],
    [end_line], [text] and, when a page map covers the chunk,
    [start_page] and [end_page].  The id is
    [f"{source_path.stem}__chunk_{idx:05d}"].  This file models the dict
    as the record [record] (the two page keys are present together or not
    at all, as [pages : option (Z * Z)]), the pathlib accessors the code
    uses on the file name ([Path.stem] and [Path.suffix], as CPython 3.12
    computes them from [name.rfind('.')]), the decimal formatting
    [str(n)] and [format(n, "05d")], and the page lookups through Python
    list indexing [py_getitem]. *)

From S2P Require Import Prelude PyStr Chunker.

(** ** Decimal formatting *)

(** The digits of [n >= 0], most significant first ([str(n)]); [fuel]
    bounds the number of divisions by ten. *)
Fixpoint str_digits (fuel : nat) (n : Z) : pystr :=
  match fuel with
  | O => []
  | S fuel' =>
      if n <? 10 then [48 + n]
      else str_digits fuel' (n / 10) ++ [48 + n mod 10]
  end.

(** [str(n)] for a non-negative [int]. *)
Definition py_str_nonneg (n : Z) : pystr := str_digits (S (Z.to_nat n)) n.

(** [format(n, "0<width>d")] for [n >= 0]: [str(n)] left-padded with
    ["0"] up to [width] characters. *)
Definition format_0d (width : nat) (n : Z) : pystr :=
  let s := py_str_nonneg n in
  repeat 48 (width - length s) ++ s.

(** ** File names (pathlib, CPython 3.12) *)

Definition DOT : Z := 46.

(** The index of the first occurrence of [c], if any. *)
Fixpoint py_find (c : Z) (s : pystr) : option nat :=
  match s with
  | [] => None
  | d :: s' => if d =? c then Some O else option_map S (py_find c s')
  end.

(** [s.rfind(c)]: the highest index of [c], or [-1]. *)
Definition py_rfind (c : Z) (s : pystr) : Z :=
  match py_find c (rev s) with
  | None => -1
  | Some j => py_len s - 1 - Z.of_nat j
  end.

(** [Path(name).suffix]. *)
Definition path_suffix (name : pystr) : pystr :=
  let i := py_rfind DOT name in
  if (0 <? i) && (i <? py_len name - 1) then py_slice name i (py_len name) else [].

(** [Path(name).stem]. *)
Definition path_stem (name : pystr) : pystr :=
  let i := py_rfind DOT name in
  if (0 <? i) && (i <? py_len name - 1) then py_slice name 0 i else name.

(** ** Records *)

(** The dict built for one chunk. *)
Record record := mk_record {
  rec_id : pystr;
  source_file : pystr;
  rec_start_line : Z;
  rec_end_line : Z;
  rec_text : pystr;
  pages : option (Z * Z)  (* [start_page], [end_page] *)
}.

(** [f"{source_path.stem}__chunk_{idx:05d}"]. *)
Definition chunk_id (stem : pystr) (idx : nat) : pystr :=
  stem ++ py "__chunk_" ++ format_0d 5 (Z.of_nat idx).

(** The body of the [for] loop (lines 94-105) for chunk number [idx];
    [name] is [source_path.name]. *)
Definition build_record (name : pystr) (page_of_line : option (list Z))
    (idx : nat) (c : chunk) : res record :=
  let rec := mk_record (chunk_id (path_stem name) idx) name
               (start_line c) (end_line c) (chunk_text c) None in
  match page_of_line with
  | Some pol =>
      if end_line c <=? py_len pol then
        (sp <- py_getitem pol (start_line c - 1) ;;
         ep <- py_getitem pol (end_line c - 1) ;;
         inr (mk_record (rec_id rec) name (start_line c) (end_line c)
                        (chunk_text c) (Some (sp, ep))))%py
      else inr rec
  | None => inr rec
  end.

(** The loop [for idx, (...) in enumerate(chunks)], from index [idx]. *)
Fixpoint build_records_from (name : pystr) (page_of_line : option (list Z))
    (idx : nat) (cs : list chunk) : res (list record) :=
  match cs with
  | [] => inr []
  | c :: cs' =>
      (r <- build_record name page_of_line idx c ;;
       rs <- build_records_from name page_of_line (S idx) cs' ;;
       inr (r :: rs))%py
  end.

(** [build_records(source_path, chunks, page_of_line)]. *)
Definition build_records (name : pystr) (cs : list chunk) (page_of_line : option (list Z))
    : res (list record) :=
  build_records_from name page_of_line O cs.

(** ** Reading ids back *)

(** The value of a string of decimal digits. *)
Definition dec_value (s : pystr) : Z := fold_left (fun acc d => acc * 10 + (d - 48)) s 0.

(** Python's [<] on [str]: lexicographic order of code points. *)
Fixpoint py_str_lt (a b : pystr) : bool :=
  match a, b with
  | _, [] => false
  | [], _ :: _ => true
  | x :: a', y :: b' => if x <? y then true else if y <? x then false else py_str_lt a' b'
  end.

(** The [k] low decimal digits of [n], most significant first. *)
Fixpoint fixed_digits (k : nat) (n : Z) : pystr :=
  match k with
  | O => []
  | S k' => fixed_digits k' (n / 10) ++ [48 + n mod 10]
  end.

Section Digits.
Lemma str_digits_fuel f g n :
  0 <= n -> (Z.to_nat n < f)%nat -> (Z.to_nat n < g)%nat -> str_digits f n = str_digits g n.
Proof.
  revert g n. induction f as [|f IH]; intros [|g] n Hn Hf Hg; try lia. simpl.
  destruct (n <? 10) eqn:H10; py_norm; [done |].
  rewrite (IH g); [done | apply Z.div_pos; lia | |];
    assert (n / 10 < n) by (apply Z.div_lt; lia); lia.
Qed.

Lemma py_str_nonneg_step n :
  10 <= n -> py_str_nonneg n = py_str_nonneg (n / 10) ++ [48 + n mod 10].
Proof.
  intros Hn. unfold py_str_nonneg at 1. simpl.
  replace (n <? 10) with false by py_cases.
  assert (0 <= n / 10 < n) by (split; [apply Z.div_pos | apply Z.div_lt]; lia).
  unfold py_str_nonneg. f_equal. apply str_digits_fuel; lia.
Qed.

Lemma py_str_nonneg_small n : 0 <= n < 10 -> py_str_nonneg n = [48 + n].
Proof. intros Hn. unfold py_str_nonneg. simpl. by replace (n <? 10) with true by py_cases. Qed.

(** [str(n)] consists of the digits ["0"] to ["9"]. *)
Lemma py_str_nonneg_digits n : 0 <= n -> Forall (fun c => 48 <= c <= 57) (py_str_nonneg n).
Proof.
  unfold py_str_nonneg. generalize (S (Z.to_nat n)) as f. intros f.
  revert n. induction f as [|f IH]; intros n Hn; simpl; [constructor |].
  destruct (n <? 10) eqn:H; py_norm; [repeat constructor; lia |].
  apply Forall_app. split; [apply IH; apply Z.div_pos; lia |].
  pose proof (Z.mod_pos_bound n 10 ltac:(lia)). repeat constructor; lia.
Qed.

Lemma dec_value_snoc s d : dec_value (s ++ [d]) = dec_value s * 10 + (d - 48).
Proof. unfold dec_value. by rewrite fold_left_app. Qed.

Lemma dec_value_zeros k s : dec_value (repeat 48 k ++ s) = dec_value s.
Proof.
  unfold dec_value. rewrite fold_left_app. f_equal.
  induction k as [|k IH]; simpl; [done |]. exact IH.
Qed.

(** Round trip: the digits of [str(n)] read back as [n]. *)
Lemma dec_value_py_str n : 0 <= n -> dec_value (py_str_nonneg n) = n.
Proof.
  intros Hn. apply (Z_lt_induction (fun n => 0 <= n -> dec_value (py_str_nonneg n) = n));
    [| exact Hn | exact Hn]. clear n Hn. intros n IH Hn.
  destruct (Z.lt_ge_cases n 10).
  - rewrite py_str_nonneg_small by lia. unfold dec_value. simpl. lia.
  - rewrite py_str_nonneg_step, dec_value_snoc by done.
    rewrite IH; [| split; [apply Z.div_pos | apply Z.div_lt]; lia | apply Z.div_pos; lia].
    pose proof (Z.div_mod n 10 ltac:(lia)). lia.
Qed.

Lemma dec_value_format_0d w n : 0 <= n -> dec_value (format_0d w n) = n.
Proof. intros Hn. unfold format_0d. rewrite dec_value_zeros. by apply dec_value_py_str. Qed.

Lemma fixed_digits_length k n : length (fixed_digits k n) = k.
Proof.
  revert n. induction k as [|k IH]; intros n; simpl; [done |].
  rewrite length_app, IH. simpl. lia.
Qed.

Lemma fixed_digits_zero k : fixed_digits k 0 = repeat 48 k.
Proof.
  induction k as [|k IH]; [done |]. cbn [fixed_digits].
  rewrite Z.div_0_l, Z.mod_0_l, IH by lia.
  change (repeat 48 k ++ [48 + 0]) with (repeat 48 k ++ repeat 48 1).
  by rewrite <- repeat_app, Nat.add_1_r.
Qed.

Lemma format_0d_small k n : 0 <= n < 10 -> format_0d (S k) n = fixed_digits (S k) n.
Proof.
  intros Hn. unfold format_0d. simpl fixed_digits.
  rewrite py_str_nonneg_small, Z.div_small, Z.mod_small, fixed_digits_zero by lia.
  simpl. by rewrite Nat.sub_0_r.
Qed.

(** Below [10^k], [format(n, "0kd")] is exactly the [k] low digits. *)
Lemma format_0d_fixed k n :
  0 <= n < 10 ^ Z.of_nat (S k) -> format_0d (S k) n = fixed_digits (S k) n.
Proof.
  revert n. induction k as [|k IH]; intros n Hn; [apply format_0d_small; simpl in Hn; lia |].
  destruct (Z.lt_ge_cases n 10); [apply format_0d_small; lia |].
  rewrite Nat2Z.inj_succ, Z.pow_succ_r in Hn by lia.
  change (fixed_digits (S (S k)) n) with (fixed_digits (S k) (n / 10) ++ [48 + n mod 10]).
  rewrite <- IH by (split; [apply Z.div_pos | apply Z.div_lt_upper_bound]; lia).
  unfold format_0d. rewrite py_str_nonneg_step by done.
  rewrite length_app, app_assoc. simpl length.
  by replace (S (S k) - (length (py_str_nonneg (n / 10)) + 1))%nat
    with (S k - length (py_str_nonneg (n / 10)))%nat by lia.
Qed.

Lemma py_str_lt_app_same p a b : py_str_lt (p ++ a) (p ++ b) = py_str_lt a b.
Proof.
  induction p as [|x p IH]; simpl; [done |]. by rewrite Z.ltb_irrefl.
Qed.

Lemma py_str_lt_app a b x y :
  length a = length b -> py_str_lt a b = true -> py_str_lt (a ++ x) (b ++ y) = true.
Proof.
  revert b. induction a as [|u a IH]; intros [|v b] Hl Hlt; simpl in *; try done.
  destruct (u <? v); [done |]. destruct (v <? u); [done |]. apply IH; [lia | done].
Qed.

Lemma fixed_digits_lt k n m :
  0 <= n < m -> m < 10 ^ Z.of_nat k -> py_str_lt (fixed_digits k n) (fixed_digits k m) = true.
Proof.
  revert n m. induction k as [|k IH]; intros n m Hnm Hm; [simpl in Hm; lia |].
  rewrite Nat2Z.inj_succ, Z.pow_succ_r in Hm by lia. simpl.
  assert (Hq : n / 10 <= m / 10) by (apply Z.div_le_mono; lia).
  destruct (Z.le_gt_cases (m / 10) (n / 10)) as [Heq | Hlt].
  - assert (n / 10 = m / 10) as -> by lia. rewrite py_str_lt_app_same. simpl.
    pose proof (Z.div_mod n 10 ltac:(lia)). pose proof (Z.div_mod m 10 ltac:(lia)).
    replace (48 + n mod 10 <? 48 + m mod 10) with true by py_cases. done.
  - apply py_str_lt_app; [by rewrite !fixed_digits_length |].
    apply IH; [split; [apply Z.div_pos |]; lia |].
    apply Z.div_lt_upper_bound; lia.
Qed.
(** [str(n)] splits into the digits above [10^k] and the [k] low ones. *)
Lemma py_str_nonneg_split k n :
  10 ^ Z.of_nat k <= n -> py_str_nonneg n = py_str_nonneg (n / 10 ^ Z.of_nat k) ++ fixed_digits k n.
Proof.
  revert n. induction k as [|k IH]; intros n Hn.
  - cbn -[py_str_nonneg]. by rewrite Z.div_1_r, app_nil_r.
  - rewrite Nat2Z.inj_succ, Z.pow_succ_r in * by lia.
    assert (Hk : 0 < 10 ^ Z.of_nat k) by (apply Z.pow_pos_nonneg; lia).
    rewrite py_str_nonneg_step by nia.
    rewrite (IH (n / 10)) by (apply Z.div_le_lower_bound; lia).
    rewrite Z.div_div by lia. cbn [fixed_digits]. by rewrite <- app_assoc.
Qed.

(** [format(n, "05d")] of [n] with exactly [k + 1] digits: its first
    digit, then the [k] low digits. *)
Lemma format_0d_lead k n :
  (5 <= S k)%nat -> 10 ^ Z.of_nat k <= n < 10 ^ Z.of_nat (S k) ->
  format_0d 5 n = [48 + n / 10 ^ Z.of_nat k] ++ fixed_digits k n.
Proof.
  intros Hk Hn. assert (Hp : 0 < 10 ^ Z.of_nat k) by (apply Z.pow_pos_nonneg; lia).
  rewrite Nat2Z.inj_succ, Z.pow_succ_r in Hn by lia.
  assert (Hq : 1 <= n / 10 ^ Z.of_nat k < 10).
  { split; [apply Z.div_le_lower_bound | apply Z.div_lt_upper_bound]; lia. }
  unfold format_0d. rewrite py_str_nonneg_split with (k := k), py_str_nonneg_small by lia.
  rewrite length_app, fixed_digits_length. cbn [length].
  by replace (5 - (1 + k))%nat with 0%nat by lia.
Qed.
End Digits.

(** ** The reference record *)

(** The page range a record reports: the pages of its first and last
    line, when the page map covers [end_line]. *)
Definition page_range (page_of_line : option (list Z)) (c : chunk) : option (Z * Z) :=
  match page_of_line with
  | Some pol =>
      if end_line c <=? py_len pol then
        match pol !! Z.to_nat (start_line c - 1), pol !! Z.to_nat (end_line c - 1) with
        | Some sp, Some ep => Some (sp, ep)
        | _, _ => None
        end
      else None
  | None => None
  end.

Definition record_of (name : pystr) (page_of_line : option (list Z)) (idx : nat) (c : chunk) : record :=
  mk_record (chunk_id (path_stem name) idx) name (start_line c) (end_line c) (chunk_text c)
            (page_range page_of_line c).

(** A chunk as the chunker returns it: [1 <= start_line <= end_line]. *)
Definition chunk_wf (c : chunk) : Prop := 1 <= start_line c <= end_line c.

(** A page map whose pages never decrease along the lines. *)
Definition nondecreasing (pol : list Z) : Prop :=
  forall i j a b, (i <= j)%nat -> pol !! i = Some a -> pol !! j = Some b -> a <= b.

Lemma StronglySorted_nondecreasing pol : StronglySorted Z.le pol -> nondecreasing pol.
Proof.
  intros Hs. induction Hs as [|x l Hs IH Hx]; intros i j a b Hij Ha Hb; [done |].
  destruct i as [|i], j as [|j]; simpl in *; simplify_eq; [lia | | lia |].
  - eapply Forall_forall in Hx; [exact Hx |]. by eapply list_elem_of_lookup_2.
  - eapply IH; [| exact Ha | exact Hb]. lia.
Qed.

Lemma chunks_spec_wf lines W O : valid_params W O -> Forall chunk_wf (chunks_spec lines W O).
Proof.
  intros Hv. eapply Forall_impl; [apply chunks_spec_in_range, Hv |].
  unfold chunk_wf. intros c [? ?]. lia.
Qed.

Section Build.
Context (name : pystr) (page_of_line : option (list Z)).

Lemma build_record_ok idx c :
  chunk_wf c -> build_record name page_of_line idx c = inr (record_of name page_of_line idx c).
Proof.
  intros Hc. unfold build_record, record_of, page_range, chunk_wf in *.
  destruct page_of_line as [pol|]; [| done].
  destruct (end_line c <=? py_len pol) eqn:He; py_norm; [| done].
  destruct (py_getitem_in_range pol (start_line c - 1)) as (sp & Hs & ->); [lia |].
  destruct (py_getitem_in_range pol (end_line c - 1)) as (ep & He' & ->); [lia |].
  simpl. by rewrite Hs, He'.
Qed.

Lemma build_records_from_ok idx cs :
  Forall chunk_wf cs ->
  build_records_from name page_of_line idx cs =
  inr (imap (fun i c => record_of name page_of_line (idx + i) c) cs).
Proof.
  revert idx. induction cs as [|c cs IH]; intros idx Hcs; [done |].
  inversion Hcs as [|? ? Hc Hcs']; subst. simpl.
  rewrite build_record_ok by done. simpl. rewrite IH by done. simpl.
  rewrite Nat.add_0_r. do 2 f_equal.
  apply imap_ext. intros i x _. simpl. by rewrite Nat.add_succ_r.
Qed.

Lemma build_records_from_ids idx cs rs :
  build_records_from name page_of_line idx cs = inr rs ->
  map rec_id rs = map (chunk_id (path_stem name)) (seq idx (length cs)).
Proof.
  revert idx rs. induction cs as [|c cs IH]; intros idx rs H; simpl in H.
  - by injection H as <-.
  - apply res_bind_inv in H as (r & Hr & H). apply res_bind_inv in H as (rs' & Hrs & H).
    injection H as <-. simpl. rewrite (IH _ _ Hrs). f_equal.
    unfold build_record in Hr. destruct page_of_line as [pol|].
    + destruct (_ <=? _).
      * apply res_bind_inv in Hr as (sp & _ & Hr). apply res_bind_inv in Hr as (ep & _ & Hr).
        by injection Hr as <-.
      * by injection Hr as <-.
    + by injection Hr as <-.
Qed.
End Build.

Lemma chunk_id_inj stem i j : chunk_id stem i = chunk_id stem j -> i = j.
Proof.
  unfold chunk_id. intros H. apply app_inv_head, app_inv_head in H.
  apply (f_equal dec_value) in H. rewrite !dec_value_format_0d in H by lia. lia.
Qed.

(** ** The properties of the record builder *)

(** C11 [Functional] (spec §4.4): on well-formed chunks [build_records]
    succeeds and returns one record per chunk, in order, with the id
    [stem__chunk_NNNNN], the file name, the line range and text copied
    verbatim, and a page range only when the page map exists and covers
    [end_line] (then the pages of [start_line] and [end_line]). *)
Theorem build_records_spec name cs page_of_line :
  Forall chunk_wf cs ->
  build_records name cs page_of_line = inr (imap (record_of name page_of_line) cs).
Proof. intros Hcs. unfold build_records. by rewrite build_records_from_ok. Qed.

Lemma build_records_spec_witness :
  Forall chunk_wf [mk_chunk 1 2 (py "x")] /\
  build_records (py "doc.pdf") [mk_chunk 1 2 (py "x")] (Some [1; 2]) =
  inr (imap (record_of (py "doc.pdf") (Some [1; 2])) [mk_chunk 1 2 (py "x")]).
Proof.
  assert (H : Forall chunk_wf [mk_chunk 1 2 (py "x")]) by (repeat constructor; simpl; lia).
  split; [exact H | apply (build_records_spec _ _ _ H)].
Defined.

(** C18 [Invariant] (spec §8 page-map invariant): with a page map whose
    pages never decrease, every record that carries pages has
    [start_page <= end_page]. *)
Theorem build_records_page_order name cs pol rs :
  nondecreasing pol -> Forall chunk_wf cs ->
  build_records name cs (Some pol) = inr rs ->
  Forall (fun r => forall sp ep, pages r = Some (sp, ep) -> sp <= ep) rs.
Proof.
  intros Hpol Hcs H. unfold build_records in H.
  rewrite build_records_from_ok in H by done. injection H as <-.
  apply Forall_forall. intros r Hr sp ep Hp.
  apply elem_of_lookup_imap in Hr as (i & c & -> & Hc). simpl in *.
  apply list_elem_of_lookup_2 in Hc. eapply Forall_forall in Hc; [| exact Hcs].
  unfold record_of, page_range in Hp. simpl in Hp. unfold chunk_wf in Hc.
  destruct (_ <=? _); [| done].
  destruct (pol !! _) eqn:Hs, (pol !! Z.to_nat (end_line c - 1)) eqn:He; try done.
  injection Hp as <- <-. eapply Hpol; [| exact Hs | exact He]. lia.
Qed.

Lemma build_records_page_order_witness :
  (nondecreasing [1; 1; 2] /\ Forall chunk_wf [mk_chunk 1 3 (py "x")]) /\
  exists rs, build_records (py "a.pdf") [mk_chunk 1 3 (py "x")] (Some [1; 1; 2]) = inr rs /\
  Forall (fun r => forall sp ep, pages r = Some (sp, ep) -> sp <= ep) rs.
Proof.
  assert (Hp : nondecreasing [1; 1; 2]).
  { intros i j a b Hij Ha Hb.
    destruct i as [|[|[|i]]], j as [|[|[|j]]]; simpl in *; simplify_eq; lia. }
  assert (Hc : Forall chunk_wf [mk_chunk 1 3 (py "x")]) by (repeat constructor; simpl; lia).
  split; [split; assumption |]. eexists. split; [reflexivity |].
  eapply (build_records_page_order _ _ _ _ Hp Hc). reflexivity.
Defined.

(** C19 [Functional] (spec §3 Record): the ids of the records returned by
    [build_records] are pairwise distinct. *)
Theorem build_records_ids_distinct name cs pol rs :
  build_records name cs pol = inr rs -> NoDup (map rec_id rs).
Proof.
  intros H. apply build_records_from_ids in H. rewrite H.
  apply NoDup_fmap_2; [intros i j; apply chunk_id_inj | apply NoDup_seq].
Qed.

Lemma build_records_ids_distinct_witness :
  exists rs, build_records (py "b.txt") [mk_chunk 1 1 (py "x"); mk_chunk 2 2 (py "y")] None = inr rs
  /\ NoDup (map rec_id rs).
Proof.
  eexists. split; [reflexivity |].
  eapply (build_records_ids_distinct (py "b.txt") [mk_chunk 1 1 (py "x"); mk_chunk 2 2 (py "y")] None).
  reflexivity.
Defined.

(** C20 [Bounds] (spec §4.4): below 100000 chunks the zero padding makes
    the lexicographic order of ids match the chunk order. *)
Theorem chunk_id_order stem i j :
  (i < j)%nat -> Z.of_nat j < 100000 -> py_str_lt (chunk_id stem i) (chunk_id stem j) = true.
Proof.
  intros Hij Hj. unfold chunk_id. rewrite !py_str_lt_app_same.
  assert (Hp : 10 ^ Z.of_nat 5 = 100000) by reflexivity.
  rewrite !format_0d_fixed by lia. apply fixed_digits_lt; lia.
Qed.

Lemma chunk_id_order_witness :
  ((41 < 42)%nat /\ Z.of_nat 42 < 100000) /\
  py_str_lt (chunk_id (py "war") 41) (chunk_id (py "war") 42) = true.
Proof. split; [split; lia | apply chunk_id_order; lia]. Defined.

(** C21 [Bounds] (spec §4.4, gap): from the 100001st chunk on, the
    five-digit padding no longer orders ids: the id of every chunk
    numbered 100000 to 899999 sorts before the id of every chunk
    numbered 90000 to 99999. *)
Theorem chunk_id_order_overflow stem i j :
  100000 <= Z.of_nat i < 900000 -> 90000 <= Z.of_nat j < 100000 ->
  py_str_lt (chunk_id stem i) (chunk_id stem j) = true.
Proof.
  intros Hi Hj. unfold chunk_id. rewrite !py_str_lt_app_same.
  rewrite (format_0d_lead 5 (Z.of_nat i)), (format_0d_lead 4 (Z.of_nat j)) by (cbn; lia).
  assert (Hqi : Z.of_nat i / 10 ^ Z.of_nat 5 < 9) by (apply Z.div_lt_upper_bound; cbn; lia).
  assert (Hqj : Z.of_nat j / 10 ^ Z.of_nat 4 = 9).
  { symmetry. apply Z.div_unique with (Z.of_nat j - 90000); [left |]; cbn; lia. }
  rewrite Hqj. cbn [app py_str_lt]. by replace (48 + _ <? 48 + 9) with true by py_cases.
Qed.

Lemma chunk_id_order_overflow_witness :
  (100000 <= Z.of_nat (Z.to_nat 100000) < 900000 /\ 90000 <= Z.of_nat (Z.to_nat 99999) < 100000) /\
  py_str_lt (chunk_id (py "war") (Z.to_nat 100000)) (chunk_id (py "war") (Z.to_nat 99999)) = true.
Proof.
  assert (Hi : 100000 <= Z.of_nat (Z.to_nat 100000) < 900000) by (rewrite Z2Nat.id; lia).
  assert (Hj : 90000 <= Z.of_nat (Z.to_nat 99999) < 100000) by (rewrite Z2Nat.id; lia).
  split; [split; assumption |]. exact (chunk_id_order_overflow (py "war") _ _ Hi Hj).
Defined.
