(* ===== verification/Loader.v ===== *)
(** * The document loader: [read_text_any] of [src/chunk.py]

    [read_text_any] (lines 9-48) dispatches on the lower-cased suffix of
    the file name: [.txt] and [.md] files are read as text with no page
    map; [.pdf] files are read page by page through pypdf, and every page
    contributes a marker line [[[PAGE i]]], its own lines and a blank
    separator line, each recorded in [page_of_line] with the page number
    [i]; any other suffix raises [ValueError].

    The PDF text extraction is external: a [document] carries the bytes
    of the file, which the text branch decodes as [Path.read_text] does
    (UTF-8 with [errors="ignore"], universal newlines), and the result of
    [page.extract_text()] for every page ([None] when pypdf returns
    [None]).  The reference [pdf_lines] lists the raw lines of a PDF with
    the page each comes from; the loader is proved to produce exactly
    their text and their pages. *)

From S2P Require Import Prelude PyStr Utf8 Normalize Records.

(** ** The code *)

(** What the loader reads: the file name, the bytes of the file (for
    text files) and the text pypdf extracts from each page (for PDFs). *)
Record document := mk_document {
  doc_name : pystr;
  doc_bytes : list Z;
  doc_pages : list (option pystr)
}.

(** [str.lower()] on the code points that can matter for the suffix
    test: ASCII capitals.  (No other code point lowers to one of the
    characters of [.txt], [.md] or [.pdf].) *)
Definition py_lower_ascii (s : pystr) : pystr :=
  map (fun c => if (65 <=? c) && (c <=? 90) then c + 32 else c) s.

(** The state of the PDF loop: [parts] and [page_of_line]. *)
Record pdf_state := mk_pdf_state {
  parts : list pystr;
  page_of_line : list Z
}.

(** The marker line [f"[[PAGE {i}]]\n"] without its line break. *)
Definition page_marker (i : Z) : pystr := py "[[PAGE " ++ py_str_nonneg i ++ py "]]".

(** One round of [for i, page in enumerate(reader.pages, start=1)]
    (lines 31-44). *)
Definition pdf_page (st : pdf_state) (i : Z) (page : option pystr) : pdf_state :=
  let page_text := match page with Some t => t | None => [] end in
  let page_text := unify_newlines page_text in
  let lines := py_split NL page_text in
  mk_pdf_state
    (parts st ++ [page_marker i ++ [NL]] ++ map (fun ln => ln ++ [NL]) lines ++ [[NL]])
    (page_of_line st ++ [i] ++ map (fun _ => i) lines ++ [i]).

Fixpoint pdf_loop (i : Z) (pages : list (option pystr)) (st : pdf_state) : pdf_state :=
  match pages with
  | [] => st
  | p :: ps => pdf_loop (i + 1) ps (pdf_page st i p)
  end.

(** The PDF branch (lines 22-46): [("".join(parts), page_of_line)]. *)
Definition read_pdf (pages : list (option pystr)) : pystr * list Z :=
  let st := pdf_loop 1 pages (mk_pdf_state [] []) in
  (concat (parts st), page_of_line st).

(** The message of the [ValueError] (line 48). *)
Definition unsupported_msg (suffix : pystr) : pystr :=
  py "Unsupported file type: " ++ suffix ++ py " (use .txt, .md, or .pdf)".

(** [src.read_text(encoding="utf-8", errors="ignore")] (line 19): the
    bytes decoded, invalid sequences dropped, and the file opened in text
    mode with universal newlines, which reads ["\r\n"] and ["\r"] as
    ["\n"]. *)
Definition read_text (bs : list Z) : res pystr :=
  (text <- utf8_decode Ignore bs ;; inr (unify_newlines text))%py.

(** [read_text_any(src)]. *)
Definition read_text_any (d : document) : res (pystr * option (list Z)) :=
  let suffix := py_lower_ascii (path_suffix (doc_name d)) in
  if bool_decide (suffix = py ".txt") || bool_decide (suffix = py ".md")
  then (text <- read_text (doc_bytes d) ;; inr (text, None))%py
  else if bool_decide (suffix = py ".pdf")
  then let '(text, pol) := read_pdf (doc_pages d) in inr (text, Some pol)
  else inl (ValueError (unsupported_msg (path_suffix (doc_name d)))).

(** ** The reference: raw lines with their pages *)

(** The lines page [i] contributes, each with its page. *)
Definition page_lines (i : Z) (page : option pystr) : list (Z * pystr) :=
  let page_text := unify_newlines (match page with Some t => t | None => [] end) in
  [(i, page_marker i)] ++ map (fun ln => (i, ln)) (py_split NL page_text) ++ [(i, [])].

Fixpoint pdf_lines_from (i : Z) (pages : list (option pystr)) : list (Z * pystr) :=
  match pages with
  | [] => []
  | p :: ps => page_lines i p ++ pdf_lines_from (i + 1) ps
  end.

(** The raw lines of a PDF, in order, with the page of each. *)
Definition pdf_lines (pages : list (option pystr)) : list (Z * pystr) := pdf_lines_from 1 pages.

(** The text of the PDF pages, as read: every raw line's text. *)
Definition page_text_of (page : option pystr) : pystr :=
  unify_newlines (match page with Some t => t | None => [] end).

(** Every line of every page holds a non-whitespace character. *)
Definition pages_nonblank (pages : list (option pystr)) : Prop :=
  Forall (fun p => Forall (fun l => py_blank l = false) (py_split NL (page_text_of p))) pages.

(** ** The loop builds the reference *)

Lemma pdf_page_lines st i p :
  pdf_page st i p =
  mk_pdf_state (parts st ++ map (fun pl => snd pl ++ [NL]) (page_lines i p))
               (page_of_line st ++ map fst (page_lines i p)).
Proof.
  unfold pdf_page, page_lines. f_equal; rewrite !map_app, !map_map; simpl; done.
Qed.

Lemma pdf_loop_lines i pages st :
  pdf_loop i pages st =
  mk_pdf_state (parts st ++ map (fun pl => snd pl ++ [NL]) (pdf_lines_from i pages))
               (page_of_line st ++ map fst (pdf_lines_from i pages)).
Proof.
  revert i st. induction pages as [|p ps IH]; intros i st; cbn [pdf_loop pdf_lines_from].
  - rewrite !app_nil_r. by destruct st.
  - rewrite IH, pdf_page_lines. cbn [parts page_of_line]. by rewrite !map_app, !app_assoc.
Qed.

Lemma page_marker_shape i : 0 <= i -> (NL ∉ page_marker i) /\ (CR ∉ page_marker i).
Proof.
  intros Hi. pose proof (py_str_nonneg_digits i Hi) as Hd.
  assert (Hlit : forall c, c = NL \/ c = CR -> (c ∉ py "[[PAGE ") /\ (c ∉ py "]]")).
  { intros c [-> | ->]; split; not_in_literal. }
  unfold page_marker. split; intros Hc;
    [destruct (Hlit NL (or_introl eq_refl)) as [H1 H2]
    |destruct (Hlit CR (or_intror eq_refl)) as [H1 H2]].
  all: rewrite !elem_of_app in Hc; destruct Hc as [Hc | [Hc | Hc]]; [done | | done].
  all: eapply Forall_forall in Hd; [| exact Hc]; unfold NL, CR in Hd; lia.
Qed.

Lemma page_marker_nonblank i : py_blank (page_marker i) = false.
Proof. apply (py_blank_false _ 91); [unfold page_marker; simpl; set_solver | done]. Qed.

(** The raw lines hold no line break, and the pages run from [i] on. *)
Lemma pdf_lines_from_shape i pages :
  0 <= i ->
  Forall (fun pl => (NL ∉ snd pl) /\ (CR ∉ snd pl) /\ i <= fst pl < i + py_len pages)
    (pdf_lines_from i pages).
Proof.
  revert i. induction pages as [|p ps IH]; intros i Hi; cbn [pdf_lines_from]; [constructor |].
  assert (Hlen : py_len (p :: ps) = 1 + py_len ps) by (unfold py_len; simpl; lia).
  pose proof (py_len_nonneg ps). rewrite Hlen.
  apply Forall_app. split.
  - destruct (page_marker_shape i Hi) as [Hm1 Hm2].
    apply Forall_forall. intros [q l] Hpl. unfold page_lines in Hpl.
    rewrite !elem_of_app, !list_elem_of_singleton, elem_of_map_iff in Hpl.
    destruct Hpl as [Hpl | [(ln & Hpl & Hln) | Hpl]]; injection Hpl as -> ->; simpl.
    + split_and!; [done | done | lia | lia].
    + split_and!; [| | lia | lia].
      * eapply Forall_forall in Hln; [exact Hln | apply py_split_sep_free].
      * intros Hc. eapply unify_newlines_no_cr, py_split_elem; eauto.
    + split_and!; [set_solver | set_solver | lia | lia].
  - eapply Forall_impl; [apply IH; lia |]. simpl. intros pl (? & ? & ?). split_and!; auto; lia.
Qed.

Lemma pdf_lines_from_sorted i pages :
  StronglySorted Z.le (map fst (pdf_lines_from i pages)) /\
  Forall (Z.le i) (map fst (pdf_lines_from i pages)).
Proof.
  revert i. induction pages as [|p ps IH]; intros i; cbn [pdf_lines_from];
    [split; constructor |].
  destruct (IH (i + 1)) as [Hs Hge].
  assert (Hblock : Forall (fun x => x = i) (map fst (page_lines i p))).
  { unfold page_lines. rewrite !map_app, map_map. simpl.
    repeat constructor. apply Forall_app; split; [| repeat constructor].
    apply Forall_forall. intros x Hx. by apply elem_of_map_iff in Hx as (? & -> & _). }
  rewrite map_app. remember (map fst (page_lines i p)) as bl eqn:E. clear E. split.
  - induction bl as [|x l IHl]; simpl; [done |].
    inversion Hblock as [|? ? Hx Hl]; subst. constructor; [by apply IHl |].
    apply Forall_forall. intros y Hy. apply elem_of_app in Hy as [Hy | Hy].
    + eapply Forall_forall in Hl; [| exact Hy]. simpl in Hl. lia.
    + eapply Forall_forall in Hge; [| exact Hy]. lia.
  - apply Forall_forall. intros y Hy. apply elem_of_app in Hy as [Hy | Hy].
    + eapply Forall_forall in Hblock; [| exact Hy]. simpl in Hblock. lia.
    + eapply Forall_forall in Hge; [| exact Hy]. lia.
Qed.

(** The text of a PDF splits into its raw lines and a final empty piece. *)
Lemma read_pdf_split pages :
  py_split NL (fst (read_pdf pages)) = map snd (pdf_lines pages) ++ [[]].
Proof.
  unfold read_pdf, pdf_lines. rewrite pdf_loop_lines. simpl.
  rewrite <- (map_map snd (fun l => l ++ [NL])), concat_snoc_join.
  apply py_split_join; [by destruct (map snd _) |].
  apply Forall_app. split; [| constructor; [apply not_elem_of_nil | constructor]].
  apply Forall_forall. intros l Hl. apply elem_of_map_iff in Hl as (pl & -> & Hpl).
  eapply Forall_forall in Hpl; [| apply pdf_lines_from_shape; lia]. apply Hpl.
Qed.

Lemma read_pdf_no_cr pages : CR ∉ fst (read_pdf pages).
Proof.
  rewrite <- (py_join_split NL (fst (read_pdf pages))), read_pdf_split.
  intros Hc. apply elem_of_py_join in Hc as [Hc | (l & Hl & Hcl)]; [set_solver |].
  apply elem_of_app in Hl as [Hl | Hl];
    [| apply list_elem_of_singleton in Hl; subst; by apply not_elem_of_nil in Hcl].
  apply elem_of_map_iff in Hl as (pl & -> & Hpl).
  eapply Forall_forall in Hpl; [| apply pdf_lines_from_shape; lia]. destruct Hpl as (_ & Hcr & _). done.
Qed.

(** A page block, a non-blank marker, non-blank lines and one blank
    separator, passes through [collapse] unchanged but for the
    right-stripping. *)
Lemma collapse_block b m ls rest :
  py_blank m = false -> Forall (fun l => py_blank l = false) ls ->
  collapse b (m :: (ls ++ [[]]) ++ rest) =
  py_rstrip m :: map py_rstrip ls ++ [[]] ++ collapse true rest.
Proof.
  intros Hm Hls. cbn [app collapse]. rewrite Hm. f_equal.
  induction Hls as [|l ls Hl _ IH]; simpl; [done |]. by rewrite Hl, IH.
Qed.

Lemma collapse_pdf_lines i b pages :
  pages <> [] \/ b = true -> pages_nonblank pages ->
  collapse b (map snd (pdf_lines_from i pages) ++ [[]]) =
  map (fun pl => py_rstrip (snd pl)) (pdf_lines_from i pages).
Proof.
  revert i b. induction pages as [|p ps IH]; intros i b Hb Hnb.
  - destruct Hb as [? | ->]; [done | reflexivity].
  - inversion Hnb as [|? ? Hp Hps]; subst. cbn [pdf_lines_from].
    rewrite !map_app, <- app_assoc. unfold page_lines. rewrite !map_app, !map_map.
    cbn [map app fst snd]. fold (page_text_of p).
    change ((fun x => snd (i, x)) : pystr -> pystr) with (fun x : pystr => x).
    rewrite map_id.
    rewrite collapse_block by (done || apply page_marker_nonblank).
    rewrite IH by auto. simpl. by rewrite <- app_assoc.
Qed.

(** A [.pdf] file goes through the PDF branch. *)
Lemma read_text_any_pdf d :
  py_lower_ascii (path_suffix (doc_name d)) = py ".pdf" ->
  read_text_any d = inr (fst (read_pdf (doc_pages d)), Some (snd (read_pdf (doc_pages d)))).
Proof.
  intros Hs. unfold read_text_any. rewrite Hs.
  rewrite !bool_decide_eq_false_2 by discriminate. rewrite bool_decide_eq_true_2 by done.
  simpl. by destruct (read_pdf (doc_pages d)).
Qed.

(** Only the PDF branch returns a page map. *)
Lemma read_text_any_some d text pol :
  read_text_any d = inr (text, Some pol) -> read_pdf (doc_pages d) = (text, pol).
Proof.
  unfold read_text_any. destruct (_ || _).
  - by destruct (read_text (doc_bytes d)).
  - case_bool_decide; [| discriminate]. destruct (read_pdf (doc_pages d)). by intros [= -> ->].
Qed.

(** The raw lines of pages [i], [i+1], ... end with a blank separator. *)
Lemma pdf_lines_from_last i pages :
  pages <> [] -> exists ls, map snd (pdf_lines_from i pages) = ls ++ [[]].
Proof.
  revert i. induction pages as [|p ps IH]; intros i Hne; [done |]. cbn [pdf_lines_from].
  rewrite map_app. destruct ps as [|p' ps'].
  - cbn [pdf_lines_from]. rewrite app_nil_r. unfold page_lines. rewrite !map_app.
    cbn [map snd]. eexists. by rewrite app_assoc.
  - destruct (IH (i + 1) ltac:(discriminate)) as [ls Hls]. rewrite Hls.
    eexists. by rewrite app_assoc.
Qed.

(** ** The properties of the loader *)

(** C6 [Refinement] (spec §4.1): the PDF branch of [read_text_any]
    produces exactly the raw lines of [pdf_lines] (the marker, the page's
    lines and a blank separator for every page) followed by the empty
    piece after the last line break, and a page map with one entry per
    raw line: the page that line comes from. *)
Theorem read_pdf_spec pages :
  py_split NL (fst (read_pdf pages)) = map snd (pdf_lines pages) ++ [[]] /\
  snd (read_pdf pages) = map fst (pdf_lines pages).
Proof.
  split; [apply read_pdf_split |].
  unfold read_pdf, pdf_lines. by rewrite pdf_loop_lines.
Qed.

(** C22 [Invariant] (spec §3 Page Map, §8): the page map of a PDF never
    decreases and holds only page numbers between 1 and the number of
    pages. *)
Theorem read_pdf_page_map pages :
  nondecreasing (snd (read_pdf pages)) /\
  Forall (fun p => 1 <= p <= py_len pages) (snd (read_pdf pages)).
Proof.
  unfold read_pdf. rewrite pdf_loop_lines. simpl. split.
  - apply StronglySorted_nondecreasing, (pdf_lines_from_sorted 1 pages).
  - apply Forall_forall. intros q Hq. apply elem_of_map_iff in Hq as (pl & -> & Hpl).
    eapply Forall_forall in Hpl; [| apply pdf_lines_from_shape; lia].
    destruct Hpl as (_ & _ & ?). lia.
Qed.

(** C23 [Error] (spec §4.1, §7): [read_text_any] fails exactly for a
    suffix other than [.txt], [.md] and [.pdf] (in any case), and then
    with a [ValueError] that names the suffix (not the file path). *)
Theorem read_text_any_error d e :
  read_text_any d = inl e <->
  (py_lower_ascii (path_suffix (doc_name d)) ∉ [py ".txt"; py ".md"; py ".pdf"]) /\
  e = ValueError (unsupported_msg (path_suffix (doc_name d))).
Proof.
  unfold read_text_any. set (s := py_lower_ascii _).
  rewrite !not_elem_of_cons. case_bool_decide as Ht; simpl.
  { split; [discriminate | intros [(? & _) _]; contradiction]. }
  case_bool_decide as Hm; simpl.
  { split; [discriminate | intros [(_ & ? & _) _]; contradiction]. }
  case_bool_decide as Hp; simpl.
  { destruct (read_pdf (doc_pages d)). split; [discriminate | intros [(_ & _ & ? & _) _]; contradiction]. }
  split; [intros [= <-]; split_and!; auto; apply not_elem_of_nil | intros [_ ->]; done].
Qed.

(** Spec §4.1, §8: when no page has a blank line, the
    page map is aligned with the normalized lines: normalization keeps
    every raw line (right-stripped) and drops only the final empty piece,
    so normalized line [k] comes from page [page_of_line[k]]. *)
Theorem read_pdf_aligned pages :
  pages <> [] -> pages_nonblank pages ->
  normalize_lines (fst (read_pdf pages)) = map (fun pl => py_rstrip (snd pl)) (pdf_lines pages).
Proof.
  intros Hne Hnb. rewrite normalize_lines_collapse, unify_newlines_id by apply read_pdf_no_cr.
  rewrite read_pdf_split. by apply collapse_pdf_lines; [left |].
Qed.

Definition two_pages : list (option pystr) := [Some (py "a"); Some (py "b" ++ [NL] ++ py "c")].

Lemma read_pdf_aligned_witness :
  (two_pages <> [] /\ pages_nonblank two_pages) /\
  normalize_lines (fst (read_pdf two_pages)) =
  map (fun pl => py_rstrip (snd pl)) (pdf_lines two_pages).
Proof.
  assert (H1 : two_pages <> []) by discriminate.
  assert (H2 : pages_nonblank two_pages) by (repeat constructor).
  split; [split; assumption | apply (read_pdf_aligned two_pages H1 H2)].
Defined.
