(* ===== verification/Pipeline.v ===== *)
(** * The pipeline: [main] of [src/chunk.py]

    [main] (lines 114-129) reads the document, normalizes its lines,
    chunks them, builds the records and writes them out.  [chunk_main]
    composes the component models in the [res] monad: each step's
    exception aborts the run.  It returns the normalized lines and the
    records that [write_jsonl] then writes.

    The theorems are about the composition: the page map of a PDF is
    looked up with normalized line numbers although it indexes raw lines,
    which misattributes pages as soon as a page has a blank line; the
    chunking parameters are only checked after the document has been
    read; and when no page has a blank line, every record cites the pages
    its lines come from. *)

From S2P Require Import Prelude PyStr Normalize Chunker Records Loader.

(** ** The code *)

(** Lines 125-128 of [main]. *)
Definition chunk_main (d : document) (lines_per_chunk overlap_lines : Z)
    : res (list pystr * list record) :=
  (tp <- read_text_any d ;;
   let '(text, page_of_line) := tp in
   let lines := normalize_lines text in
   chunks <- chunk_by_lines lines lines_per_chunk overlap_lines ;;
   records <- build_records (doc_name d) chunks page_of_line ;;
   inr (lines, records))%py.

(** A two-page PDF whose first page's text ends with a line break, as
    pypdf's [extract_text] commonly returns it. *)
Definition pdf_trailing_newline : document :=
  mk_document (py "book.pdf") [] [Some (py "a" ++ [NL]); Some (py "b")].

(** ** Properties of the pipeline *)

(** Two blank raw lines in a row, and the drops they force. *)
Lemma blank_pairs_two xs ys : (1 + blank_pairs ys <= blank_pairs (xs ++ [[]; []] ++ ys))%nat.
Proof.
  pose proof (blank_pairs_app xs ([[]; []] ++ ys)). pose proof (blank_pairs_app [[]; []] ys).
  assert (blank_pairs [[]; []] = 1%nat) by reflexivity. lia.
Qed.

(** The raw lines of a PDF whose first page's text ends with a line
    break hold two pairs of blank lines in a row: the empty last line of
    that page and its separator, and the last separator and the final
    empty piece. *)
Lemma pdf_raw_blank_pairs p1 rest :
  last (page_text_of p1) = Some NL ->
  (2 <= blank_pairs (map snd (pdf_lines (p1 :: rest)) ++ [[]]))%nat.
Proof.
  intros Hl. apply last_Some in Hl as [t Ht].
  unfold pdf_lines. cbn [pdf_lines_from]. rewrite map_app. unfold page_lines at 1.
  fold (page_text_of p1). rewrite Ht, py_split_app_sep, !map_app. cbn [map snd py_split app].
  destruct rest as [|p2 rest']; cbn [pdf_lines_from map app].
  - rewrite <- !app_assoc. cbn [app].
    match goal with |- context [blank_pairs (?m :: ?xs ++ ?ys)] =>
      pose proof (blank_pairs_app (m :: xs) ys) as H end.
    cbn [app] in H. assert (blank_pairs [[]; []; []] = 2%nat) by reflexivity. lia.
  - destruct (pdf_lines_from_last (1 + 1) (p2 :: rest') ltac:(discriminate)) as [Q HQ].
    cbn [pdf_lines_from] in HQ. rewrite HQ, <- !app_assoc. cbn [app].
    match goal with |- context [blank_pairs (?m :: ?xs ++ _)] =>
      pose proof (blank_pairs_two (m :: xs) (Q ++ [[]; []])) as H end.
    pose proof (blank_pairs_two Q []) as H'. rewrite app_nil_r in H'. cbn [app] in H, H'.
    rewrite <- ?app_assoc in H. cbn [app] in H. lia.
Qed.

(** C2 [Safety] (spec §4.4, §8 page-map invariant; finding): the page
    map is built over the raw lines of the PDF text but looked up with
    line numbers of the normalized lines.  For every PDF whose first
    page's text ends with a line break (as pypdf's [extract_text]
    commonly returns it), normalization merges that page's empty last
    line with the page separator, and the page map holds more entries
    than there are normalized lines: [page_of_line[k - 1]] is not the
    page of normalized line [k] for the lines after the merge. *)
Theorem chunk_main_page_misaligned d text pol p1 rest :
  read_text_any d = inr (text, Some pol) -> doc_pages d = p1 :: rest ->
  last (page_text_of p1) = Some NL ->
  (length (normalize_lines text) < length pol)%nat.
Proof.
  intros Hr Hp Hl. apply read_text_any_some in Hr. rewrite Hp in Hr.
  assert (Ht : text = fst (read_pdf (p1 :: rest))) by (by rewrite Hr).
  assert (Hpol : pol = map fst (pdf_lines (p1 :: rest))).
  { assert (pol = snd (read_pdf (p1 :: rest))) as -> by (by rewrite Hr).
    unfold read_pdf, pdf_lines. by rewrite pdf_loop_lines. }
  rewrite Ht, Hpol, normalize_lines_collapse, unify_newlines_id by apply read_pdf_no_cr.
  rewrite read_pdf_split, length_map.
  pose proof (collapse_length false (map snd (pdf_lines (p1 :: rest)) ++ [[]])) as Hc.
  pose proof (pdf_raw_blank_pairs p1 rest Hl) as Hb.
  rewrite length_app, length_map in Hc. cbn [length andb] in Hc. lia.
Qed.

(** C13 [Error] (spec §7, §8 scenario 3; finding): the chunking
    parameters are validated only after the document has been read: with
    invalid parameters [main] reports the loader's error when there is
    one, and otherwise the failed assertion (not an
    [InvalidChunkParameters] error raised before the input is touched). *)
Theorem chunk_main_invalid_params d W O :
  ~ valid_params W O ->
  chunk_main d W O =
  match read_text_any d with inl e => inl e | inr _ => inl AssertionError end.
Proof.
  intros Hv. unfold chunk_main. destruct (read_text_any d) as [e | [text pol]]; [done |].
  simpl. by rewrite chunk_by_lines_invalid_run.
Qed.

Lemma chunk_main_run d W O text pol :
  valid_params W O -> read_text_any d = inr (text, pol) ->
  chunk_main d W O =
  inr (normalize_lines text,
       imap (record_of (doc_name d) pol) (chunks_spec (normalize_lines text) W O)).
Proof.
  intros Hv Hr. unfold chunk_main. rewrite Hr. simpl.
  rewrite chunk_by_lines_run by done. simpl. unfold build_records.
  by rewrite build_records_from_ok by (by apply chunks_spec_wf).
Qed.

(** C12 [Refinement] (spec §2 data flow): with valid parameters, once the
    document is loaded, [main] succeeds: its lines are the normalized
    text, and its records are, in order, one record per reference chunk
    of those lines, carrying the page map of the loader. *)
Theorem chunk_main_spec d W O text pol :
  valid_params W O -> read_text_any d = inr (text, pol) ->
  exists rs, chunk_main d W O = inr (normalize_lines text, rs) /\
  rs = imap (record_of (doc_name d) pol) (chunks_spec (normalize_lines text) W O) /\
  Forall (fun r => 1 <= rec_start_line r <= rec_end_line r /\
                   rec_end_line r <= py_len (normalize_lines text)) rs.
Proof.
  intros Hv Hr. eexists. split; [by apply chunk_main_run | split; [done |]].
  apply Forall_forall. intros r Hr'. apply elem_of_lookup_imap in Hr' as (i & c & -> & Hc).
  apply list_elem_of_lookup_2 in Hc. eapply Forall_forall in Hc; [| by apply chunks_spec_in_range].
  exact Hc.
Qed.

Definition notes_txt : document := mk_document (py "notes.md") (py "x" ++ [NL] ++ py "y") [].

Lemma chunk_main_spec_witness :
  (valid_params 80 20 /\ read_text_any notes_txt = inr (py "x" ++ [NL] ++ py "y", None)) /\
  exists rs, chunk_main notes_txt 80 20 = inr (normalize_lines (py "x" ++ [NL] ++ py "y"), rs) /\
  rs = imap (record_of (doc_name notes_txt) None)
         (chunks_spec (normalize_lines (py "x" ++ [NL] ++ py "y")) 80 20) /\
  Forall (fun r => 1 <= rec_start_line r <= rec_end_line r /\
                   rec_end_line r <= py_len (normalize_lines (py "x" ++ [NL] ++ py "y"))) rs.
Proof.
  assert (Hv : valid_params 80 20) by (unfold valid_params; lia).
  assert (Hr : read_text_any notes_txt = inr (py "x" ++ [NL] ++ py "y", None)) by reflexivity.
  split; [split; assumption | exact (chunk_main_spec notes_txt 80 20 _ _ Hv Hr)].
Defined.

Lemma chunk_main_invalid_params_witness :
  ~ valid_params 3 3 /\ chunk_main notes_txt 3 3 = inl AssertionError.
Proof.
  assert (Hv : ~ valid_params 3 3) by (unfold valid_params; lia).
  split; [exact Hv | exact (chunk_main_invalid_params notes_txt 3 3 Hv)].
Defined.

(** C5 [Functional] (spec §4.4, §8 scenario 2): for a PDF none of whose
    pages has a blank line, every record carries a page range, and it is
    the page of the raw line at [start_line] and the page of the raw line
    at [end_line]; the normalized line at [start_line] is that raw line,
    right-stripped. *)
Theorem chunk_main_pages d W O lines rs :
  valid_params W O -> py_lower_ascii (path_suffix (doc_name d)) = py ".pdf" ->
  doc_pages d <> [] -> pages_nonblank (doc_pages d) ->
  chunk_main d W O = inr (lines, rs) ->
  Forall (fun r => exists sp ep lsp lep,
    pages r = Some (sp, ep) /\
    pdf_lines (doc_pages d) !! Z.to_nat (rec_start_line r - 1) = Some (sp, lsp) /\
    pdf_lines (doc_pages d) !! Z.to_nat (rec_end_line r - 1) = Some (ep, lep) /\
    lines !! Z.to_nat (rec_start_line r - 1) = Some (py_rstrip lsp)) rs.
Proof.
  intros Hv Hpdf Hne Hnb H.
  rewrite (chunk_main_run d W O _ _ Hv (read_text_any_pdf d Hpdf)) in H.
  assert (Hlines : normalize_lines (fst (read_pdf (doc_pages d))) =
                   map (fun pl => py_rstrip (snd pl)) (pdf_lines (doc_pages d))).
  { rewrite normalize_lines_collapse, unify_newlines_id by apply read_pdf_no_cr.
    rewrite read_pdf_split. by apply collapse_pdf_lines; [left |]. }
  assert (Hpol : snd (read_pdf (doc_pages d)) = map fst (pdf_lines (doc_pages d))).
  { unfold read_pdf, pdf_lines. by rewrite pdf_loop_lines. }
  set (rp := read_pdf (doc_pages d)) in *. clearbody rp.
  injection H as <- <-.
  pose proof (chunks_spec_in_range (normalize_lines (fst rp)) W O Hv)
    as Hrange.
  apply Forall_forall. intros r Hr. apply elem_of_lookup_imap in Hr as (i & c & -> & Hc).
  apply list_elem_of_lookup_2 in Hc. eapply Forall_forall in Hc; [| exact Hrange].
  cbv beta in Hc. rewrite Hlines in Hc. unfold py_len in Hc. rewrite length_map in Hc.
  set (L := pdf_lines (doc_pages d)) in *.
  destruct (lookup_lt_is_Some_2 L (Z.to_nat (start_line c - 1))) as [[sp lsp] Hs]; [lia |].
  destruct (lookup_lt_is_Some_2 L (Z.to_nat (end_line c - 1))) as [[ep lep] He]; [lia |].
  exists sp, ep, lsp, lep. unfold record_of, page_range. cbn [pages rec_start_line rec_end_line].
  rewrite Hpol, Hlines. unfold py_len. rewrite length_map.
  replace (end_line c <=? Z.of_nat (length L)) with true by py_cases.
  rewrite !lookup_map, Hs, He. simpl. split_and!; try done.
Qed.

Definition aligned_pdf : document :=
  mk_document (py "war.pdf") [] [Some (py "a"); Some (py "b" ++ [NL] ++ py "c")].

Lemma chunk_main_pages_witness :
  exists lines rs, chunk_main aligned_pdf 2 1 = inr (lines, rs) /\
  Forall (fun r => exists sp ep lsp lep,
    pages r = Some (sp, ep) /\
    pdf_lines (doc_pages aligned_pdf) !! Z.to_nat (rec_start_line r - 1) = Some (sp, lsp) /\
    pdf_lines (doc_pages aligned_pdf) !! Z.to_nat (rec_end_line r - 1) = Some (ep, lep) /\
    lines !! Z.to_nat (rec_start_line r - 1) = Some (py_rstrip lsp)) rs.
Proof.
  eexists _, _. split; [reflexivity |].
  apply (chunk_main_pages aligned_pdf 2 1);
    [unfold valid_params; lia | reflexivity | discriminate | repeat constructor | reflexivity].
Defined.

Lemma chunk_main_page_misaligned_witness :
  (read_text_any pdf_trailing_newline =
     inr (fst (read_pdf (doc_pages pdf_trailing_newline)),
          Some (snd (read_pdf (doc_pages pdf_trailing_newline)))) /\
   doc_pages pdf_trailing_newline = Some (py "a" ++ [NL]) :: [Some (py "b")] /\
   last (page_text_of (Some (py "a" ++ [NL]))) = Some NL) /\
  (length (normalize_lines (fst (read_pdf (doc_pages pdf_trailing_newline)))) <
   length (snd (read_pdf (doc_pages pdf_trailing_newline))))%nat.
Proof.
  assert (Hr : read_text_any pdf_trailing_newline =
                 inr (fst (read_pdf (doc_pages pdf_trailing_newline)),
                      Some (snd (read_pdf (doc_pages pdf_trailing_newline))))) by reflexivity.
  assert (Hp : doc_pages pdf_trailing_newline = Some (py "a" ++ [NL]) :: [Some (py "b")])
    by reflexivity.
  assert (Hl : last (page_text_of (Some (py "a" ++ [NL]))) = Some NL) by reflexivity.
  split; [split_and!; assumption |].
  exact (chunk_main_page_misaligned pdf_trailing_newline _ _ _ _ Hr Hp Hl).
Defined.
