(* ===== verification/Jsonl.v ===== *)
(** * The JSONL corpus: [write_jsonl] of [src/chunk.py] and [load_jsonl]
    of [src/ingest_chroma.py]

    [write_jsonl] (chunk.py, lines 108-112) writes each record as
    [json.dumps(r, ensure_ascii=False)] followed by a line break;
    [load_jsonl] (ingest_chroma.py, lines 14-22) reads the file back line
    by line, strips each line, skips the blank ones and parses the others
    with [json.loads].  The two scripts communicate only through this
    file, so the round trip is what carries the records of the chunker to
    the indexer.

    The [json] module is modelled as CPython 3.12 implements it with its C
    accelerator ([_json.c]): the encoder [c_encode_basestring] of
    [ensure_ascii=False] and the scanner [scan_once_unicode] with its
    string, number, object and array parsers, the dict construction of
    [PyDict_SetItem] (a repeated key keeps its first position and its last
    value), and the [int] conversion limit of 4300 digits.  A JSON float
    is kept as its lexeme ([JFloat]): float values and [float.__repr__]
    are not modelled, and no record holds a float.  The file is text: its
    UTF-8 encoding is not modelled, and reading applies the universal
    newline translation of text mode. *)

From S2P Require Import Prelude PyStr Records.

(** ** JSON values *)

#[warnings="-register-all"]
Inductive json :=
  | JNull
  | JBool (b : bool)
  | JInt (n : Z)
  | JFloat (lexeme : pystr)
  | JStr (s : pystr)
  | JArr (xs : list json)
  | JObj (kvs : list (pystr * json)).

(** ** The encoder: [json.dumps(obj, ensure_ascii=False)] *)

Definition hexdigit (d : Z) : Z := if d <? 10 then 48 + d else 87 + d.

(** One character of a string literal ([ESCAPE_DCT]): the backslash, the
    quote and the control characters are escaped, every other character
    is written as is. *)
Definition escape_char (c : Z) : pystr :=
  if c =? 92 then [92; 92]
  else if c =? 34 then [92; 34]
  else if c =? 8 then [92; 98]
  else if c =? 12 then [92; 102]
  else if c =? 10 then [92; 110]
  else if c =? 13 then [92; 114]
  else if c =? 9 then [92; 116]
  else if c <? 32 then [92; 117; 48; 48; hexdigit (c / 16); hexdigit (c mod 16)]
  else [c].

Definition encode_string (s : pystr) : pystr := [34] ++ concat (map escape_char s) ++ [34].

(** [int.__repr__]. *)
Definition py_repr_int (n : Z) : pystr :=
  if n <? 0 then [45] ++ py_str_nonneg (- n) else py_str_nonneg n.

Fixpoint dumps (v : json) : pystr :=
  match v with
  | JNull => py "null"
  | JBool true => py "true"
  | JBool false => py "false"
  | JInt n => py_repr_int n
  | JFloat l => l
  | JStr s => encode_string s
  | JArr xs => [91] ++ py_join (py ", ") (map dumps xs) ++ [93]
  | JObj kvs =>
      [123] ++ py_join (py ", ") (map (fun '(k, x) => encode_string k ++ py ": " ++ dumps x) kvs)
      ++ [125]
  end.

(** The dict of a record, keys in the order [build_records] inserts them
    (chunk.py, lines 94-104). *)
Definition record_dict (r : record) : list (pystr * json) :=
  [(py "id", JStr (rec_id r)); (py "source_file", JStr (source_file r));
   (py "start_line", JInt (rec_start_line r)); (py "end_line", JInt (rec_end_line r));
   (py "text", JStr (rec_text r))] ++
  match pages r with
  | Some (sp, ep) => [(py "start_page", JInt sp); (py "end_page", JInt ep)]
  | None => []
  end.

(** [write_jsonl(records, out_path)]: the text of the file. *)
Definition write_jsonl (rs : list record) : pystr :=
  concat (map (fun r => dumps (JObj (record_dict r)) ++ [NL]) rs).

(** ** The scanner: [json.loads] *)

(** [IS_WHITESPACE]: space, tab, line feed, carriage return. *)
Definition is_ws (c : Z) : bool := (c =? 32) || (c =? 9) || (c =? 10) || (c =? 13).

Fixpoint skip_ws (s : pystr) : pystr :=
  match s with
  | c :: s' => if is_ws c then skip_ws s' else s
  | [] => []
  end.

Definition is_digit (c : Z) : bool := (48 <=? c) && (c <=? 57).

Definition hex_val (c : Z) : option Z :=
  if is_digit c then Some (c - 48)
  else if (97 <=? c) && (c <=? 102) then Some (c - 87)
  else if (65 <=? c) && (c <=? 70) then Some (c - 55)
  else None.

Definition hex4 (a b c d : Z) : option Z :=
  match hex_val a, hex_val b, hex_val c, hex_val d with
  | Some w, Some x, Some y, Some z => Some (((w * 16 + x) * 16 + y) * 16 + z)
  | _, _, _, _ => None
  end.

(** The one-character escapes after a backslash. *)
Definition simple_escape (e : Z) : option Z :=
  if e =? 34 then Some 34
  else if e =? 92 then Some 92
  else if e =? 47 then Some 47
  else if e =? 98 then Some 8
  else if e =? 102 then Some 12
  else if e =? 110 then Some 10
  else if e =? 114 then Some 13
  else if e =? 116 then Some 9
  else None.

Definition is_high (u : Z) : bool := (55296 <=? u) && (u <=? 56319).
Definition is_low (u : Z) : bool := (56320 <=? u) && (u <=? 57343).
Definition join_surrogates (hi lo : Z) : Z := 65536 + (hi - 55296) * 1024 + (lo - 56320).

Definition cons_fst (c : Z) (r : res (pystr * pystr)) : res (pystr * pystr) :=
  match r with
  | inr (s, rest) => inr (c :: s, rest)
  | inl e => inl e
  end.

(** [scanstring_unicode] with [strict=True], from the character after the
    opening quote: the decoded string and the text after the closing
    quote. *)
Fixpoint scan_string (s : pystr) : res (pystr * pystr) :=
  match s with
  | [] => inl JSONDecodeError
  | c :: s1 =>
      if c =? 34 then inr ([], s1)
      else if c =? 92 then
        match s1 with
        | [] => inl JSONDecodeError
        | e :: s2 =>
            if e =? 117 then
              match s2 with
              | h1 :: h2 :: h3 :: h4 :: s3 =>
                  match hex4 h1 h2 h3 h4 with
                  | None => inl JSONDecodeError
                  | Some u =>
                      if is_high u then
                        match s3 with
                        | b :: u' :: k1 :: k2 :: k3 :: k4 :: s4 =>
                            if (b =? 92) && (u' =? 117) then
                              match hex4 k1 k2 k3 k4 with
                              | None => inl JSONDecodeError
                              | Some u2 =>
                                  if is_low u2 then cons_fst (join_surrogates u u2) (scan_string s4)
                                  else cons_fst u (scan_string s3)
                              end
                            else cons_fst u (scan_string s3)
                        | _ => cons_fst u (scan_string s3)
                        end
                      else cons_fst u (scan_string s3)
                  end
              | _ => inl JSONDecodeError
              end
            else
              match simple_escape e with
              | Some c' => cons_fst c' (scan_string s2)
              | None => inl JSONDecodeError
              end
        end
      else if c <? 32 then inl JSONDecodeError
      else cons_fst c (scan_string s1)
  end.

Fixpoint take_digits (s : pystr) : pystr * pystr :=
  match s with
  | c :: s' => if is_digit c then let '(ds, r) := take_digits s' in (c :: ds, r) else ([], s)
  | [] => ([], [])
  end.

(** [sys.get_int_max_str_digits()] of CPython 3.12. *)
Definition int_max_str_digits : nat := 4300.

(** The integers of at most 4300 digits are those below [int_limit]. *)
Definition int_limit : Z := 10 ^ 4300.

Definition int_limit_msg (n : nat) : pystr :=
  py "Exceeds the limit (4300 digits) for integer string conversion: value has " ++
  py_str_nonneg (Z.of_nat n) ++
  py " digits; use sys.set_int_max_str_digits() to increase the limit".

(** The optional fraction [.\d+] of [_match_number_unicode]. *)
Definition scan_frac (s : pystr) : pystr * pystr :=
  match s with
  | c :: d :: s' =>
      if (c =? 46) && is_digit d then let '(ds, r) := take_digits s' in (c :: d :: ds, r)
      else ([], s)
  | _ => ([], s)
  end.

(** The optional exponent [[eE][-+]?\d+], backtracked when no digit
    follows. *)
Definition scan_exp (s : pystr) : pystr * pystr :=
  match s with
  | e :: s1 =>
      if (e =? 101) || (e =? 69) then
        let '(sg, s2) := match s1 with
                         | c :: s2 => if (c =? 45) || (c =? 43) then ([c], s2) else ([], s1)
                         | [] => ([], s1)
                         end in
        let '(ds, r) := take_digits s2 in
        match ds with [] => ([], s) | _ => (e :: sg ++ ds, r) end
      else ([], s)
  | [] => ([], s)
  end.

(** [_match_number_unicode]: an [int], or a float kept as its lexeme. *)
Definition scan_number (s : pystr) : res (json * pystr) :=
  let '(neg, s1) := match s with
                    | c :: s' => if c =? 45 then (true, s') else (false, s)
                    | [] => (false, s)
                    end in
  match s1 with
  | [] => inl JSONDecodeError
  | c :: t =>
      let int_part :=
        if (49 <=? c) && (c <=? 57) then Some (let '(ds, r) := take_digits t in (c :: ds, r))
        else if c =? 48 then Some ([c], t)
        else None in
      match int_part with
      | None => inl JSONDecodeError
      | Some (ds, r1) =>
          let '(fr, r2) := scan_frac r1 in
          let '(ex, r3) := scan_exp r2 in
          if match fr, ex with [], [] => true | _, _ => false end then
            if Nat.ltb int_max_str_digits (length ds) then inl (ValueError (int_limit_msg (length ds)))
            else inr (JInt (if neg then - dec_value ds else dec_value ds), r1)
          else inr (JFloat ((if neg then [45] else []) ++ ds ++ fr ++ ex), r3)
      end
  end.

(** [s] begins with the characters of [w]; then the rest. *)
Fixpoint strip_prefix (w s : pystr) : option pystr :=
  match w, s with
  | [], _ => Some s
  | a :: w', b :: s' => if a =? b then strip_prefix w' s' else None
  | _ :: _, [] => None
  end.

(** A repeated key keeps its first position and takes the last value. *)
Fixpoint dict_set {A} (k : pystr) (v : A) (d : list (pystr * A)) : list (pystr * A) :=
  match d with
  | [] => [(k, v)]
  | (k', v') :: d' => if bool_decide (k = k') then (k, v) :: d' else (k', v') :: dict_set k v d'
  end.

(** The named constants [scan_once_unicode] recognises; [NaN] and the
    infinities are floats. *)
Definition scan_literal (s : pystr) : option (json * pystr) :=
  match strip_prefix (py "null") s with
  | Some r => Some (JNull, r)
  | None =>
  match strip_prefix (py "true") s with
  | Some r => Some (JBool true, r)
  | None =>
  match strip_prefix (py "false") s with
  | Some r => Some (JBool false, r)
  | None =>
  match strip_prefix (py "NaN") s with
  | Some r => Some (JFloat (py "NaN"), r)
  | None =>
  match strip_prefix (py "Infinity") s with
  | Some r => Some (JFloat (py "Infinity"), r)
  | None =>
  match strip_prefix (py "-Infinity") s with
  | Some r => Some (JFloat (py "-Infinity"), r)
  | None => None
  end end end end end end.

(** [scan_once_unicode], [_parse_object_unicode] and
    [_parse_array_unicode]: a value and the text after it.  [fuel] bounds
    the nesting and the number of members; [loads] gives it one more than
    twice the length of the text, which is never exhausted. *)
Fixpoint parse_value (fuel : nat) (s : pystr) : res (json * pystr) :=
  match fuel with
  | O => inl OutOfFuel
  | S f =>
      match s with
      | [] => inl JSONDecodeError
      | c :: s1 =>
          if c =? 34 then
            (r <- scan_string s1 ;; inr (JStr (fst r), snd r))%py
          else if c =? 123 then
            match skip_ws s1 with
            | d :: s3 => if d =? 125 then inr (JObj [], s3) else parse_members f [] (d :: s3)
            | [] => inl JSONDecodeError
            end
          else if c =? 91 then
            match skip_ws s1 with
            | d :: s3 => if d =? 93 then inr (JArr [], s3) else parse_elements f [] (d :: s3)
            | [] => inl JSONDecodeError
            end
          else
            match scan_literal s with
            | Some vr => inr vr
            | None => scan_number s
            end
      end
  end
(** The members of an object after its [{] or a [,]: [acc] holds the
    dict built so far. *)
with parse_members (fuel : nat) (acc : list (pystr * json)) (s : pystr) : res (json * pystr) :=
  match fuel with
  | O => inl OutOfFuel
  | S f =>
      match s with
      | c :: s1 =>
          if c =? 34 then
            (kr <- scan_string s1 ;;
             match skip_ws (snd kr) with
             | d :: r2 =>
                 if d =? 58 then
                   (vr <- parse_value f (skip_ws r2) ;;
                    let acc' := dict_set (fst kr) (fst vr) acc in
                    match skip_ws (snd vr) with
                    | e :: r4 =>
                        if e =? 125 then inr (JObj acc', r4)
                        else if e =? 44 then parse_members f acc' (skip_ws r4)
                        else inl JSONDecodeError
                    | [] => inl JSONDecodeError
                    end)
                 else inl JSONDecodeError
             | [] => inl JSONDecodeError
             end)%py
          else inl JSONDecodeError
      | [] => inl JSONDecodeError
      end
  end
(** The elements of an array after its [[] or a [,]. *)
with parse_elements (fuel : nat) (acc : list json) (s : pystr) : res (json * pystr) :=
  match fuel with
  | O => inl OutOfFuel
  | S f =>
      (vr <- parse_value f s ;;
       let acc' := acc ++ [fst vr] in
       match skip_ws (snd vr) with
       | e :: r4 =>
           if e =? 93 then inr (JArr acc', r4)
           else if e =? 44 then parse_elements f acc' (skip_ws r4)
           else inl JSONDecodeError
       | [] => inl JSONDecodeError
       end)%py
  end.

(** [json.loads(s)]: a leading byte order mark is refused, the value may
    be surrounded by whitespace and nothing else. *)
Definition loads (s : pystr) : res json :=
  if match s with c :: _ => c =? 65279 | [] => false end then inl JSONDecodeError
  else (vr <- parse_value (S (2 * length s)) (skip_ws s) ;;
   match skip_ws (snd vr) with
   | [] => inr (fst vr)
   | _ :: _ => inl JSONDecodeError
   end)%py.

(** The loop of [load_jsonl] over the lines of the file. *)
Fixpoint load_lines (ls : list pystr) : res (list json) :=
  match ls with
  | [] => inr []
  | l :: ls' =>
      let line := py_strip l in
      if negb (py_truthy line) then load_lines ls'
      else (v <- loads line ;; vs <- load_lines ls' ;; inr (v :: vs))%py
  end.

(** [load_jsonl(path)]: text mode translates ["\r\n"] and ["\r"] to
    ["\n"], and iterating the file gives its lines. *)
Definition load_jsonl (text : pystr) : res (list json) :=
  load_lines (py_split NL (unify_newlines text)).

(** ** Strings: the scanner reads back what the encoder writes *)

(** A code point. *)
Definition valid_char (c : Z) : Prop := 0 <= c < 1114112.

Lemma hex_val_hexdigit d : 0 <= d < 16 -> hex_val (hexdigit d) = Some d.
Proof.
  intros Hd. unfold hex_val, hexdigit, is_digit.
  destruct (d <? 10) eqn:H10; py_norm.
  - replace ((48 <=? 48 + d) && (48 + d <=? 57)) with true by py_cases. f_equal. lia.
  - replace ((48 <=? 87 + d) && (87 + d <=? 57)) with false by py_cases.
    replace ((97 <=? 87 + d) && (87 + d <=? 102)) with true by py_cases. f_equal. lia.
Qed.

Lemma hex4_control c : 0 <= c < 32 ->
  hex4 48 48 (hexdigit (c / 16)) (hexdigit (c mod 16)) = Some c.
Proof.
  intros Hc. unfold hex4.
  rewrite !hex_val_hexdigit by (split; [apply Z.div_pos | apply Z.div_lt_upper_bound] ||
                                 apply Z.mod_pos_bound; lia).
  simpl. f_equal. pose proof (Z.div_mod c 16). lia.
Qed.

(** Every escape decodes to the character it encodes. *)
Lemma scan_string_escape c rest :
  valid_char c -> scan_string (escape_char c ++ rest) = cons_fst c (scan_string rest).
Proof.
  intros Hc. unfold escape_char.
  destruct (Z.eqb_spec c 92) as [-> | H92]; [done |].
  destruct (Z.eqb_spec c 34) as [-> | H34]; [done |].
  destruct (Z.eqb_spec c 8) as [-> | H8]; [done |].
  destruct (Z.eqb_spec c 12) as [-> | H12]; [done |].
  destruct (Z.eqb_spec c 10) as [-> | H10]; [done |].
  destruct (Z.eqb_spec c 13) as [-> | H13]; [done |].
  destruct (Z.eqb_spec c 9) as [-> | H9]; [done |].
  destruct (Z.ltb_spec c 32) as [Hlt | Hge].
  - cbn [app scan_string Z.eqb Pos.eqb]. unfold valid_char in Hc.
    rewrite hex4_control by lia. unfold is_high.
    by replace ((55296 <=? c) && (c <=? 56319)) with false by py_cases.
  - cbn [app scan_string].
    replace (c =? 34) with false by py_cases. replace (c =? 92) with false by py_cases.
    by replace (c <? 32) with false by py_cases.
Qed.

Lemma scan_string_encode s rest :
  Forall valid_char s ->
  scan_string (concat (map escape_char s) ++ [34] ++ rest) = inr (s, rest).
Proof.
  induction s as [|c s IH]; intros Hs; [done |]. apply Forall_cons in Hs as [Hc Hs].
  cbn [map concat]. rewrite <- app_assoc, scan_string_escape by done.
  by rewrite IH.
Qed.

(** ** Integers: the scanner reads back [int.__repr__] *)

(** A number ends where the text cannot continue it. *)
Definition num_end (rest : pystr) : bool :=
  match rest with
  | [] => true
  | c :: _ => negb (is_digit c) && negb (c =? 46) && negb (c =? 101) && negb (c =? 69)
  end.

Lemma py_str_nonneg_first n :
  0 <= n -> exists d ds, py_str_nonneg n = d :: ds /\
  (n = 0 -> d = 48 /\ ds = []) /\ (0 < n -> 49 <= d <= 57).
Proof.
  intros Hn.
  apply (Z_lt_induction (fun n => 0 <= n -> exists d ds, py_str_nonneg n = d :: ds /\
    (n = 0 -> d = 48 /\ ds = []) /\ (0 < n -> 49 <= d <= 57))); [| exact Hn | exact Hn].
  clear n Hn. intros n IH Hn. destruct (Z.lt_ge_cases n 10).
  - rewrite py_str_nonneg_small by lia. exists (48 + n), []. split_and!; [done | intros ->; split; [lia | done] | lia].
  - rewrite py_str_nonneg_step by done.
    destruct (IH (n / 10)) as (d & ds & Hq & _ & Hd).
    + split; [apply Z.div_pos | apply Z.div_lt]; lia.
    + apply Z.div_pos; lia.
    + rewrite Hq. exists d, (ds ++ [48 + n mod 10]). split_and!; [done | lia |].
      intros _. apply Hd. apply Z.div_str_pos. lia.
Qed.

Lemma py_str_nonneg_length n k :
  0 <= n < 10 ^ Z.of_nat (S k) -> (length (py_str_nonneg n) <= S k)%nat.
Proof.
  revert n. induction k as [|k IH]; intros n Hn.
  - rewrite py_str_nonneg_small by (simpl in Hn; lia). done.
  - destruct (Z.lt_ge_cases n 10).
    + rewrite py_str_nonneg_small by lia. simpl. lia.
    + rewrite py_str_nonneg_step, length_app by done. simpl.
      enough (length (py_str_nonneg (n / 10)) <= S k)%nat by lia. apply IH.
      split; [apply Z.div_pos; lia |]. apply Z.div_lt_upper_bound; [lia |].
      rewrite <- Z.pow_succ_r by lia. replace (Z.succ (Z.of_nat (S k))) with (Z.of_nat (S (S k))) by lia.
      lia.
Qed.

Lemma take_digits_app ds rest :
  Forall (fun c => is_digit c = true) ds -> num_end rest = true ->
  take_digits (ds ++ rest) = (ds, rest).
Proof.
  intros Hds Hr. induction Hds as [|c ds Hc Hds IH]; cbn [app take_digits].
  - destruct rest as [|c rest]; [done |]. cbn [num_end] in Hr.
    destruct (is_digit c) eqn:E; [discriminate | cbn [take_digits]; by rewrite E].
  - by rewrite Hc, IH.
Qed.

Lemma scan_frac_end rest : num_end rest = true -> scan_frac rest = ([], rest).
Proof.
  destruct rest as [|c [|d rest]]; [done | done |]. simpl. intros Hr.
  by replace (c =? 46) with false by (destruct (c =? 46); [rewrite !andb_false_r in Hr |]; done).
Qed.

Lemma scan_exp_end rest : num_end rest = true -> scan_exp rest = ([], rest).
Proof.
  destruct rest as [|c rest]; [done |]. simpl. intros Hr.
  destruct (c =? 101), (c =? 69); rewrite ?andb_false_r in Hr; done.
Qed.

Lemma is_digit_py_str n : 0 <= n -> Forall (fun c => is_digit c = true) (py_str_nonneg n).
Proof.
  intros Hn. eapply Forall_impl; [apply py_str_nonneg_digits, Hn |].
  intros c Hc. cbv beta in Hc. unfold is_digit. py_cases.
Qed.

Lemma int_limit_digits m :
  Z.abs m < int_limit -> (length (py_str_nonneg (Z.abs m)) <= int_max_str_digits)%nat.
Proof.
  intros Hm. apply (py_str_nonneg_length _ 4299). split; [lia |]. exact Hm.
Qed.

Lemma int_limit_small n : Z.abs n < 10 -> Z.abs n < int_limit.
Proof. intros Hn. eapply Z.lt_le_trans; [exact Hn |]. unfold int_limit. vm_compute. discriminate. Qed.

Lemma scan_number_repr n rest :
  Z.abs n < int_limit -> num_end rest = true ->
  scan_number (py_repr_int n ++ rest) = inr (JInt n, rest).
Proof.
  intros Hn Hr.
  destruct (py_str_nonneg_first (Z.abs n) ltac:(lia)) as (d & ds & Hq & H0 & Hpos).
  pose proof (is_digit_py_str (Z.abs n) ltac:(lia)) as Hdig. rewrite Hq in Hdig.
  apply Forall_cons in Hdig as [Hd Hds].
  assert (Hlen : (length (d :: ds) <= int_max_str_digits)%nat).
  { rewrite <- Hq. by apply int_limit_digits. }
  assert (Hval : dec_value (d :: ds) = Z.abs n) by (rewrite <- Hq; apply dec_value_py_str; lia).
  assert (Hd45 : (d =? 45) = false) by (unfold is_digit in Hd; py_cases).
  assert (Hint : (if (49 <=? d) && (d <=? 57) then
                    Some (let '(ds', r) := take_digits (ds ++ rest) in (d :: ds', r))
                  else if d =? 48 then Some ([d], ds ++ rest) else None) = Some (d :: ds, rest)).
  { destruct (Z.eq_dec n 0) as [-> | Hn0].
    - destruct H0 as [-> ->]; [done |]. done.
    - rewrite take_digits_app by done.
      by replace ((49 <=? d) && (d <=? 57)) with true by (specialize (Hpos ltac:(lia)); py_cases). }
  unfold scan_number, py_repr_int. destruct (Z.ltb_spec n 0) as [Hneg | Hnneg].
  - replace (- n) with (Z.abs n) by lia. rewrite Hq. cbn [app]. cbn iota beta.
    rewrite Z.eqb_refl. cbn iota beta. rewrite Hint.
    rewrite scan_frac_end, scan_exp_end by done. cbn iota beta.
    replace (Nat.ltb int_max_str_digits (length (d :: ds))) with false
      by (symmetry; apply Nat.ltb_ge; exact Hlen).
    rewrite Hval. do 3 f_equal. lia.
  - rewrite Z.abs_eq in Hq, Hval by lia. rewrite Hq. cbn [app]. cbn iota beta. rewrite Hd45. cbn iota beta. rewrite Hint.
    rewrite scan_frac_end, scan_exp_end by done. cbn iota beta.
    replace (Nat.ltb int_max_str_digits (length (d :: ds))) with false
      by (symmetry; apply Nat.ltb_ge; exact Hlen).
    by rewrite Hval.
Qed.

(** ** Scalar values *)

(** The values a record's dict holds, within the limits the scanner reads
    back: code points, and integers of at most 4300 digits. *)
Definition scalar_ok (v : json) : Prop :=
  match v with
  | JNull | JBool _ => True
  | JInt n => Z.abs n < int_limit
  | JStr s => Forall valid_char s
  | _ => False
  end.

(** The values whose [json.dumps] writes only code points: the strings
    hold code points, the integers any. *)
Definition scalar_chars (v : json) : Prop :=
  match v with
  | JNull | JBool _ | JInt _ => True
  | JStr s => Forall valid_char s
  | _ => False
  end.

Lemma scalar_ok_chars v : scalar_ok v -> scalar_chars v.
Proof. by destruct v. Qed.

Lemma scan_literal_digit c t : is_digit c = true -> scan_literal (c :: t) = None.
Proof.
  unfold is_digit. intros Hc. assert (48 <= c <= 57) by py_cases.
  assert (c = 48 \/ c = 49 \/ c = 50 \/ c = 51 \/ c = 52 \/ c = 53 \/ c = 54 \/ c = 55 \/
          c = 56 \/ c = 57) as Hcs by lia.
  repeat destruct Hcs as [-> | Hcs]; try reflexivity. subst. reflexivity.
Qed.

Lemma scan_literal_neg d t : is_digit d = true -> scan_literal (45 :: d :: t) = None.
Proof.
  unfold is_digit. intros Hd. assert (48 <= d <= 57) by py_cases.
  assert (d = 48 \/ d = 49 \/ d = 50 \/ d = 51 \/ d = 52 \/ d = 53 \/ d = 54 \/ d = 55 \/
          d = 56 \/ d = 57) as Hds by lia.
  repeat destruct Hds as [-> | Hds]; try reflexivity. subst. reflexivity.
Qed.

Lemma py_repr_int_head n rest :
  exists c t, py_repr_int n ++ rest = c :: t /\ (48 <= c <= 57 \/ c = 45) /\
  scan_literal (c :: t) = None.
Proof.
  destruct (py_str_nonneg_first (Z.abs n) ltac:(lia)) as (d & ds & Hq & _ & _).
  pose proof (is_digit_py_str (Z.abs n) ltac:(lia)) as Hdig. rewrite Hq in Hdig.
  apply Forall_cons in Hdig as [Hd _]. unfold py_repr_int.
  destruct (Z.ltb_spec n 0).
  - replace (- n) with (Z.abs n) by lia. rewrite Hq.
    do 2 eexists. split_and!; [reflexivity | right; done |]. by apply scan_literal_neg.
  - rewrite Z.abs_eq in Hq by lia. rewrite Hq. do 2 eexists. split_and!; [reflexivity | |].
    + left. unfold is_digit in Hd. py_cases.
    + by apply scan_literal_digit.
Qed.

(** A scalar followed by the end of a number reads back as itself. *)
Lemma parse_scalar f v rest :
  scalar_ok v -> num_end rest = true ->
  parse_value (S f) (dumps v ++ rest) = inr (v, rest).
Proof.
  intros Hv Hr. destruct v as [| [] | n | l | s | xs | kvs]; try contradiction; try reflexivity.
  - destruct (py_repr_int_head n rest) as (c & t & Ht & Hhd & Hlit). cbn [dumps]. rewrite Ht.
    cbn [parse_value].
    replace (c =? 34) with false by py_cases. replace (c =? 123) with false by py_cases.
    replace (c =? 91) with false by py_cases.
    rewrite Hlit, <- Ht. by apply scan_number_repr.
  - cbn [dumps]. unfold encode_string. cbn [app parse_value]. rewrite Z.eqb_refl.
    rewrite <- app_assoc, scan_string_encode by done. done.
Qed.

(** ** Flat objects *)

(** One ["key": value] member of [dumps]. *)
Definition dump_member (kv : pystr * json) : pystr :=
  encode_string kv.1 ++ py ": " ++ dumps kv.2.

(** The members of a record's dict: valid keys, scalar values. *)
Definition member_ok (kv : pystr * json) : Prop := Forall valid_char kv.1 /\ scalar_ok kv.2.

Definition member_chars (kv : pystr * json) : Prop := Forall valid_char kv.1 /\ scalar_chars kv.2.

Lemma member_ok_chars kv : member_ok kv -> member_chars kv.
Proof. intros [? ?]. split; [done | by apply scalar_ok_chars]. Qed.

Lemma dumps_obj kvs :
  dumps (JObj kvs) = [123] ++ py_join (py ", ") (map dump_member kvs) ++ [125].
Proof.
  cbn [dumps]. do 3 f_equal. apply map_ext. by intros [k x].
Qed.

Lemma skip_ws_cons c t : is_ws c = false -> skip_ws (c :: t) = c :: t.
Proof. intros Hc. simpl. by rewrite Hc. Qed.

Lemma dumps_scalar_head v : scalar_ok v -> exists c t, dumps v = c :: t /\ is_ws c = false.
Proof.
  intros Hv. destruct v as [| [] | n | l | s | xs | kvs]; try contradiction;
    try (do 2 eexists; split; reflexivity).
  destruct (py_repr_int_head n []) as (c & t & Ht & Hhd & Hlit).
  rewrite app_nil_r in Ht. exists c, t. split; [done |]. unfold is_ws. py_cases.
Qed.

Lemma dict_set_fresh {A} k (v : A) d : k ∉ map fst d -> dict_set k v d = d ++ [(k, v)].
Proof.
  induction d as [|[k' v'] d IH]; intros Hk; [done |]. cbn [map fst] in Hk.
  apply not_elem_of_cons in Hk as [Hne Hk]. simpl.
  rewrite bool_decide_eq_false_2 by done. by rewrite IH.
Qed.

Lemma py_join_length sep xs :
  Forall (fun x => x <> []) xs -> (length xs <= length (py_join sep xs))%nat.
Proof.
  induction xs as [|x xs IH]; intros Hx; [done |]. apply Forall_cons in Hx as [Hx Hxs].
  destruct xs as [|y ys].
  - simpl. destruct x; [done | simpl; lia].
  - rewrite py_join_cons by done. rewrite !length_app.
    destruct x; [done |]. specialize (IH Hxs). simpl in *. lia.
Qed.

Lemma join_members_head kvs :
  kvs <> [] -> exists t, py_join (py ", ") (map dump_member kvs) = 34 :: t.
Proof.
  destruct kvs as [|kv [|kv' kvs]]; [done | |]; intros _; eexists; reflexivity.
Qed.

Lemma parse_members_dump f acc kvs rest :
  kvs <> [] -> Forall member_ok kvs -> NoDup (map fst (acc ++ kvs)) -> (length kvs < f)%nat ->
  parse_members f acc (py_join (py ", ") (map dump_member kvs) ++ [125] ++ rest) =
  inr (JObj (acc ++ kvs), rest).
Proof.
  revert acc f. induction kvs as [|[k x] kvs IH]; intros acc f Hne Hok Hnd Hf; [done |].
  apply Forall_cons in Hok as [[Hk Hx] Hok]. destruct f as [|f]; [simpl in Hf; lia |].
  rewrite map_app in Hnd. cbn [map fst] in Hnd.
  assert (Hfresh : k ∉ map fst acc).
  { intros Hin. apply NoDup_app in Hnd as (_ & Hdis & _). apply (Hdis k Hin). set_solver. }
  destruct (dumps_scalar_head x Hx) as (c & t & Hxt & Hws).
  (* the tail after the value: [", " ++ more] or ["}"] *)
  set (tail := (if kvs is [] then [] else py ", " ++ py_join (py ", ") (map dump_member kvs))
               ++ [125] ++ rest).
  assert (Htext : py_join (py ", ") (map dump_member ((k, x) :: kvs)) ++ [125] ++ rest =
                  34 :: concat (map escape_char k) ++ [34] ++ [58; 32] ++ dumps x ++ tail).
  { subst tail. destruct kvs as [|kv kvs]; cbn [map py_join];
      unfold dump_member, encode_string; cbn [fst snd]; by rewrite <- !app_assoc. }
  rewrite Htext. cbn [parse_members]. rewrite Z.eqb_refl, scan_string_encode by done.
  cbn [res_bind snd fst app skip_ws is_ws Z.eqb Pos.eqb orb]. try rewrite Z.eqb_refl.
  replace (skip_ws (dumps x ++ tail)) with (dumps x ++ tail) by (rewrite Hxt; simpl; by rewrite Hws).
  destruct f as [|f]; [destruct kvs; simpl in Hf; lia |].
  rewrite parse_scalar by (done || (subst tail; by destruct kvs)).
  cbn [res_bind fst snd]. rewrite dict_set_fresh by done.
  subst tail. destruct kvs as [|kv kvs].
  - done.
  - change (py ", ") with [44; 32] at 1. cbn [app skip_ws is_ws]. cbn -[py_join map parse_members].
    destruct (join_members_head (kv :: kvs)) as [t' Ht']; [done |].
    rewrite Ht'. cbn [app skip_ws is_ws]. cbn -[py_join map parse_members].
    change (34 :: t' ++ 125 :: rest) with ((34 :: t') ++ [125] ++ rest). rewrite <- Ht'.
    replace (acc ++ (k, x) :: kv :: kvs) with ((acc ++ [(k, x)]) ++ kv :: kvs)
      by (by rewrite <- app_assoc).
    apply IH; [done | done | rewrite !map_app, <- app_assoc; exact Hnd | simpl in Hf |- *; lia].
Qed.

Lemma parse_value_obj f kvs rest :
  Forall member_ok kvs -> NoDup (map fst kvs) -> (length kvs < f)%nat ->
  parse_value (S f) (dumps (JObj kvs) ++ rest) = inr (JObj kvs, rest).
Proof.
  intros Hok Hnd Hf. rewrite dumps_obj. destruct kvs as [|kv kvs]; [done |].
  destruct (join_members_head (kv :: kvs)) as [t Ht]; [done |].
  rewrite Ht. cbn [app parse_value skip_ws is_ws]. cbn -[py_join map parse_members].
  rewrite <- app_assoc. change (34 :: t ++ [125] ++ rest) with ((34 :: t) ++ [125] ++ rest). rewrite <- Ht.
  by apply (parse_members_dump f [] (kv :: kvs)).
Qed.

Lemma dumps_obj_length kvs : (length kvs < length (dumps (JObj kvs)))%nat.
Proof.
  rewrite dumps_obj, !length_app.
  enough (length kvs <= length (py_join (py ", ") (map dump_member kvs)))%nat by (simpl; lia).
  rewrite <- (length_map dump_member kvs). apply py_join_length.
  apply Forall_forall. intros x Hx. apply elem_of_map_iff in Hx as ([k v] & -> & _).
  unfold dump_member, encode_string. simpl. discriminate.
Qed.

(** ** The file *)

(** A [Forall] of an arithmetic fact over a literal list. *)
Ltac forall_lit :=
  repeat (constructor; [first [cbv beta; lia | vm_compute; intros ?; discriminate] |]);
  exact (List.Forall_nil _).

(** What [json.dumps] writes of a scalar or a flat object: every
    character is either a character of one of its strings, not a control
    character, or printable ASCII.  So, for any property [Q] of characters
    that printable ASCII has, if the strings' characters have [Q] then so
    does the output: with [Q] true, the output holds no control character
    (no line break); with [Q] the scalar values, it is encodable. *)
Section DumpsChars.
Variable Q : Z -> Prop.
Hypothesis Q_ascii : forall d, 32 <= d < 127 -> Q d.

Definition chr_ok (d : Z) : Prop := 32 <= d /\ Q d.

Lemma chr_ok_ascii d : 32 <= d < 127 -> chr_ok d.
Proof. split; [lia | by apply Q_ascii]. Qed.

Ltac forall_ascii :=
  repeat (constructor;
          [apply chr_ok_ascii; first [lia | apply (bool_decide_unpack _); vm_compute; constructor] |]);
  exact (List.Forall_nil _).

(** The strings of a scalar have [Q]. *)
Definition str_forall (v : json) : Prop :=
  match v with JStr s => Forall Q s | _ => True end.

Lemma escape_char_chars c : valid_char c -> Q c -> Forall chr_ok (escape_char c).
Proof.
  intros Hc HQ. unfold valid_char in Hc. unfold escape_char, hexdigit.
  pose proof (Z.div_pos c 16 ltac:(lia) ltac:(lia)). pose proof (Z.mod_pos_bound c 16 ltac:(lia)).
  repeat match goal with |- context [if ?b then _ else _] => destruct b eqn:? end;
    py_norm; try forall_ascii.
  - assert (c / 16 < 2) by (apply Z.div_lt_upper_bound; lia). forall_ascii.
  - assert (c / 16 < 2) by (apply Z.div_lt_upper_bound; lia). forall_ascii.
  - repeat constructor; [lia | done].
Qed.

Lemma encode_string_chars s :
  Forall valid_char s -> Forall Q s -> Forall chr_ok (encode_string s).
Proof.
  intros Hs HQ. unfold encode_string. rewrite !Forall_app. split_and!; [forall_ascii | | forall_ascii].
  apply Forall_concat, Forall_forall. intros l Hl. apply elem_of_map_iff in Hl as (c & -> & Hc).
  apply escape_char_chars; by eapply Forall_forall.
Qed.

Lemma dumps_scalar_chars v : scalar_chars v -> str_forall v -> Forall chr_ok (dumps v).
Proof.
  intros Hv HQ. destruct v as [| [] | n | l | s | xs | kvs]; try contradiction;
    try (cbn [dumps]; forall_ascii).
  - cbn [dumps]. unfold py_repr_int.
    assert (Hd : Forall chr_ok (py_str_nonneg (Z.abs n))).
    { eapply Forall_impl; [apply py_str_nonneg_digits; lia | intros d Hd; cbv beta in Hd; apply chr_ok_ascii; lia]. }
    destruct (Z.ltb_spec n 0).
    + replace (- n) with (Z.abs n) by lia. constructor; [apply chr_ok_ascii; lia | done].
    + by rewrite Z.abs_eq in Hd by lia.
  - by apply encode_string_chars.
Qed.

Lemma dumps_obj_chars kvs :
  Forall member_chars kvs -> Forall (fun kv => Forall Q kv.1 /\ str_forall kv.2) kvs ->
  Forall chr_ok (dumps (JObj kvs)).
Proof.
  intros Hok HQ. rewrite dumps_obj, !Forall_app. split_and!; [forall_ascii | | forall_ascii].
  induction kvs as [|[k x] kvs IH]; [constructor |].
  apply Forall_cons in Hok as [[Hk Hx] Hok]. apply Forall_cons in HQ as [[Qk Qx] HQ].
  assert (Hm : Forall chr_ok (dump_member (k, x))).
  { unfold dump_member. cbn [fst snd]. rewrite !Forall_app. split_and!;
      [by apply encode_string_chars | forall_ascii | by apply dumps_scalar_chars]. }
  destruct kvs as [|kv kvs]; [done |]. cbn [map]. rewrite py_join_cons by done.
  rewrite !Forall_app. split_and!; [done | forall_ascii | by apply IH].
Qed.
End DumpsChars.

Lemma dumps_obj_printable kvs :
  Forall member_ok kvs -> Forall (fun d => 32 <= d) (dumps (JObj kvs)).
Proof.
  intros Hok. eapply Forall_impl; [apply (dumps_obj_chars (fun _ => True)); [done | | ] |].
  { eapply Forall_impl; [exact Hok | apply member_ok_chars]. }
  - apply Forall_forall. intros [k []] _; split; cbn; auto using Forall_true.
  - by intros d [? _].
Qed.

Lemma py_strip_id c t d :
  py_isspace c = false -> py_isspace d = false -> py_strip (c :: t ++ [d]) = c :: t ++ [d].
Proof.
  intros Hc Hd. unfold py_strip, py_rstrip.
  assert (Hr : py_lstrip (rev (c :: t ++ [d])) = rev (c :: t ++ [d])).
  { rewrite app_comm_cons, rev_app_distr. cbn [rev app py_lstrip]. by rewrite Hd. }
  rewrite Hr, rev_involutive. cbn [app py_lstrip]. by rewrite Hc.
Qed.

Lemma loads_obj kvs :
  Forall member_ok kvs -> NoDup (map fst kvs) -> loads (dumps (JObj kvs)) = inr (JObj kvs).
Proof.
  intros Hok Hnd. pose proof (dumps_obj_length kvs) as Hlen. unfold loads.
  set (s := dumps (JObj kvs)) in *.
  assert (Hs : exists m, s = 123 :: m) by (exists (py_join (py ", ") (map dump_member kvs) ++ [125]);
    subst s; by rewrite dumps_obj).
  destruct Hs as [m Hm]. rewrite Hm. cbn [skip_ws is_ws Z.eqb Pos.eqb orb].
  rewrite <- Hm, <- (app_nil_r s). subst s.
  rewrite (parse_value_obj (2 * length (dumps (JObj kvs) ++ [])) kvs []) by (rewrite ?app_nil_r; done || lia).
  done.
Qed.

(** ** Records through the file *)

(** The strings of a record are code points and its integers have at most
    4300 digits. *)
Definition record_ok (r : record) : Prop :=
  Forall valid_char (rec_id r) /\ Forall valid_char (source_file r) /\
  Forall valid_char (rec_text r) /\
  Forall (fun n => Z.abs n < int_limit)
    ([rec_start_line r; rec_end_line r] ++
     match pages r with Some (sp, ep) => [sp; ep] | None => [] end).

Lemma py_valid s : Forall valid_char (py s).
Proof.
  unfold py. apply Forall_forall. intros x Hx. apply elem_of_map_iff in Hx as (a & -> & _).
  pose proof (Ascii.nat_ascii_bounded a). unfold valid_char. lia.
Qed.

Lemma record_dict_ok r : record_ok r -> Forall member_ok (record_dict r).
Proof.
  intros (Hid & Hsrc & Htxt & Hints). unfold record_dict, member_ok.
  destruct (pages r) as [[sp ep] |]; cbn [app] in *;
    repeat (apply Forall_cons in Hints as [? Hints]);
    repeat constructor; cbn [fst snd scalar_ok]; (apply py_valid || done).
Qed.

Lemma record_dict_keys r : NoDup (map fst (record_dict r)).
Proof.
  unfold record_dict. destruct (pages r) as [[sp ep] |];
    apply (bool_decide_unpack _); vm_compute; reflexivity.
Qed.

Lemma dumps_record_shape r :
  exists m, dumps (JObj (record_dict r)) = 123 :: m ++ [125].
Proof. rewrite dumps_obj. by eexists. Qed.

(** The lines of the file are the dumps of the records. *)
Lemma write_jsonl_lines rs :
  Forall record_ok rs ->
  py_split NL (unify_newlines (write_jsonl rs)) = map (fun r => dumps (JObj (record_dict r))) rs ++ [[]].
Proof.
  intros Hok. unfold write_jsonl.
  rewrite <- (map_map (fun r => dumps (JObj (record_dict r))) (fun l => l ++ [NL])), concat_snoc_join.
  set (ds := map (fun r => dumps (JObj (record_dict r))) rs).
  assert (Hpr : Forall (Forall (fun d => 32 <= d)) (ds ++ [[]])).
  { apply Forall_app. split; [| repeat constructor].
    apply Forall_forall. intros l Hl. apply elem_of_map_iff in Hl as (r & -> & Hr).
    apply dumps_obj_printable, record_dict_ok. by eapply Forall_forall in Hok. }
  rewrite unify_newlines_id.
  - apply py_split_join; [by destruct ds |].
    eapply Forall_impl; [exact Hpr |]. intros l Hl HNL. eapply Forall_forall in Hl; [| exact HNL].
    unfold NL in Hl. lia.
  - intros HCR. apply elem_of_py_join in HCR as [HCR | (l & Hl & HCR)].
    + apply list_elem_of_singleton in HCR. discriminate.
    + eapply Forall_forall in Hpr; [| exact Hl]. eapply Forall_forall in Hpr; [| exact HCR].
      unfold CR in Hpr. lia.
Qed.

Lemma load_lines_dumps rs :
  Forall record_ok rs ->
  load_lines (map (fun r => dumps (JObj (record_dict r))) rs ++ [[]]) =
  inr (map (fun r => JObj (record_dict r)) rs).
Proof.
  induction rs as [|r rs IH]; intros Hok; [reflexivity |]. apply Forall_cons in Hok as [Hr Hok].
  cbn [map app load_lines]. destruct (dumps_record_shape r) as [m Hm].
  rewrite Hm, py_strip_id by reflexivity. cbn [py_truthy negb]. rewrite <- Hm.
  rewrite loads_obj by (apply record_dict_ok, Hr || apply record_dict_keys).
  cbn [res_bind]. by rewrite IH.
Qed.

Lemma load_jsonl_records rs :
  Forall record_ok rs ->
  load_jsonl (write_jsonl rs) = inr (map (fun r => JObj (record_dict r)) rs).
Proof.
  intros Hok. unfold load_jsonl. rewrite write_jsonl_lines by done. by apply load_lines_dumps.
Qed.

(** ** Properties of the corpus file *)

(** C29 [Roundtrip] (spec §2 data flow, §4.5 serializer): what
    [write_jsonl] writes, [load_jsonl] reads back: one dict per record,
    in order, with exactly the keys and values of the record, for records
    whose strings are code points and whose integers have at most 4300
    digits. *)
Theorem load_jsonl_write_jsonl rs :
  Forall record_ok rs ->
  load_jsonl (write_jsonl rs) = inr (map (fun r => JObj (record_dict r)) rs).
Proof. apply load_jsonl_records. Qed.

(** ** The scanner always terminates within its fuel *)

(** A scan result that is not [OutOfFuel] and, on success, leaves fewer
    than [n] characters. *)
Definition fuel_ok {A} (n : nat) (m : res (A * pystr)) : Prop :=
  match m with
  | inl e => e <> OutOfFuel
  | inr (_, r) => (length r < n)%nat
  end.

Lemma fuel_ok_mono {A} n n' (m : res (A * pystr)) : fuel_ok n m -> (n <= n')%nat -> fuel_ok n' m.
Proof. destruct m as [e | [a r]]; simpl; [done | lia]. Qed.

Lemma fuel_ok_bind {A B} n n' (m : res (A * pystr)) (k : A * pystr -> res (B * pystr)) :
  fuel_ok n' m -> (forall a r, m = inr (a, r) -> fuel_ok n (k (a, r))) ->
  fuel_ok n (res_bind m k).
Proof. destruct m as [e | [a r]]; simpl; [done |]. intros _ Hk. by apply Hk. Qed.

Lemma fuel_ok_cons_fst n c m : fuel_ok n m -> fuel_ok n (cons_fst c m).
Proof. by destruct m as [e | [a r]]. Qed.

Lemma skip_ws_length s : (length (skip_ws s) <= length s)%nat.
Proof. induction s as [|c s IH]; simpl; [lia |]. destruct (is_ws c); simpl; lia. Qed.

Lemma scan_string_ok s : fuel_ok (length s) (scan_string s).
Proof.
  induction s as [s IH] using (induction_ltof1 _ (@length Z)). unfold ltof in IH.
  destruct s as [|c s1]; [done |]. cbn [scan_string].
  repeat (case_match; try done);
    try (apply fuel_ok_cons_fst; eapply fuel_ok_mono; [apply IH |]; simpl; lia);
    simpl; lia.
Qed.

Lemma take_digits_length s : (length (take_digits s).1 + length (take_digits s).2 = length s)%nat.
Proof.
  induction s as [|c s IH]; [done |]. simpl. destruct (is_digit c); [| done].
  destruct (take_digits s) as [ds r]. simpl in *. lia.
Qed.

Lemma scan_frac_length s : (length (scan_frac s).2 <= length s)%nat.
Proof.
  destruct s as [|c [|d s]]; simpl; try lia. destruct ((c =? 46) && is_digit d); simpl; [| lia].
  pose proof (take_digits_length s). destruct (take_digits s) as [ds r]. simpl in *. lia.
Qed.

Lemma scan_exp_length s : (length (scan_exp s).2 <= length s)%nat.
Proof.
  destruct s as [|e s1]; simpl; [lia |]. destruct ((e =? 101) || (e =? 69)); simpl; [| lia].
  destruct (match s1 with c :: s2 => if (c =? 45) || (c =? 43) then ([c], s2) else ([], s1)
            | [] => ([], s1) end) as [sg s2] eqn:Hs.
  assert (length s2 <= length s1)%nat
    by (destruct s1 as [|c s1']; [by injection Hs as <- <- |];
        destruct ((c =? 45) || (c =? 43)); injection Hs as <- <-; simpl; lia).
  pose proof (take_digits_length s2). destruct (take_digits s2) as [ds r]. simpl in *.
  destruct ds; simpl; lia.
Qed.

Lemma scan_number_ok s : fuel_ok (length s) (scan_number s).
Proof.
  unfold scan_number.
  destruct (match s with c :: s' => if c =? 45 then (true, s') else (false, s)
            | [] => (false, s) end) as [neg s1] eqn:Hs.
  assert (Hs1 : (length s1 <= length s)%nat)
    by (destruct s as [|c s']; [by injection Hs as <- <- |];
        destruct (c =? 45); injection Hs as <- <-; simpl; lia).
  destruct s1 as [|c t]; [done |].
  assert (Hint : forall ds r1, (if (49 <=? c) && (c <=? 57)
      then Some (let '(ds, r) := take_digits t in (c :: ds, r))
      else if c =? 48 then Some ([c], t) else None) = Some (ds, r1) -> (length r1 <= length t)%nat).
  { intros ds r1. pose proof (take_digits_length t).
    destruct (take_digits t) as [ds' r']. simpl in *.
    destruct ((49 <=? c) && (c <=? 57)); [intros Hx; injection Hx as <- <-; simpl; lia |].
    destruct (c =? 48); [intros Hx; injection Hx as <- <-; simpl; lia | done]. }
  destruct (if (49 <=? c) && (c <=? 57) then _ else _) as [[ds r1] |] eqn:Hip; [| done].
  specialize (Hint ds r1 eq_refl). simpl in Hs1.
  pose proof (scan_frac_length r1). destruct (scan_frac r1) as [fr r2]. simpl in *.
  pose proof (scan_exp_length r2). destruct (scan_exp r2) as [ex r3]. simpl in *.
  repeat case_match; subst; simpl in *; (done || lia).
Qed.

Lemma strip_prefix_length w s r : strip_prefix w s = Some r -> (length r + length w = length s)%nat.
Proof.
  revert s. induction w as [|a w IH]; intros s H.
  - simpl in H. injection H as <-. simpl. lia.
  - destruct s as [|b s]; simpl in H; [discriminate |]. destruct (a =? b); [| discriminate].
    apply IH in H. simpl. lia.
Qed.

Lemma scan_literal_ok s v r : scan_literal s = Some (v, r) -> (length r < length s)%nat.
Proof.
  unfold scan_literal.
  repeat (case_match; [match goal with H : strip_prefix ?w _ = Some _ |- _ =>
            apply strip_prefix_length in H end; intros [= <- <-]; simpl in *; lia |]).
  done.
Qed.

(** The three scanners run within their fuel: a value needs fuel above
    twice its text's length, the members and elements two more. *)
Lemma parse_ok fuel :
  (forall s, (2 * length s < fuel)%nat -> fuel_ok (length s) (parse_value fuel s)) /\
  (forall acc s, (2 * length s + 2 <= fuel)%nat -> fuel_ok (length s) (parse_members fuel acc s)) /\
  (forall acc s, (2 * length s + 2 <= fuel)%nat -> fuel_ok (length s) (parse_elements fuel acc s)).
Proof.
  induction fuel as [|f (IHv & IHm & IHe)]; [split_and!; intros; lia |].
  split_and!.
  - intros [|c s1] Hs; [done |]. simpl in Hs. cbn [parse_value].
    case_match.
    { eapply fuel_ok_bind; [apply scan_string_ok |]. intros a r Hr. simpl.
      pose proof (scan_string_ok s1) as Hk. rewrite Hr in Hk. simpl in *. lia. }
    case_match.
    { pose proof (skip_ws_length s1). destruct (skip_ws s1) as [|d s3]; [done |].
      case_match; [simpl in *; lia |].
      eapply fuel_ok_mono; [apply IHm |]; simpl in *; lia. }
    case_match.
    { pose proof (skip_ws_length s1). destruct (skip_ws s1) as [|d s3]; [done |].
      case_match; [simpl in *; lia |].
      eapply fuel_ok_mono; [apply IHe |]; simpl in *; lia. }
    destruct (scan_literal (c :: s1)) as [[v r] |] eqn:Hl.
    + apply scan_literal_ok in Hl. exact Hl.
    + apply scan_number_ok.
  - intros acc [|c s1] Hs; [done |]. simpl in Hs. cbn [parse_members].
    case_match; [| done].
    eapply fuel_ok_bind; [apply scan_string_ok |]. intros k r1 Hr1.
    pose proof (scan_string_ok s1) as Hk. rewrite Hr1 in Hk. simpl in Hk. cbn [snd].
    pose proof (skip_ws_length r1). destruct (skip_ws r1) as [|d r2]; [done |].
    case_match; [| done]. pose proof (skip_ws_length r2).
    eapply fuel_ok_bind; [apply IHv; simpl in *; lia |]. intros v r3 Hr3.
    pose proof (IHv (skip_ws r2) ltac:(simpl in *; lia)) as Hv. rewrite Hr3 in Hv. simpl in Hv.
    cbn [snd fst]. pose proof (skip_ws_length r3). destruct (skip_ws r3) as [|e r4]; [done |].
    case_match; [simpl in *; lia |]. case_match; [| done].
    pose proof (skip_ws_length r4).
    eapply fuel_ok_mono; [apply IHm |]; simpl in *; lia.
  - intros acc s Hs. cbn [parse_elements].
    eapply fuel_ok_bind; [apply IHv; lia |]. intros v r3 Hr3.
    pose proof (IHv s ltac:(lia)) as Hv. rewrite Hr3 in Hv. simpl in Hv.
    cbn [snd fst]. pose proof (skip_ws_length r3). destruct (skip_ws r3) as [|e r4]; [done |].
    case_match; [simpl in *; lia |]. case_match; [| done].
    pose proof (skip_ws_length r4).
    eapply fuel_ok_mono; [apply IHe |]; simpl in *; lia.
Qed.

(** The model of [json.loads] never runs out of fuel: on every text it
    returns a value or raises the exception CPython raises, the fuel of
    twice the length plus one being always enough. *)
Lemma loads_total s : loads s <> inl OutOfFuel.
Proof.
  unfold loads. case_match; [done |].
  pose proof (skip_ws_length s) as Hl.
  pose proof (proj1 (parse_ok (S (2 * length s))) (skip_ws s) ltac:(lia)) as Hok.
  destruct (parse_value _ (skip_ws s)) as [e | [v r]]; simpl in *; [congruence |].
  by destruct (skip_ws r).
Qed.

(** ** Witnesses *)

Definition sample_record : record :=
  mk_record (py "notes__chunk_00000") (py "notes.md") 1 2 (py "x" ++ [NL; 34; 92; 9] ++ py "y")
    (Some (1, 1)).

Lemma load_jsonl_write_jsonl_witness :
  Forall record_ok [sample_record] /\
  load_jsonl (write_jsonl [sample_record]) = inr [JObj (record_dict sample_record)].
Proof.
  assert (Hok : Forall record_ok [sample_record]).
  { constructor; [| constructor]. unfold record_ok, sample_record.
    cbn [rec_id source_file rec_text rec_start_line rec_end_line pages app].
    rewrite !Forall_app. split_and!; try apply py_valid.
    - unfold NL, valid_char. repeat constructor; lia.
    - repeat constructor; apply int_limit_small; simpl; lia. }
  split; [exact Hok | exact (load_jsonl_write_jsonl [sample_record] Hok)].
Defined.

