(* ===== verification/JsonlFile.v ===== *)
(** * The file [chunks.jsonl] as bytes

    [write_jsonl] ([src/chunk.py] lines 108-112) opens the file with
    [encoding="utf-8"]: what it writes is encoded strictly, so a string
    holding a surrogate raises [UnicodeEncodeError].  [load_jsonl]
    ([src/ingest_chroma.py] lines 14-22) opens it with [encoding="utf-8"]
    in text mode: the bytes are decoded strictly and the newlines read
    universally (the [unify_newlines] of [Jsonl.load_jsonl]).

    The file round trip holds for every record whose strings are Unicode
    scalar values; a record whose file name (and so its id) holds a
    surrogate, as Python makes of a file name that is not valid UTF-8,
    stops [chunk.py] at the write. *)

From S2P Require Import Prelude PyStr Utf8 Io Records Jsonl.

(** ** The code *)

(** The bytes [write_jsonl] leaves in the file. *)
Definition write_jsonl_file (rs : list record) : res (list Z) :=
  utf8_encode (write_jsonl rs).

(** [load_jsonl(path)] on the bytes of the file. *)
Definition load_jsonl_file (bs : list Z) : res (list json) :=
  (text <- utf8_decode Strict bs ;; load_jsonl text)%py.

(** [record_ok] is decided: a witness checks it on a concrete record. *)
#[export] Instance record_ok_dec r : Decision (record_ok r).
Proof. unfold record_ok, valid_char. apply _. Defined.

(** ** What the file holds *)

(** The strings of a record hold code points, as every Python [str]. *)
Definition record_valid (r : record) : Prop :=
  Forall valid_char (rec_id r) /\ Forall valid_char (source_file r) /\ Forall valid_char (rec_text r).

Lemma record_ok_valid r : record_ok r -> record_valid r.
Proof. by intros (? & ? & ? & _). Qed.

Lemma record_dict_chars r : record_valid r -> Forall member_chars (record_dict r).
Proof.
  intros (Hid & Hsrc & Htxt). unfold record_dict, member_chars.
  destruct (pages r) as [[sp ep] |]; repeat constructor; cbn [fst snd scalar_chars]; (apply py_valid || done).
Qed.

(** A property [Q] of the characters of a record's strings that printable
    ASCII and the line break have holds of every character of the file's text. *)
Section FileChars.
Variable Q : Z -> Prop.
Hypothesis Q_ascii : forall d, 32 <= d < 127 -> Q d.
Hypothesis Q_NL : Q NL.

Definition record_forall (r : record) : Prop :=
  Forall Q (rec_id r) /\ Forall Q (source_file r) /\ Forall Q (rec_text r).

Lemma record_dict_forall r :
  record_forall r ->
  Forall (fun kv => Forall Q kv.1 /\ str_forall Q kv.2) (record_dict r).
Proof.
  intros (Hid & Hsrc & Htxt). unfold record_dict.
  assert (Hkey : forall k, Forall (fun d => 32 <= d < 127) (py k) -> Forall Q (py k)).
  { intros k Hk. eapply Forall_impl; [exact Hk | exact Q_ascii]. }
  destruct (pages r) as [[sp ep] |]; cbn [app];
    repeat (apply Forall_cons_2; [split; [apply Hkey; apply (bool_decide_unpack _); vm_compute; constructor
                                        | cbn [str_forall]; done] |]);
    apply Forall_nil_2.
Qed.

Lemma write_jsonl_forall rs :
  Forall record_valid rs -> Forall record_forall rs -> Forall Q (write_jsonl rs).
Proof.
  intros Hok HQ. unfold write_jsonl. apply Forall_concat, Forall_forall.
  intros l Hl. apply elem_of_map_iff in Hl as (r & -> & Hr).
  apply Forall_app. split.
  - apply (Forall_impl (chr_ok Q)); [| by intros d [_ ?]].
    apply dumps_obj_chars; [exact Q_ascii | apply record_dict_chars | apply record_dict_forall];
      by eapply Forall_forall.
  - by repeat constructor.
Qed.
End FileChars.

(** A character of a record's file name that is not ASCII is written as
    is. *)
Lemma escape_char_high c : 127 <= c -> escape_char c = [c].
Proof. intros Hc. unfold escape_char. py_cases. Qed.

Lemma encode_string_elem c s : c ∈ s -> 127 <= c -> c ∈ encode_string s.
Proof.
  intros Hc Hhi. unfold encode_string. apply elem_of_app. right. apply elem_of_app. left.
  apply list_elem_of_In, in_concat. exists [c]. split; [| by left].
  rewrite <- (escape_char_high c) by done. apply in_map, list_elem_of_In, Hc.
Qed.

Lemma write_jsonl_source_char rs r c :
  r ∈ rs -> c ∈ source_file r -> 127 <= c -> c ∈ write_jsonl rs.
Proof.
  intros Hr Hc Hhi. unfold write_jsonl. apply list_elem_of_In, in_concat.
  exists (dumps (JObj (record_dict r)) ++ [NL]). split.
  { apply in_map_iff. exists r. split; [done | by apply list_elem_of_In]. }
  apply list_elem_of_In, elem_of_app. left. rewrite dumps_obj. apply elem_of_app. right.
  apply elem_of_app. left. apply py_join_elem with (dump_member (py "source_file", JStr (source_file r))).
  - apply elem_of_map_iff. eexists. split; [reflexivity |]. unfold record_dict. set_solver.
  - unfold dump_member. cbn [fst snd dumps]. apply elem_of_app. right. apply elem_of_app. right.
    by apply encode_string_elem.
Qed.

(** ** Encodable records *)

(** The strings of a record are scalar values. *)
Definition record_scalar (r : record) : Prop :=
  Forall scalar (rec_id r) /\ Forall scalar (source_file r) /\ Forall scalar (rec_text r).

Lemma scalar_ascii d : 32 <= d < 127 -> scalar d.
Proof. intros Hd. split; [lia | apply is_surrogate_false; lia]. Qed.

Lemma record_scalar_valid r : record_scalar r -> record_valid r.
Proof.
  intros (Hid & Hsrc & Htxt). split_and!; (eapply Forall_impl; [eassumption | by intros c []]).
Qed.

Lemma write_jsonl_scalar rs : Forall record_scalar rs -> Forall scalar (write_jsonl rs).
Proof.
  intros Hsc. apply write_jsonl_forall; [apply scalar_ascii | split; [unfold NL; lia | done] | |].
  - eapply Forall_impl; [exact Hsc | apply record_scalar_valid].
  - exact Hsc.
Qed.

(** The write raises nothing but [UnicodeEncodeError]. *)
Lemma write_jsonl_file_cases rs :
  (exists bs, write_jsonl_file rs = inr bs) \/ write_jsonl_file rs = inl UnicodeEncodeError.
Proof.
  unfold write_jsonl_file. destruct (decide (encodable (write_jsonl rs))) as [He | He].
  - left. by apply utf8_encode_ok.
  - right. by apply utf8_encode_fail.
Qed.

(** Records whose strings are scalar values are written. *)
Lemma write_jsonl_file_ok rs : Forall record_scalar rs -> exists bs, write_jsonl_file rs = inr bs.
Proof.
  intros Hsc. apply utf8_encode_ok. eapply Forall_impl; [by apply write_jsonl_scalar |].
  by intros c [].
Qed.

(** ** The file round trip *)

Lemma load_jsonl_file_records rs :
  Forall record_ok rs -> Forall record_scalar rs ->
  exists bs, write_jsonl_file rs = inr bs /\
             load_jsonl_file bs = inr (map (fun r => JObj (record_dict r)) rs).
Proof.
  intros Hok Hsc. unfold write_jsonl_file, load_jsonl_file.
  destruct (utf8_roundtrip (write_jsonl rs)) as (bs & He & _ & Hd & _);
    [by apply write_jsonl_scalar |].
  exists bs. rewrite He, Hd. cbn [res_bind]. split; [done | by apply load_jsonl_records].
Qed.

(** C14 [Error]: [write_jsonl] raises [UnicodeEncodeError] as soon as one
    record's file name holds a surrogate (what Python's file system
    decoding makes of a name that is not valid UTF-8): the strict encoder
    of [open(..., encoding="utf-8")] refuses it, and no record is
    written past it. *)
Theorem write_jsonl_file_surrogate rs r c :
  Forall record_ok rs -> r ∈ rs -> c ∈ source_file r -> is_surrogate c = true ->
  write_jsonl_file rs = inl UnicodeEncodeError.
Proof.
  intros Hok Hr Hc Hs. unfold write_jsonl_file. apply utf8_encode_error.
  - apply (write_jsonl_forall valid_char); [unfold valid_char; lia | unfold valid_char, NL; lia | |].
    + eapply Forall_impl; [exact Hok | apply record_ok_valid].
    + eapply Forall_impl; [exact Hok |]. by intros r' (? & ? & ? & _).
  - apply Exists_exists. exists c. split; [| done].
    apply is_surrogate_true in Hs. assert (Hin : c ∈ write_jsonl rs) by (apply (write_jsonl_source_char rs r); [done.. | lia]).
    exact Hin.
Qed.

(** ** Witness *)

(** A record of a file whose name ends in a lone low surrogate. *)
Definition surrogate_record : record :=
  mk_record (py "a__chunk_00000") [97; 56320] 1 1 (py "x") None.

Lemma write_jsonl_file_surrogate_witness :
  (Forall record_ok [surrogate_record] /\ (surrogate_record ∈ [surrogate_record]) /\
   ((56320 : Z) ∈ source_file surrogate_record) /\ is_surrogate 56320 = true) /\
  write_jsonl_file [surrogate_record] = inl UnicodeEncodeError.
Proof.
  assert (Hok : Forall record_ok [surrogate_record])
    by (apply (bool_decide_unpack _); vm_compute; constructor).
  assert (Hr : surrogate_record ∈ [surrogate_record]) by by apply list_elem_of_singleton.
  assert (Hc : (56320 : Z) ∈ source_file surrogate_record)
    by (apply (bool_decide_unpack _); vm_compute; constructor).
  assert (Hs : is_surrogate 56320 = true) by reflexivity.
  split; [split_and!; assumption |].
  exact (write_jsonl_file_surrogate _ _ _ Hok Hr Hc Hs).
Defined.
