(* ===== verification/Encodable.v ===== *)
(** * Where the characters of a record come from

    Every character of a record [chunk.py] builds is a character of the
    document's text, of its file name, or one the code writes itself
    (ASCII: the id's [__chunk_] and digits, the page markers, the line
    breaks).  So a property of characters that ASCII and the line break
    have, and that the text and the name have, holds of every record.

    With the property "is a Unicode scalar value": the text of a [.txt]
    or [.md] document is decoded with [errors="ignore"] and is always
    made of scalar values ([Utf8]); so as soon as the file name and the
    text pypdf extracts are, every record can be written to the UTF-8
    file, and [write_jsonl] never raises [UnicodeEncodeError]. *)

From S2P Require Import Prelude PyStr Utf8 Io Normalize Chunker Records Loader Pipeline Jsonl JsonlFile.

Section Provenance.
Variable P : Z -> Prop.
Hypothesis P_ascii : forall c, 32 <= c < 127 -> P c.
Hypothesis P_NL : P NL.

(** ** The string methods keep or add only such characters *)

Lemma Forall_py_strip s : Forall P s -> Forall P (py_strip s).
Proof.
  intros Hs. apply Forall_forall. intros c Hc. unfold py_strip in Hc.
  apply elem_of_py_lstrip, elem_of_py_rstrip in Hc. by eapply Forall_forall.
Qed.

Lemma Forall_py_split c s : Forall P s -> Forall (Forall P) (py_split c s).
Proof.
  intros Hs. apply Forall_forall. intros l Hl. apply Forall_forall. intros x Hx.
  eapply Forall_forall; [exact Hs | by eapply py_split_elem].
Qed.

Lemma Forall_py_join sep xs : Forall P sep -> Forall (Forall P) xs -> Forall P (py_join sep xs).
Proof.
  intros Hsep Hxs. apply Forall_forall. intros c Hc.
  apply elem_of_py_join in Hc as [Hc | (x & Hx & Hc)]; [by eapply Forall_forall |].
  eapply Forall_forall in Hxs; [| exact Hx]. by eapply Forall_forall.
Qed.

Lemma Forall_py_replace2 a b r s : Forall P r -> Forall P s -> Forall P (py_replace2 a b r s).
Proof.
  intros Hr. induction s as [s IH] using (induction_ltof1 _ (@length _)); unfold ltof in IH.
  intros Hs. destruct s as [|c [|d s'']]; [done | done |]. rewrite py_replace2_cons2.
  apply Forall_cons in Hs as [Hc Hs]. pose proof Hs as Hs'. apply Forall_cons in Hs' as [_ Hs''].
  destruct (_ && _).
  - apply Forall_app. split; [done | apply IH; [cbn; lia | done]].
  - constructor; [done | apply IH; [cbn; lia | done]].
Qed.

Lemma Forall_unify_newlines s : Forall P s -> Forall P (unify_newlines s).
Proof.
  intros Hs. unfold unify_newlines, py_replace1.
  apply Forall_forall. intros c Hc.
  apply list_elem_of_In, in_flat_map in Hc as (d & Hd%list_elem_of_In & Hc%list_elem_of_In).
  destruct (d =? CR); [apply list_elem_of_singleton in Hc as ->; done |].
  apply list_elem_of_singleton in Hc as ->.
  eapply Forall_forall; [| exact Hd]. by apply Forall_py_replace2; [constructor |].
Qed.

Lemma Forall_py_slice {A} (Q : A -> Prop) l a b : Forall Q l -> Forall Q (py_slice l a b).
Proof. intros Hl. unfold py_slice. by apply Forall_take, Forall_drop. Qed.

(** ** The chunker's stages *)

Lemma Forall_normalize_lines text : Forall P text -> Forall (Forall P) (normalize_lines text).
Proof.
  intros Ht. rewrite normalize_lines_collapse. apply collapse_lines; [constructor |].
  intros l Hl _. apply Forall_forall. intros c Hc. apply elem_of_py_rstrip in Hc.
  eapply Forall_forall in Hl; [| by apply Forall_py_split, Forall_unify_newlines].
  by eapply Forall_forall.
Qed.

Lemma Forall_chunk_by_lines lines W O cs :
  Forall (Forall P) lines -> chunk_by_lines lines W O = inr cs ->
  Forall (fun c => Forall P (chunk_text c)) cs.
Proof.
  intros Hl Hc. apply chunk_by_lines_inr in Hc as [Hv ->].
  apply Forall_forall. intros c Hc. apply chunks_spec_elem in Hc as (x & _ & _ & Hw); [| done].
  unfold window in Hw. case_match; [| discriminate]. injection Hw as <-. cbn [chunk_text].
  apply Forall_py_strip, Forall_py_join; [by constructor | by apply Forall_py_slice].
Qed.

Lemma Forall_py_str_nonneg n : 0 <= n -> Forall P (py_str_nonneg n).
Proof.
  intros Hn. eapply Forall_impl; [by apply py_str_nonneg_digits |]. intros c Hc. cbv beta in Hc. apply P_ascii. lia.
Qed.

Lemma Forall_chunk_id stem idx : Forall P stem -> Forall P (chunk_id stem idx).
Proof.
  intros Hs. unfold chunk_id, format_0d. rewrite !Forall_app. split_and!; [done | | |].
  - apply Forall_forall. intros c Hc. apply P_ascii.
    unfold py in Hc. apply elem_of_map_iff in Hc as (a & -> & Ha).
    revert Ha. vm_compute. intros Ha. repeat (apply elem_of_cons in Ha as [-> | Ha]);
      [vm_compute; split; congruence .. | by apply elem_of_nil in Ha].
  - apply Forall_forall. intros c Hc. apply list_elem_of_In, repeat_spec in Hc as ->. apply P_ascii. lia.
  - apply Forall_py_str_nonneg. lia.
Qed.

Lemma Forall_path_stem name : Forall P name -> Forall P (path_stem name).
Proof. intros Hn. unfold path_stem. case_match; [by apply Forall_py_slice | done]. Qed.

(** The strings of the records come from the name and the chunk texts. *)
Definition record_chars (r : record) : Prop :=
  Forall P (rec_id r) /\ Forall P (source_file r) /\ Forall P (rec_text r).

Lemma Forall_build_records name cs pol rs :
  Forall P name -> Forall (fun c => Forall P (chunk_text c)) cs -> Forall chunk_wf cs ->
  build_records name cs pol = inr rs -> Forall record_chars rs.
Proof.
  intros Hn Hcs Hwf Hb. unfold build_records in Hb.
  rewrite build_records_from_ok in Hb by done. injection Hb as <-.
  apply Forall_forall. intros r Hr. apply elem_of_lookup_imap_1 in Hr as (i & c & -> & Hc).
  apply list_elem_of_lookup_2 in Hc. unfold record_of, record_chars. cbn.
  split_and!; [by apply Forall_chunk_id, Forall_path_stem | done |].
  by eapply Forall_forall in Hcs; [| exact Hc].
Qed.

(** ** The loader *)

Lemma Forall_page_marker i : 0 <= i -> Forall P (page_marker i).
Proof.
  intros Hi. unfold page_marker. rewrite !Forall_app.
  split_and!; [| by apply Forall_py_str_nonneg |];
    apply Forall_forall; intros c Hc; apply P_ascii;
    unfold py in Hc; apply elem_of_map_iff in Hc as (a & -> & Ha); revert Ha; vm_compute;
    intros Ha; repeat (apply elem_of_cons in Ha as [-> | Ha]);
    solve [vm_compute; split; congruence | by apply elem_of_nil in Ha].
Qed.

(** The text of a page, [""] when pypdf returns [None]. *)
Definition page_chars (page : option pystr) : Prop :=
  Forall P (match page with Some t => t | None => [] end).

Lemma Forall_pdf_lines_from i pages :
  0 <= i -> Forall page_chars pages -> Forall (fun pl => Forall P (snd pl)) (pdf_lines_from i pages).
Proof.
  revert i. induction pages as [|p ps IH]; intros i Hi Hp; [constructor |].
  apply Forall_cons in Hp as [Hp Hps]. cbn [pdf_lines_from]. apply Forall_app. split.
  - unfold page_lines. rewrite !Forall_app. split_and!.
    + constructor; [by apply Forall_page_marker | constructor].
    + apply Forall_forall. intros pl Hpl. apply elem_of_map_iff in Hpl as (ln & -> & Hln).
      eapply Forall_forall in Hln; [exact Hln |]. by apply Forall_py_split, Forall_unify_newlines.
    + repeat constructor.
  - apply IH; [lia | done].
Qed.

Lemma Forall_read_pdf pages : Forall page_chars pages -> Forall P (fst (read_pdf pages)).
Proof.
  intros Hp. rewrite <- (py_join_split NL (fst (read_pdf pages))), read_pdf_split.
  apply Forall_py_join; [by constructor |]. apply Forall_app. split; [| repeat constructor].
  apply Forall_forall. intros l Hl. apply elem_of_map_iff in Hl as (pl & -> & Hpl).
  pose proof (Forall_pdf_lines_from 1 pages ltac:(lia) Hp) as Hall.
  by eapply Forall_forall in Hall; [| exact Hpl].
Qed.

(** [chunk_main]: every record's strings have [P] when the name and the
    text read have it. *)
Lemma Forall_chunk_main d W O lines rs text (pol : option (list Z)) :
  Forall P (doc_name d) -> read_text_any d = inr (text, pol) -> Forall P text ->
  chunk_main d W O = inr (lines, rs) -> Forall record_chars rs.
Proof.
  intros Hn Hr Ht Hc. unfold chunk_main in Hc. rewrite Hr in Hc. cbn [res_bind] in Hc.
  destruct (chunk_by_lines _ W O) as [e | cs] eqn:Hcs; [discriminate |]. cbn [res_bind] in Hc.
  destruct (build_records _ cs pol) as [e | rs'] eqn:Hb; [discriminate |].
  injection Hc as _ <-. apply (Forall_build_records (doc_name d) cs pol rs'); [done | | | exact Hb].
  - eapply Forall_chunk_by_lines; [| exact Hcs]. by apply Forall_normalize_lines.
  - apply chunk_by_lines_inr in Hcs as [Hv ->]. by apply chunks_spec_wf.
Qed.
End Provenance.

(** ** Encodable records *)

Lemma scalar_NL : scalar NL.
Proof. split; [unfold NL; lia | done]. Qed.

(** The text [read_text_any] returns is made of scalar values: decoded
    with [errors="ignore"] for a text file, the pages' text for a PDF. *)
Lemma read_text_any_scalar d text (pol : option (list Z)) :
  Forall (fun b : Z => 0 <= b < 256) (doc_bytes d) ->
  Forall (page_chars scalar) (doc_pages d) ->
  read_text_any d = inr (text, pol) -> Forall scalar text.
Proof.
  intros Hb Hp Hr. unfold read_text_any in Hr.
  destruct (_ || _).
  - unfold read_text in Hr. destruct (utf8_decode_ignore_scalar _ Hb) as (s & Hs & Hsc).
    rewrite Hs in Hr. cbn in Hr. injection Hr as <- _.
    apply (Forall_unify_newlines scalar); first [exact scalar_ascii | exact scalar_NL | done].
  - case_decide; [| discriminate]. destruct (read_pdf (doc_pages d)) as [t pm] eqn:E.
    injection Hr as <- _. change t with (fst (t, pm)). rewrite <- E.
    apply (Forall_read_pdf scalar); first [exact scalar_ascii | exact scalar_NL | done].
Qed.

(** Every record [chunk.py] builds from a file whose name and PDF text
    are scalar values can be written to the UTF-8 file. *)
Theorem chunk_main_encodable d W O lines rs :
  Forall (fun b : Z => 0 <= b < 256) (doc_bytes d) -> Forall scalar (doc_name d) ->
  Forall (page_chars scalar) (doc_pages d) ->
  chunk_main d W O = inr (lines, rs) -> Forall record_scalar rs.
Proof.
  intros Hb Hn Hp Hc. pose proof Hc as Hc'. unfold chunk_main in Hc'.
  destruct (read_text_any d) as [e | [text pol]] eqn:Hr; [discriminate |].
  apply (Forall_impl (record_chars scalar)); [| by intros r (? & ? & ?)].
  eapply (Forall_chunk_main scalar);
    first [exact scalar_ascii | exact scalar_NL | exact Hn | exact Hr | exact Hc | idtac].
  by eapply read_text_any_scalar.
Qed.

(** ** What the scripts print *)

Lemma scalar_encodable s : Forall scalar s -> encodable s.
Proof. intros Hs. eapply Forall_impl; [exact Hs | by intros c []]. Qed.

(** [str(n)] of an [int] is ASCII. *)
Lemma encodable_py_repr_int n : encodable (py_repr_int n).
Proof.
  assert (Hd : forall m, 0 <= m -> encodable (py_str_nonneg m)).
  { intros m Hm. apply encodable_low. eapply Forall_impl; [by apply py_str_nonneg_digits |].
    cbv beta. lia. }
  unfold py_repr_int. case_match; py_norm; [| by apply Hd].
  apply encodable_app_2; [apply encodable_low; repeat constructor; lia | apply Hd; lia].
Qed.

#[export] Hint Resolve encodable_py_repr_int : pyrag.

(** [Path(s).name] is written inside [str(Path(s))]. *)
Lemma path_name_chars s c : c ∈ path_name s -> c ∈ path_str s.
Proof.
  unfold path_name, path_str. destruct (split_root s) as [root rel]. cbn [snd]. intros Hc.
  destruct (last (path_parts rel)) as [x |] eqn:Hl; cbn in Hc; [| by apply elem_of_nil in Hc].
  assert (Hj : c ∈ py_join [47] (path_parts rel))
    by (apply py_join_elem with x; [by apply last_Some_elem_of | done]).
  destruct (root ++ py_join [47] (path_parts rel)) as [|z l] eqn:E.
  - apply app_eq_nil in E as [_ E]. rewrite E in Hj. by apply elem_of_nil in Hj.
  - rewrite <- E. apply elem_of_app. by right.
Qed.

Lemma encodable_path_name s : encodable (path_str s) -> encodable (path_name s).
Proof.
  unfold encodable. rewrite !Forall_forall. intros Hs c Hc. by apply Hs, path_name_chars.
Qed.


Lemma split_root_sub s c : c ∈ (split_root s).2 -> c ∈ s.
Proof.
  unfold split_root. intros Hc.
  destruct s as [|x [|y [|z s]]]; cbn in Hc |- *; repeat case_match; simplify_eq; set_solver.
Qed.

(** The characters of [Path(s).name] are characters of [s]. *)
Lemma path_name_sub s c : c ∈ path_name s -> c ∈ s.
Proof.
  unfold path_name. intros Hc. destruct (last _) as [x |] eqn:Hl; cbn in Hc; [| by apply elem_of_nil in Hc].
  apply last_Some_elem_of in Hl. unfold path_parts in Hl. apply list_elem_of_filter in Hl as [_ Hx].
  apply split_root_sub. by eapply py_split_elem.
Qed.

(** A file with a supported suffix is always read. *)
Lemma read_text_any_ok d :
  py_lower_ascii (path_suffix (doc_name d)) ∈ [py ".txt"; py ".md"; py ".pdf"] ->
  Forall (fun b : Z => 0 <= b < 256) (doc_bytes d) ->
  exists text pol, read_text_any d = inr (text, pol).
Proof.
  intros Hs Hb. unfold read_text_any.
  destruct (bool_decide _ || bool_decide _) eqn:E.
  - unfold read_text. destruct (utf8_decode_ignore_scalar _ Hb) as (s & -> & _). by do 2 eexists.
  - apply orb_false_iff in E as [E1%bool_decide_eq_false E2%bool_decide_eq_false].
    case_bool_decide as Hp; [destruct (read_pdf (doc_pages d)); by do 2 eexists |].
    exfalso. rewrite !elem_of_cons, elem_of_nil in Hs. tauto.
Qed.
