(* ===== verification/Ingest.v ===== *)
(** * Indexing: [main] of [src/ingest_chroma.py]

    [main] of [ingest_chroma.py] (lines 52-85) takes the dicts [load_jsonl]
    read back from [chunks.jsonl], builds the lists [ids] and [texts] by
    subscripting each dict, and the list [metadatas] (the page range only
    when the dict has both page keys, every number through [int()]), then
    walks [for i in range(0, total, batch)] and adds each slice [i:j] to
    the Chroma collection with the embeddings [model.encode(batch_texts)].

    The embedding model is an interface, the class [Embedder]: it maps a
    list of texts to as many vectors (its one law).  The Chroma
    collection is modelled as the list of entries added to it, in order,
    on top of whatever the collection already held
    ([get_or_create_collection]); the checks [collection.add] makes on its
    arguments are not modelled.  Python's [range] is modelled with its
    [ValueError] on a zero step, dict subscripting with its [KeyError]
    and [TypeError], [int()] on the JSON values with [int()] of a [str] or
    a [float] left out ([NotModelled]). *)

From S2P Require Import Prelude PyStr Chunker Records Jsonl.

(** ** The collaborators *)

(** [SentenceTransformer.encode(texts).tolist()]: one vector per text. *)
Class Embedder (V : Type) := {
  encode : list json -> list V;
  encode_length : forall ts, length (encode ts) = length ts
}.

(** ** Python semantics of the values read back *)

(** The value of key [k] in a dict. *)
Fixpoint dict_lookup (k : pystr) (kvs : list (pystr * json)) : option json :=
  match kvs with
  | [] => None
  | (k', v) :: kvs' => if bool_decide (k = k') then Some v else dict_lookup k kvs'
  end.

(** [r[k]] with a string key: [KeyError] when the dict lacks it,
    [TypeError] when [r] is not a dict (a [list] or a [str] needs integer
    indices, the other values are not subscriptable). *)
Definition py_getitem_key (r : json) (k : pystr) : res json :=
  match r with
  | JObj kvs => match dict_lookup k kvs with Some v => inr v | None => inl (KeyError k) end
  | _ => inl TypeError
  end.

(** [k in d] for a dict [d]. *)
Definition py_in_dict (k : pystr) (kvs : list (pystr * json)) : bool :=
  match dict_lookup k kvs with Some _ => true | None => false end.

(** [int(v)] of a value [json.loads] returns. *)
Definition py_int (v : json) : res Z :=
  match v with
  | JInt n => inr n
  | JBool b => inr (if b then 1 else 0)
  | JNull | JArr _ | JObj _ => inl TypeError
  | JStr _ | JFloat _ => inl NotModelled
  end.

(** ** The code *)

(** The metadata dict of one record (lines 57-66). *)
Record metadata := mk_metadata {
  meta_source_file : json;
  meta_start_line : Z;
  meta_end_line : Z;
  meta_pages : option (Z * Z)
}.

(** The body of [for r in records:] (lines 57-66).  Its first operation
    subscripts [r], which raises [TypeError] unless [r] is a dict. *)
Definition metadata_of (r : json) : res metadata :=
  match r with
  | JObj kvs =>
      (src <- py_getitem_key r (py "source_file") ;;
       sl <- (v <- py_getitem_key r (py "start_line") ;; py_int v) ;;
       el <- (v <- py_getitem_key r (py "end_line") ;; py_int v) ;;
       if py_in_dict (py "start_page") kvs && py_in_dict (py "end_page") kvs
       then
         (sp <- (v <- py_getitem_key r (py "start_page") ;; py_int v) ;;
          ep <- (v <- py_getitem_key r (py "end_page") ;; py_int v) ;;
          inr (mk_metadata src sl el (Some (sp, ep))))
       else inr (mk_metadata src sl el None))%py
  | _ => inl TypeError
  end.

(** Lines 53-66: [ids], [texts], then [metadatas]. *)
Definition prepare_data (records : list json) : res (list json * list json * list metadata) :=
  (ids <- res_map (fun r => py_getitem_key r (py "id")) records ;;
   texts <- res_map (fun r => py_getitem_key r (py "text")) records ;;
   metadatas <- res_map metadata_of records ;;
   inr (ids, texts, metadatas))%py.

(** One entry of the collection: id, document, embedding, metadata. *)
Record entry (V : Type) := mk_entry {
  entry_id : json;
  entry_document : json;
  entry_embedding : V;
  entry_metadata : metadata
}.
Arguments mk_entry {V}.
Arguments entry_id {V}.
Arguments entry_document {V}.
Arguments entry_embedding {V}.
Arguments entry_metadata {V}.

(** The entries of one [collection.add(ids=..., documents=...,
    embeddings=..., metadatas=...)] call, position by position. *)
Fixpoint mk_entries {V} (ids docs : list json) (embs : list V) (metas : list metadata)
    : list (entry V) :=
  match ids, docs, embs, metas with
  | i :: ids', d :: docs', e :: embs', m :: metas' =>
      mk_entry i d e m :: mk_entries ids' docs' embs' metas'
  | _, _, _, _ => []
  end.

(** [range(start, stop, step)]. *)
Definition py_range_len (start stop step : Z) : Z :=
  if 0 <? step then Z.max 0 ((stop - start + step - 1) / step)
  else Z.max 0 ((start - stop - step - 1) / (- step)).

Definition py_range (start stop step : Z) : res (list Z) :=
  if step =? 0 then inl (ValueError (py "range() arg 3 must not be zero"))
  else inr (map (fun k => start + Z.of_nat k * step)
                (seq 0 (Z.to_nat (py_range_len start stop step)))).

(** The slice [xs[i:min(i + batch, total)]] of one round. *)
Definition batch_slice {A} (xs : list A) (batch total i : Z) : list A :=
  py_slice xs i (Z.min (i + batch) total).

Section Ingest.
Context {V : Type} `{Embedder V}.

(** One round of the batching loop (lines 73-84). *)
Definition ingest_batch (ids texts : list json) (metadatas : list metadata)
    (batch total : Z) (coll : list (entry V)) (i : Z) : list (entry V) :=
  let j := Z.min (i + batch) total in
  let batch_ids := py_slice ids i j in
  let batch_texts := py_slice texts i j in
  let batch_metas := py_slice metadatas i j in
  let embeddings := encode batch_texts in
  coll ++ mk_entries batch_ids batch_texts embeddings batch_metas.

(** Lines 70-84: the batches, added to the collection [coll]. *)
Definition ingest_loop (coll : list (entry V)) (ids texts : list json)
    (metadatas : list metadata) (batch : Z) : res (list (entry V)) :=
  let total := py_len texts in
  (starts <- py_range 0 total batch ;;
   inr (fold_left (ingest_batch ids texts metadatas batch total) starts coll))%py.

(** Lines 52-85. *)
Definition ingest (coll : list (entry V)) (records : list json) (batch : Z)
    : res (list (entry V)) :=
  (d <- prepare_data records ;;
   let '(ids, texts, metadatas) := d in
   ingest_loop coll ids texts metadatas batch)%py.
End Ingest.

(** ** The dicts of the chunker's records *)

(** The dicts [load_jsonl] returns for the records [rs] (theorem
    [load_jsonl_records] of [Jsonl]). *)
Definition records_json (rs : list record) : list json := map (fun r => JObj (record_dict r)) rs.

(** What [main] makes of a record's dict. *)
Definition record_metadata (r : record) : metadata :=
  mk_metadata (JStr (source_file r)) (rec_start_line r) (rec_end_line r) (pages r).

(** What the collection stores of an entry, and what a record asks it to
    store: id, document and metadata. *)
Definition entry_view {V} (e : entry V) : json * json * metadata :=
  (entry_id e, entry_document e, entry_metadata e).

Definition record_view (r : record) : json * json * metadata :=
  (JStr (rec_id r), JStr (rec_text r), record_metadata r).

(** ** The range of batch starts *)

Lemma starts_from_seq i s m :
  starts_from i s m = map (fun k => i + Z.of_nat k * s) (seq 0 m).
Proof.
  revert i. induction m as [|m IH]; intros i; [done |].
  cbn [starts_from seq map]. rewrite IH, <- seq_shift, map_map. f_equal; [lia |].
  apply map_ext. intros k. lia.
Qed.

Lemma py_range_pos n b :
  0 < b -> py_range 0 n b = inr (starts_from 0 b (iterations n b 0)).
Proof.
  intros Hb. unfold py_range, py_range_len, iterations.
  replace (b =? 0) with false by py_cases. replace (0 <? b) with true by py_cases.
  rewrite starts_from_seq, Z.sub_0_r. do 3 f_equal. lia.
Qed.

Lemma py_range_neg n b :
  b < 0 -> 0 <= n -> py_range 0 n b = inr [].
Proof.
  intros Hb Hn. unfold py_range, py_range_len.
  replace (b =? 0) with false by py_cases. replace (0 <? b) with false by py_cases.
  assert ((0 - n - b - 1) / - b < 1) by (apply Z.div_lt_upper_bound; lia).
  remember ((0 - n - b - 1) / - b) as q. by replace (Z.to_nat (Z.max 0 q)) with O by lia.
Qed.

(** ** Slices *)

Section Slices.
Context {A : Type}.
Implicit Types xs : list A.

Lemma py_slice_map {B} (f : A -> B) xs a b :
  py_slice (map f xs) a b = map f (py_slice xs a b).
Proof.
  unfold py_slice, py_len. rewrite length_map.
  change (map f xs) with (f <$> xs). by rewrite <- fmap_drop, <- fmap_take.
Qed.

(** One round's slice followed by the rest of the list from the next
    start is the rest of the list from this start. *)
Lemma batch_slice_drop xs b i :
  0 < b -> 0 <= i ->
  batch_slice xs b (py_len xs) i ++ drop (Z.to_nat (i + b)) xs = drop (Z.to_nat i) xs.
Proof.
  intros Hb Hi. unfold batch_slice, py_slice, py_slice_bound.
  replace (i <? 0) with false by py_cases.
  replace (Z.min (i + b) (py_len xs) <? 0) with false by (pose proof (py_len_nonneg xs); py_cases).
  unfold py_len. set (n := Z.of_nat (length xs)).
  destruct (Z.le_gt_cases i n).
  - rewrite (Z.min_l i n), (Z.min_l (Z.min (i + b) n) n) by lia.
    rewrite <- (take_drop (Z.to_nat (Z.min (i + b) n - i)) (drop (Z.to_nat i) xs)) at 2.
    f_equal. rewrite drop_drop. destruct (Z.le_gt_cases (i + b) n).
    + f_equal. lia.
    + rewrite !drop_ge; [done | lia | lia].
  - rewrite !drop_ge by lia. by rewrite take_nil.
Qed.

Lemma batch_slices_concat xs b i m :
  0 < b -> 0 <= i -> m = iterations (py_len xs) b i ->
  concat (map (batch_slice xs b (py_len xs)) (starts_from i b m)) = drop (Z.to_nat i) xs.
Proof.
  intros Hb. revert i. induction m as [|m IH]; intros i Hi Hm.
  - destruct (Z.lt_ge_cases i (py_len xs)).
    + rewrite iterations_step in Hm by done. discriminate.
    + unfold py_len in *. rewrite drop_ge by lia. done.
  - destruct (Z.lt_ge_cases i (py_len xs)).
    + rewrite iterations_step in Hm by done. injection Hm as Hm.
      cbn [starts_from map concat]. rewrite IH by (done || lia).
      by apply batch_slice_drop.
    + rewrite iterations_done in Hm by done. discriminate.
Qed.

Lemma batch_slice_length xs b i :
  0 <= i < py_len xs -> 0 < b ->
  (1 <= length (batch_slice xs b (py_len xs) i) <= Z.to_nat b)%nat.
Proof.
  intros Hi Hb. unfold batch_slice. rewrite py_slice_length by lia. lia.
Qed.
(** Whatever a round makes of its slice, element by element, the rounds
    together make of the whole list. *)
Lemma concat_map_batches {B} (g : list A -> list B) (F : A -> B) xs b :
  0 < b -> (forall S, g S = map F S) ->
  concat (map (fun i => g (batch_slice xs b (py_len xs) i))
              (starts_from 0 b (iterations (py_len xs) b 0))) = map F xs.
Proof.
  intros Hb Hg. transitivity (map F (drop (Z.to_nat 0) xs)); [| by rewrite drop_0].
  rewrite <- (batch_slices_concat xs b 0 _ Hb) by done.
  rewrite concat_map, map_map. f_equal. apply map_ext. intros i. apply Hg.
Qed.

End Slices.

(** ** The entries added *)

Lemma fold_left_app_concat {A B} (g : list B -> A -> list B) (f : A -> list B) l acc :
  (forall acc x, g acc x = acc ++ f x) ->
  fold_left g l acc = acc ++ concat (map f l).
Proof.
  intros Hg. revert acc. induction l as [|x l IH]; intros acc; simpl.
  - by rewrite app_nil_r.
  - by rewrite IH, Hg, app_assoc.
Qed.

Lemma batch_slice_map {A B} (f : A -> B) xs b n i :
  batch_slice (map f xs) b n i = map f (batch_slice xs b n i).
Proof. apply py_slice_map. Qed.

Lemma py_len_map {A B} (f : A -> B) xs : py_len (map f xs) = py_len xs.
Proof. unfold py_len. by rewrite length_map. Qed.

Lemma prepare_data_records rs :
  prepare_data (records_json rs) =
  inr (map (fun r => JStr (rec_id r)) rs, map (fun r => JStr (rec_text r)) rs,
       map record_metadata rs).
Proof.
  unfold prepare_data, records_json.
  rewrite (res_map_ok _ _ (fun r => JStr (rec_id r)))
    by (intros r; unfold record_dict; by destruct (pages r) as [[] |]).
  rewrite (res_map_ok _ _ (fun r => JStr (rec_text r)))
    by (intros r; unfold record_dict; by destruct (pages r) as [[] |]).
  rewrite (res_map_ok _ _ record_metadata)
    by (intros r; unfold record_dict, record_metadata; by destruct (pages r) as [[] |]).
  done.
Qed.

Section Entries.
Context {V : Type} `{Embedder V}.

(** The record-level lists [main] builds. *)
Definition rec_ids (S : list record) : list json := map (fun r => JStr (rec_id r)) S.
Definition rec_texts (S : list record) : list json := map (fun r => JStr (rec_text r)) S.

Lemma mk_entries_view rs (embs : list V) :
  length embs = length rs ->
  map entry_view (mk_entries (rec_ids rs) (rec_texts rs) embs (map record_metadata rs)) =
  map record_view rs.
Proof.
  revert embs. induction rs as [|r rs IH]; intros [|e embs] Hl; simpl in *; try done.
  f_equal. apply IH. lia.
Qed.

Lemma mk_entries_pointwise (embed1 : json -> V) rs :
  mk_entries (rec_ids rs) (rec_texts rs) (map embed1 (rec_texts rs)) (map record_metadata rs) =
  map (fun r => mk_entry (JStr (rec_id r)) (JStr (rec_text r)) (embed1 (JStr (rec_text r)))
                         (record_metadata r)) rs.
Proof. induction rs as [|r rs IH]; simpl; [done | by rewrite IH]. Qed.

(** The entries one round adds, for the slice [S] of the records. *)
Definition round_entries (S : list record) : list (entry V) :=
  mk_entries (rec_ids S) (rec_texts S) (encode (rec_texts S)) (map record_metadata S).

(** With a positive batch size, [ingest] appends to the collection the
    entries of the rounds, one per batch slice of the records. *)
Lemma ingest_run coll rs b :
  0 < b ->
  ingest coll (records_json rs) b =
  inr (coll ++ concat (map (fun i => round_entries (batch_slice rs b (py_len rs) i))
                          (starts_from 0 b (iterations (py_len rs) b 0)))).
Proof.
  intros Hb. unfold ingest. rewrite prepare_data_records. cbn [res_bind].
  unfold ingest_loop. cbv zeta.
  rewrite (py_len_map (fun r => JStr (rec_text r)) rs), py_range_pos by done.
  simpl. f_equal. apply fold_left_app_concat. intros acc i.
  unfold ingest_batch, round_entries, rec_ids, rec_texts.
  fold (batch_slice (map (fun r => JStr (rec_id r)) rs) b (py_len rs) i).
  fold (batch_slice (map (fun r => JStr (rec_text r)) rs) b (py_len rs) i).
  fold (batch_slice (map record_metadata rs) b (py_len rs) i).
  by rewrite !batch_slice_map.
Qed.

Lemma ingest_records_view coll rs b :
  0 < b ->
  exists added, ingest coll (records_json rs) b = inr (coll ++ added) /\
  map entry_view added = map record_view rs.
Proof.
  intros Hb. eexists. split; [by apply ingest_run |].
  rewrite concat_map, map_map.
  apply (concat_map_batches (fun S => map entry_view (round_entries S))); [done |].
  intros S. apply mk_entries_view. rewrite encode_length. unfold rec_texts. by rewrite length_map.
Qed.
End Entries.

(** ** Properties of indexing *)

Section Properties.
Context {V : Type} `{Embedder V}.

(** Spec §5 indexing: with a positive batch size,
    indexing the dicts of the records appends to the collection exactly
    one entry per record, in the order of the records, with the record's
    id, its text as the document and its metadata (the page range when
    the record has one). *)
Theorem ingest_spec (coll : list (entry V)) rs b :
  0 < b ->
  exists added, ingest coll (records_json rs) b = inr (coll ++ added) /\
  map entry_view added = map record_view rs.
Proof. apply ingest_records_view. Qed.

(** C26 [Safety] (spec §5 batching): the loop's rounds cut the list
    into consecutive slices of one to [batch] items whose concatenation
    is the whole list: every record is embedded and added exactly once,
    and no call to the model gets more than [batch] texts. *)
Theorem ingest_batches_partition {A} (xs : list A) b starts :
  0 < b -> py_range 0 (py_len xs) b = inr starts ->
  concat (map (batch_slice xs b (py_len xs)) starts) = xs /\
  Forall (fun i => 1 <= length (batch_slice xs b (py_len xs) i) <= Z.to_nat b)%nat starts.
Proof.
  intros Hb Hr. rewrite py_range_pos in Hr by done. injection Hr as <-. split.
  - by rewrite batch_slices_concat.
  - apply Forall_forall. intros i Hi. apply batch_slice_length; [| done].
    apply elem_of_starts_from in Hi as (k & Hk & ->).
    apply iterations_spec in Hk; [lia | done].
Qed.

(** C27 [Error] (spec §5; finding): a batch size of zero makes
    [range] raise [ValueError] before anything is added, and a negative
    batch size adds nothing and reports success. *)
Theorem ingest_nonpositive_batch (coll : list (entry V)) rs b :
  b <= 0 ->
  ingest coll (records_json rs) b =
  if b =? 0 then inl (ValueError (py "range() arg 3 must not be zero")) else inr coll.
Proof.
  intros Hb. unfold ingest. rewrite prepare_data_records. cbn [res_bind].
  destruct (Z.eqb_spec b 0) as [-> | Hne]; [done |].
  unfold ingest_loop. cbv zeta. rewrite py_range_neg by (lia || apply py_len_nonneg). done.
Qed.

(** C28 [Functional] (spec §5): when the model embeds each text on its
    own (its vector for a text does not depend on the other texts of
    the batch), indexing with any positive batch size adds, for each
    record in order, the entry of its id, its text, the embedding of its
    text and its metadata: the batch size changes nothing. *)
Theorem ingest_embeddings (embed1 : json -> V) (coll : list (entry V)) rs b :
  (forall ts, encode ts = map embed1 ts) -> 0 < b ->
  ingest coll (records_json rs) b =
  inr (coll ++ map (fun r => mk_entry (JStr (rec_id r)) (JStr (rec_text r))
                                      (embed1 (JStr (rec_text r))) (record_metadata r)) rs).
Proof.
  intros Henc Hb. rewrite ingest_run by done. do 2 f_equal.
  apply (concat_map_batches round_entries); [done |]. intros S. unfold round_entries.
  rewrite Henc. apply mk_entries_pointwise.
Qed.
End Properties.

(** ** Witnesses *)

(** A model that embeds a text as its length. *)
Definition json_len (v : json) : Z := match v with JStr s => py_len s | _ => 0 end.

#[local] Instance length_embedder : Embedder Z := {|
  encode ts := map json_len ts;
  encode_length ts := length_map _ _
|}.

Definition sample_records : list record :=
  [mk_record (py "a__chunk_00000") (py "a.txt") 1 2 (py "xy") None;
   mk_record (py "a__chunk_00001") (py "a.txt") 2 3 (py "z") None;
   mk_record (py "a__chunk_00002") (py "a.txt") 3 3 (py "w") (Some (1, 1))].

Lemma ingest_spec_witness :
  exists added, ingest (V := Z) [] (records_json sample_records) 2 = inr ([] ++ added) /\
  map entry_view added = map record_view sample_records.
Proof. apply (ingest_spec [] sample_records 2). lia. Defined.

Lemma ingest_batches_partition_witness :
  py_range 0 (py_len sample_records) 2 = inr [0; 2] /\
  concat (map (batch_slice sample_records 2 (py_len sample_records)) [0; 2]) = sample_records /\
  Forall (fun i => 1 <= length (batch_slice sample_records 2 (py_len sample_records) i) <= 2)%nat
    [0; 2].
Proof.
  assert (Hr : py_range 0 (py_len sample_records) 2 = inr [0; 2]) by reflexivity.
  split; [exact Hr |]. exact (ingest_batches_partition sample_records 2 [0; 2] ltac:(lia) Hr).
Defined.

Lemma ingest_nonpositive_batch_witness :
  ingest (V := Z) [] (records_json sample_records) (-1) = inr [] /\
  ingest (V := Z) [] (records_json sample_records) 0 =
  inl (ValueError (py "range() arg 3 must not be zero")).
Proof.
  split; [exact (ingest_nonpositive_batch [] sample_records (-1) ltac:(lia))
         | exact (ingest_nonpositive_batch [] sample_records 0 ltac:(lia))].
Defined.

Lemma ingest_embeddings_witness :
  ingest (V := Z) [] (records_json sample_records) 2 =
  inr ([] ++ map (fun r => mk_entry (JStr (rec_id r)) (JStr (rec_text r))
                                    (json_len (JStr (rec_text r))) (record_metadata r))
                 sample_records).
Proof. apply (ingest_embeddings json_len [] sample_records 2); [reflexivity | lia]. Defined.
