(* ===== verification/Index.v ===== *)
(** * From the document to the collection

    The two scripts compose through the file [chunks.jsonl]: [chunk.py]
    writes the records of [main] with [write_jsonl] into a UTF-8 file,
    [ingest_chroma.py] reads them back with [load_jsonl] and indexes them.  This file states
    the composition: every record the chunker produces reaches the
    collection once, in order, with its id, its text and its metadata. *)

From S2P Require Import Prelude PyStr Utf8 Records Loader Pipeline Jsonl JsonlFile Encodable Ingest.

(** [python chunk.py doc --lines_per_chunk W --overlap_lines O] then
    [python ingest_chroma.py --batch_size b]: the collection after both. *)
Definition index_document {V} `{Embedder V} (coll : list (entry V)) (d : document)
    (W O b : Z) : res (list (entry V)) :=
  (lr <- chunk_main d W O ;;
   bs <- write_jsonl_file (snd lr) ;;
   recs <- load_jsonl_file bs ;;
   ingest coll recs b)%py.

Section Composition.
Context {V : Type} `{Embedder V}.

(** C30 [Refinement] (spec §2 data flow): when [chunk.py] succeeds on a
    document whose file name and PDF text are Unicode scalar values (a
    text file's bytes are decoded into scalar values whatever they are),
    and its records' numbers have at most 4300 digits, indexing the file
    with a positive batch size adds to the collection one entry per
    record of the chunker, in order, with the record's id, text and
    metadata. *)
Theorem index_document_spec (coll : list (entry V)) d W O b lines rs :
  0 < b -> chunk_main d W O = inr (lines, rs) -> Forall record_ok rs ->
  Forall (fun c : Z => 0 <= c < 256) (doc_bytes d) -> Forall scalar (doc_name d) ->
  Forall (page_chars scalar) (doc_pages d) ->
  exists added, index_document coll d W O b = inr (coll ++ added) /\
  map entry_view added = map record_view rs.
Proof.
  intros Hb Hc Hok Hbytes Hname Hpages.
  pose proof (chunk_main_encodable d W O lines rs Hbytes Hname Hpages Hc) as Hsc.
  unfold index_document. rewrite Hc. cbn [res_bind snd].
  destruct (load_jsonl_file_records rs Hok Hsc) as (bs & Hw & Hl).
  rewrite Hw. cbn [res_bind]. rewrite Hl. cbn [res_bind].
  fold (records_json rs). destruct (ingest_records_view coll rs b Hb) as (added & Hi & Hv).
  exists added. by rewrite Hi.
Qed.
End Composition.

(** ** Witness *)

#[local] Instance index_length_embedder : Embedder Z := {|
  encode ts := map json_len ts;
  encode_length ts := length_map _ _
|}.

Definition notes_record : record :=
  mk_record (py "notes__chunk_00000") (py "notes.md") 1 2 (py "x" ++ [NL] ++ py "y") None.

Lemma index_document_spec_witness :
  (chunk_main notes_txt 80 20 = inr ([py "x"; py "y"], [notes_record]) /\
   Forall record_ok [notes_record] /\
   Forall (fun c : Z => 0 <= c < 256) (doc_bytes notes_txt) /\ Forall scalar (doc_name notes_txt) /\
   Forall (page_chars scalar) (doc_pages notes_txt)) /\
  exists added, index_document (V := Z) [] notes_txt 80 20 64 = inr ([] ++ added) /\
  map entry_view added = map record_view [notes_record].
Proof.
  assert (Hc : chunk_main notes_txt 80 20 = inr ([py "x"; py "y"], [notes_record]))
    by reflexivity.
  assert (Hok : Forall record_ok [notes_record])
    by (apply (bool_decide_unpack _); vm_compute; constructor).
  assert (Hbytes : Forall (fun c : Z => 0 <= c < 256) (doc_bytes notes_txt))
    by (apply (bool_decide_unpack _); vm_compute; constructor).
  assert (Hname : Forall scalar (doc_name notes_txt))
    by (apply (bool_decide_unpack _); vm_compute; constructor).
  assert (Hpages : Forall (page_chars scalar) (doc_pages notes_txt)) by constructor.
  split; [split_and!; assumption |].
  exact (index_document_spec [] notes_txt 80 20 64 _ _ ltac:(lia) Hc Hok Hbytes Hname Hpages).
Defined.
