(* ===== verification/IngestMain.v ===== *)
(** * [main] of [src/ingest_chroma.py]: the whole script

    [main] (lines 25-90) prints where it reads the chunks from, reads them
    ([load_jsonl] on the bytes of the file), prints how many it loaded,
    the model and the database directory, prepares the lists of
    [Ingest.prepare_data], runs the batching loop, printing
    [Inserted j/total] after every round, and ends with the summary
    [Done], the collection name, the directory and the count of the
    collection.

    The loop is modelled twice: as the fold [ingest_loop_io] the code
    runs, and as a step relation [loop_step] on the state [ingest_loop_state]
    (the range values left, the collection, standard output), one step
    per round.  The theorems show that the two agree, that every state a
    run reaches satisfies the loop invariant (the collection and the
    output are those of the rounds done), and that every run reaches the
    end of the loop with every record added and [Inserted total/total]
    printed last.

    The command line is the record [ingest_args] of the values argparse
    returns (its parsing is not modelled); [Path] is [Io.path_str];
    creating the directory, loading the model and opening the client are
    not modelled (they print nothing and change no state of the model);
    [collection.count()] is the length of the list of entries.  Every
    [print] goes through the strict standard output of [Io]: the progress
    lines are ASCII, the lines that show the command line's strings
    print when those strings are encodable ([args_encodable]). *)

From stdpp Require Import relations.
From S2P Require Import Prelude PyStr Io Utf8 Chunker Records Jsonl JsonlFile Encodable Ingest.

(** ** The code *)

(** [args] after [ap.parse_args()] (lines 26-32). *)
Record ingest_args := mk_ingest_args {
  arg_chunks : pystr;
  arg_db_dir : pystr;
  arg_collection : pystr;
  arg_model : pystr;
  arg_batch_size : Z
}.

(** The line of line 85. *)
Definition inserted_line (j total : Z) : list pystr :=
  [py "Inserted " ++ py_repr_int j ++ py "/" ++ py_repr_int total].

(** The strings [main] prints from its command line: [str()] of the
    paths, the model and the collection name. *)
Definition args_encodable (a : ingest_args) : Prop :=
  encodable (path_str (arg_chunks a)) /\ encodable (arg_model a) /\
  encodable (path_str (arg_db_dir a)) /\ encodable (arg_collection a).

Section IngestMain.
Context {V : Type} `{Embedder V}.

(** One round (lines 73-85): the slice is added, then the progress line
    printed. *)
Definition ingest_round (ids texts : list json) (metadatas : list metadata) (batch total : Z)
    (coll : list (entry V)) (i : Z) : io (list (entry V)) :=
  let j := Z.min (i + batch) total in
  let coll' := ingest_batch ids texts metadatas batch total coll i in
  (io_print (inserted_line j total) ;;; io_ret coll')%io.

(** Lines 70-85. *)
Definition ingest_loop_io (coll : list (entry V)) (ids texts : list json)
    (metadatas : list metadata) (batch : Z) : io (list (entry V)) :=
  let total := py_len texts in
  (starts <- io_lift (py_range 0 total batch) ;;
   io_fold_left (ingest_round ids texts metadatas batch total) starts coll)%io.

(** Lines 34-90, from the bytes of the chunks file and the collection
    [get_or_create_collection] returns. *)
Definition ingest_main (a : ingest_args) (file : list Z) (coll : list (entry V))
    : io (list (entry V)) :=
  let chunks_path := path_str (arg_chunks a) in
  let db_dir := path_str (arg_db_dir a) in
  (io_print [py "Loading chunks from: " ++ chunks_path] ;;;
   records <- io_lift (load_jsonl_file file) ;;
   io_print [py "Loaded " ++ py_repr_int (py_len records) ++ py " chunks"] ;;;
   io_print [py "Loading embedding model: " ++ arg_model a] ;;;
   io_print [py "Opening Chroma DB at: " ++ db_dir] ;;;
   d <- io_lift (prepare_data records) ;;
   let '(ids, texts, metadatas) := d in
   coll' <- ingest_loop_io coll ids texts metadatas (arg_batch_size a) ;;
   io_print [[NL] ++ py "Done " ++ [9989]] ;;;
   io_print [py "Collection: " ++ arg_collection a] ;;;
   io_print [py "DB dir: " ++ db_dir] ;;;
   io_print [py "Count in collection: " ++ py_repr_int (py_len coll')] ;;;
   io_ret coll')%io.

(** ** The loop as a transition system *)

Record ingest_loop_state := mk_loop_state {
  ls_starts : list Z;
  ls_coll : list (entry V);
  ls_out : pystr
}.

Section Loop.
Variables (ids texts : list json) (metadatas : list metadata) (batch : Z).

Local Abbreviation total := (py_len texts).

(** One round of the loop: the first range value left is consumed. *)
Inductive loop_step : ingest_loop_state -> ingest_loop_state -> Prop :=
  | loop_step_round i rest coll out coll' out' :
      ingest_round ids texts metadatas batch total coll i out = (inr coll', out') ->
      loop_step (mk_loop_state (i :: rest) coll out) (mk_loop_state rest coll' out').

(** What the rounds [done_] print. *)
Definition rounds_out (done_ : list Z) : pystr :=
  concat (map (fun i => print (inserted_line (Z.min (i + batch) total) total)) done_).

(** The invariant of the loop started from [starts], [coll0] and [out0]:
    the rounds done are a prefix of the range, and the collection and the
    output are what they added and printed. *)
Definition loop_inv (starts : list Z) (coll0 : list (entry V)) (out0 : pystr)
    (s : ingest_loop_state) : Prop :=
  exists done_, starts = done_ ++ ls_starts s /\
    ls_coll s = fold_left (ingest_batch ids texts metadatas batch total) done_ coll0 /\
    ls_out s = out0 ++ rounds_out done_.

Lemma ingest_round_run coll i out :
  ingest_round ids texts metadatas batch total coll i out =
  (inr (ingest_batch ids texts metadatas batch total coll i),
   out ++ print (inserted_line (Z.min (i + batch) total) total)).
Proof.
  unfold ingest_round. unfold io_bind. rewrite io_print_ok; [done |].
  apply Forall_cons_2; [encodable_solve | apply Forall_nil_2].
Qed.

Lemma rounds_out_app d1 d2 : rounds_out (d1 ++ d2) = rounds_out d1 ++ rounds_out d2.
Proof. unfold rounds_out. by rewrite map_app, concat_app. Qed.

Lemma rounds_out_cons i d :
  rounds_out (i :: d) = print (inserted_line (Z.min (i + batch) total) total) ++ rounds_out d.
Proof. reflexivity. Qed.

(** The fold the code runs is the run of the relation, and its result
    and output are those of the invariant. *)
Lemma io_fold_rounds starts coll out :
  io_fold_left (ingest_round ids texts metadatas batch total) starts coll out =
  (inr (fold_left (ingest_batch ids texts metadatas batch total) starts coll),
   out ++ rounds_out starts).
Proof.
  revert coll out. induction starts as [|i starts IH]; intros coll out.
  - by rewrite app_nil_r.
  - cbn [io_fold_left]. unfold io_bind. rewrite ingest_round_run, IH.
    cbn [fold_left]. by rewrite <- app_assoc.
Qed.

Lemma loop_rtc_fold starts coll out :
  rtc loop_step (mk_loop_state starts coll out)
    (mk_loop_state [] (fold_left (ingest_batch ids texts metadatas batch total) starts coll)
                   (out ++ rounds_out starts)).
Proof.
  revert coll out. induction starts as [|i starts IH]; intros coll out.
  - rewrite app_nil_r. apply rtc_refl.
  - eapply rtc_l; [constructor; apply ingest_round_run |].
    rewrite rounds_out_cons, app_assoc. apply IH.
Qed.

(** The loop stops exactly when no range value is left. *)
Lemma loop_step_progress s : ls_starts s <> [] -> exists s', loop_step s s'.
Proof.
  destruct s as [[|i rest] coll out]; [done |]. intros _.
  eexists. constructor. apply ingest_round_run.
Qed.

Lemma loop_step_final s s' : loop_step s s' -> ls_starts s <> [].
Proof. by inversion 1. Qed.

Lemma loop_inv_init starts coll0 out0 :
  loop_inv starts coll0 out0 (mk_loop_state starts coll0 out0).
Proof. exists []. by rewrite app_nil_r. Qed.

(** Every step keeps the invariant. *)
Lemma loop_inv_step starts coll0 out0 s s' :
  loop_inv starts coll0 out0 s -> loop_step s s' -> loop_inv starts coll0 out0 s'.
Proof.
  intros (done_ & Hs & Hc & Ho) Hst. destruct Hst as [i rest coll out coll' out' Hr].
  rewrite ingest_round_run in Hr. injection Hr as <- <-. cbn [ls_starts ls_coll ls_out] in *.
  exists (done_ ++ [i]). cbn [ls_starts ls_coll ls_out]. subst. split_and!.
  - by rewrite <- app_assoc.
  - by rewrite fold_left_app.
  - rewrite rounds_out_app, <- app_assoc, rounds_out_cons. by rewrite app_nil_r.
Qed.

(** Every state a run reaches satisfies the invariant (rule induction). *)
Lemma loop_inv_rtc starts coll0 out0 s s' :
  rtc loop_step s s' -> loop_inv starts coll0 out0 s -> loop_inv starts coll0 out0 s'.
Proof. induction 1; eauto using loop_inv_step. Qed.

(** From a state with the invariant, every run reaches the end of the
    loop. *)
Lemma loop_eventually starts coll0 out0 s :
  loop_inv starts coll0 out0 s ->
  eventually loop_step (fun s' => ls_starts s' = [] /\ loop_inv starts coll0 out0 s') s.
Proof.
  remember (length (ls_starts s)) as n eqn:Hn. revert s Hn.
  induction n as [|n IH]; intros s Hn Hinv.
  - apply eventually_done. split; [by destruct (ls_starts s) | done].
  - apply eventually_step.
    + apply loop_step_progress. intros Hnil. by rewrite Hnil in Hn.
    + intros s' Hst. apply IH; [| by eapply loop_inv_step].
      destruct Hst. cbn [ls_starts length] in *. lia.
Qed.
End Loop.

(** ** The loop on the records of the chunker *)

Lemma ingest_fold (coll0 : list (entry V)) rs b starts :
  py_range 0 (py_len rs) b = inr starts ->
  ingest coll0 (records_json rs) b =
  inr (fold_left (ingest_batch (rec_ids rs) (rec_texts rs) (map record_metadata rs) b
                   (py_len (rec_texts rs))) starts coll0).
Proof.
  intros Hr. unfold ingest. rewrite prepare_data_records. cbn [res_bind].
  unfold ingest_loop. cbv zeta.
  change (map (fun r => JStr (rec_text r)) rs) with (rec_texts rs).
  assert (Hr' : py_range 0 (py_len (rec_texts rs)) b = inr starts)
    by (unfold rec_texts; by rewrite py_len_map).
  by rewrite Hr'.
Qed.

(** The last round reports [total/total]. *)
Lemma rounds_out_last (texts : list json) b starts :
  0 < b -> texts <> [] -> py_range 0 (py_len texts) b = inr starts ->
  exists pre, rounds_out texts b starts =
              pre ++ print (inserted_line (py_len texts) (py_len texts)).
Proof.
  intros Hb Hne Hr. rewrite py_range_pos in Hr by done. injection Hr as <-.
  assert (Hn : 0 < py_len texts) by (destruct texts; [done | unfold py_len; cbn; lia]).
  remember (iterations (py_len texts) b 0) as m eqn:Hm.
  destruct m as [|m'].
  { pose proof (proj2 (iterations_spec (py_len texts) b 0 Hb) ltac:(lia)). lia. }
  pose proof (proj1 (iterations_spec (py_len texts) b m' Hb) ltac:(lia)) as Hlt.
  assert (Hge : ~ Z.of_nat (S m') * b < py_len texts).
  { rewrite <- iterations_spec by done. lia. }
  rewrite starts_from_seq, seq_S, map_app, rounds_out_app.
  eexists. f_equal. cbn [map]. rewrite rounds_out_cons. cbn [rounds_out map concat].
  rewrite app_nil_r. do 3 f_equal; nia.
Qed.
End IngestMain.

Section LoopRecords.
Context {V : Type} `{Embedder V}.

(** C34 [Liveness] (spec §5 indexing): with a positive batch size, every
    run of the batching loop over the records of the chunker reaches the
    end of the loop; there every record has been added to the collection,
    once and in order, with its id, text and metadata, and the last line
    printed is [Inserted total/total]. *)
Theorem ingest_loop_eventually (coll0 : list (entry V)) rs b out0 starts :
  0 < b -> py_range 0 (py_len rs) b = inr starts ->
  eventually (loop_step (rec_ids rs) (rec_texts rs) (map record_metadata rs) b)
    (fun s => ls_starts s = [] /\
       (exists added, ls_coll s = coll0 ++ added /\ map entry_view added = map record_view rs) /\
       (rs <> [] ->
        exists pre, ls_out s = out0 ++ pre ++ print (inserted_line (py_len rs) (py_len rs))))
    (mk_loop_state starts coll0 out0).
Proof.
  intros Hb Hr. eapply eventually_weaken; [apply loop_eventually, loop_inv_init |].
  intros s [Hnil (done_ & Hs & Hc & Ho)]. rewrite Hnil, app_nil_r in Hs. subst done_.
  split; [done | split].
  - destruct (ingest_records_view coll0 rs b Hb) as (added & Hi & Hv).
    rewrite (ingest_fold coll0 rs b starts Hr) in Hi. injection Hi as Hi.
    exists added. by rewrite Hc, Hi.
  - intros Hne. rewrite Ho.
    assert (Hlen : py_len (rec_texts rs) = py_len rs) by (unfold rec_texts; apply py_len_map).
    destruct (rounds_out_last (rec_texts rs) b starts Hb) as (pre & Hpre).
    + unfold rec_texts. by destruct rs.
    + by rewrite Hlen.
    + exists pre. by rewrite Hpre, Hlen.
Qed.

(** What [main] prints and adds when the chunks file is the one
    [chunk.py] wrote for the records [rs]. *)
Lemma ingest_main_run a rs bs (coll0 : list (entry V)) out0 starts :
  args_encodable a ->
  Forall record_ok rs -> Forall record_scalar rs -> write_jsonl_file rs = inr bs ->
  py_range 0 (py_len rs) (arg_batch_size a) = inr starts ->
  let coll' := fold_left (ingest_batch (rec_ids rs) (rec_texts rs) (map record_metadata rs)
                 (arg_batch_size a) (py_len (rec_texts rs))) starts coll0 in
  ingest_main a bs coll0 out0 =
  (inr coll',
   out0 ++ print [py "Loading chunks from: " ++ path_str (arg_chunks a)] ++
   print [py "Loaded " ++ py_repr_int (py_len rs) ++ py " chunks"] ++
   print [py "Loading embedding model: " ++ arg_model a] ++
   print [py "Opening Chroma DB at: " ++ path_str (arg_db_dir a)] ++
   rounds_out (rec_texts rs) (arg_batch_size a) starts ++
   print [[NL] ++ py "Done " ++ [9989]] ++
   print [py "Collection: " ++ arg_collection a] ++
   print [py "DB dir: " ++ path_str (arg_db_dir a)] ++
   print [py "Count in collection: " ++ py_repr_int (py_len coll')]).
Proof.
  intros (Hc & Hm & Hd & Hcl) Hok Hsc Hw Hr coll'.
  destruct (load_jsonl_file_records rs Hok Hsc) as (bs' & Hw' & Hl).
  rewrite Hw in Hw'. injection Hw' as <-.
  assert (Hr' : py_range 0 (py_len (rec_texts rs)) (arg_batch_size a) = inr starts)
    by (unfold rec_texts; by rewrite py_len_map).
  unfold ingest_main. print_ok. cbv beta.
  rewrite Hl, io_bind_lift_ok, py_len_map. do 3 print_ok. cbv beta. fold (records_json rs).
  rewrite prepare_data_records, io_bind_lift_ok.
  cbv beta iota. unfold ingest_loop_io. cbv zeta.
  change (map (fun r => JStr (rec_text r)) rs) with (rec_texts rs). rewrite io_bind_assoc.
  rewrite Hr', io_bind_lift_ok. cbv beta.
  rewrite (io_bind_run _ _ _ _ _ (io_fold_rounds _ _ _ _ _ _ _)).
  do 4 print_ok. unfold io_ret. fold coll'. f_equal. by rewrite <- !app_assoc.
Qed.

(** C24 [Functional] (spec §5 indexing): on the file [chunk.py] wrote
    for its records, with a positive batch size, [ingest_chroma.py]
    prints where it reads from and [Loaded N chunks] for the [N] records,
    adds one entry per record, in order, with its id, text and metadata,
    and ends with the count of the collection, [N] more than it held; the
    strings it prints from its command line are encodable (standard
    output encodes strictly). *)
Theorem ingest_main_spec a rs bs (coll0 : list (entry V)) out0 :
  0 < arg_batch_size a -> args_encodable a -> Forall record_ok rs -> Forall record_scalar rs ->
  write_jsonl_file rs = inr bs ->
  exists added mid,
    ingest_main a bs coll0 out0 =
      (inr (coll0 ++ added),
       out0 ++ print [py "Loading chunks from: " ++ path_str (arg_chunks a)] ++
       print [py "Loaded " ++ py_repr_int (py_len rs) ++ py " chunks"] ++ mid ++
       print [py "Count in collection: " ++ py_repr_int (py_len coll0 + py_len rs)]) /\
    map entry_view added = map record_view rs.
Proof.
  intros Hb Ha Hok Hsc Hw. pose proof (py_range_pos (py_len rs) _ Hb) as Hr.
  destruct (ingest_records_view coll0 rs (arg_batch_size a) Hb) as (added & Hi & Hv).
  rewrite (ingest_fold coll0 rs _ _ Hr) in Hi. injection Hi as Hi.
  rewrite (ingest_main_run a rs bs coll0 out0 _ Ha Hok Hsc Hw Hr). cbv zeta.
  rewrite Hi.
  assert (Hlen : py_len (coll0 ++ added) = py_len coll0 + py_len rs).
  { unfold py_len. rewrite length_app, <- (length_map entry_view added), Hv, length_map. lia. }
  rewrite Hlen. exists added.
  exists (print [py "Loading embedding model: " ++ arg_model a] ++
          print [py "Opening Chroma DB at: " ++ path_str (arg_db_dir a)] ++
          rounds_out (rec_texts rs) (arg_batch_size a)
            (starts_from 0 (arg_batch_size a) (iterations (py_len rs) (arg_batch_size a) 0)) ++
          print [[NL] ++ py "Done " ++ [9989]] ++
          print [py "Collection: " ++ arg_collection a] ++
          print [py "DB dir: " ++ path_str (arg_db_dir a)]).
  split; [| done]. f_equal. by rewrite <- !app_assoc.
Qed.
End LoopRecords.

(** ** Witnesses *)

#[local] Instance main_length_embedder : Embedder Z := {|
  encode ts := map json_len ts;
  encode_length ts := length_map _ _
|}.

Definition war_records : list record :=
  [mk_record (py "war__chunk_00000") (py "war.pdf") 1 2 (py "[[PAGE 1]]" ++ [NL] ++ py "a") (Some (1, 1));
   mk_record (py "war__chunk_00001") (py "war.pdf") 3 3 (py "b " ++ [233]) (Some (1, 1))].

Definition war_file : list Z :=
  match write_jsonl_file war_records with inr bs => bs | inl _ => [] end.

Definition war_args : ingest_args :=
  mk_ingest_args (py "data//chunks.jsonl") (py "db/") (py "art_of_war") (py "all-MiniLM-L6-v2") 1.

Lemma war_records_ok : Forall record_ok war_records.
Proof.
  apply Forall_forall. intros r Hr. unfold war_records in Hr.
  repeat (apply elem_of_cons in Hr as [-> | Hr]); [.. | by apply elem_of_nil in Hr];
    unfold record_ok, valid_char;
    cbn [rec_id source_file rec_text rec_start_line rec_end_line pages app];
    (split_and!; [apply (bool_decide_unpack _); vm_compute; constructor ..
                 | repeat constructor; apply int_limit_small; simpl; lia]).
Qed.

Lemma war_records_scalar : Forall record_scalar war_records.
Proof. apply (bool_decide_unpack _). vm_compute. constructor. Qed.

Lemma ingest_main_spec_witness :
  (0 < arg_batch_size war_args /\ args_encodable war_args /\ Forall record_ok war_records /\
   Forall record_scalar war_records /\ write_jsonl_file war_records = inr war_file) /\
  exists added mid,
    ingest_main war_args war_file [] [] =
      (inr ([] ++ added),
       [] ++ print [py "Loading chunks from: " ++ path_str (arg_chunks war_args)] ++
       print [py "Loaded " ++ py_repr_int (py_len war_records) ++ py " chunks"] ++ mid ++
       print [py "Count in collection: " ++ py_repr_int (py_len (@nil (entry Z)) + py_len war_records)]) /\
    map entry_view added = map record_view war_records.
Proof.
  assert (Hw : write_jsonl_file war_records = inr war_file) by reflexivity.
  assert (Ha : args_encodable war_args)
    by (unfold args_encodable; split_and!; apply (bool_decide_unpack _); vm_compute; constructor).
  split; [split_and!; [cbn; lia | exact Ha | apply war_records_ok | apply war_records_scalar | exact Hw] |].
  exact (ingest_main_spec war_args war_records war_file [] [] ltac:(cbn; lia)
           Ha war_records_ok war_records_scalar Hw).
Defined.

Lemma ingest_loop_eventually_witness :
  (0 < 1 /\ py_range 0 (py_len war_records) 1 = inr [0; 1]) /\
  eventually (loop_step (V := Z) (rec_ids war_records) (rec_texts war_records)
                (map record_metadata war_records) 1)
    (fun s => ls_starts s = [] /\
       (exists added, ls_coll s = [] ++ added /\ map entry_view added = map record_view war_records) /\
       (war_records <> [] ->
        exists pre, ls_out s = [] ++ pre ++
                    print (inserted_line (py_len war_records) (py_len war_records))))
    (mk_loop_state [0; 1] [] []).
Proof.
  assert (Hr : py_range 0 (py_len war_records) 1 = inr [0; 1]) by reflexivity.
  split; [split; [lia | exact Hr] |].
  exact (ingest_loop_eventually [] war_records 1 [] [0; 1] ltac:(lia) Hr).
Defined.
