(* ===== verification/Citation.v ===== *)
(** * Citations: [src/search_chroma.py] and [src/answer_ollama.py]

    Both scripts query the collection and cite what comes back.
    [search_chroma.py] (lines 20, 36-62) prints, for each hit, its rank,
    id and distance, a citation line ([source=... pages=...-... lines=...])
    and a one-line preview of the text cut at 320 characters.
    [answer_ollama.py] builds the sources text of the prompt with
    [format_sources] (lines 13-32), wraps it into the prompt with
    [textwrap.dedent(...).strip()] (lines 75-93) and prints the sources it
    used (lines 103-115).

    The query result is the record [query_result]: the ids, documents,
    metadata dicts and distances of the first query.  A distance is a
    Python [float]; floats are a type [D] of the section, with the two
    formattings the code uses, [format(d, ".4f")] and [str(d)], as its
    variables.  A metadata value is what Chroma stores: a [str], an
    [int], a [bool] or a [float].  What the scripts print is the list of
    their [print] calls, each by its arguments, which [Query] runs on
    standard output ([Io.io_prints]).  [textwrap.dedent] is modelled as
    CPython 3.12 writes it, from its two regular expressions. *)

From S2P Require Import Prelude PyStr Io Records Jsonl Ingest.

Section Citation.
Variable D : Type.
(** [format(d, ".4f")] and [str(d)] of a [float]. *)
Variable fmt_4f : D -> pystr.
Variable float_str : D -> pystr.

(** ** Query results *)

Inductive mval :=
  | MStr (s : pystr)
  | MInt (n : Z)
  | MBool (b : bool)
  | MFloat (d : D).

(** [str(v)], which an f-string replacement field without format spec
    calls. *)
Definition mval_str (v : mval) : pystr :=
  match v with
  | MStr s => s
  | MInt n => py_repr_int n
  | MBool true => py "True"
  | MBool false => py "False"
  | MFloat d => float_str d
  end.

Definition meta_dict := list (pystr * mval).

Fixpoint meta_lookup (k : pystr) (m : meta_dict) : option mval :=
  match m with
  | [] => None
  | (k', v) :: m' => if bool_decide (k = k') then Some v else meta_lookup k m'
  end.

(** [str(meta.get(k, default))]. *)
Definition meta_get_str (m : meta_dict) (k default : pystr) : pystr :=
  match meta_lookup k m with Some v => mval_str v | None => default end.

(** The first query of [collection.query(...)]: [res["ids"][0]],
    [res["documents"][0]], [res["metadatas"][0]], [res["distances"][0]]. *)
Record query_result := mk_query_result {
  q_ids : list pystr;
  q_docs : list pystr;
  q_metas : list meta_dict;
  q_dists : list D
}.

Fixpoint zip4 {A B C E} (xs : list A) (ys : list B) (zs : list C) (ws : list E)
    : list (A * B * C * E) :=
  match xs, ys, zs, ws with
  | x :: xs', y :: ys', z :: zs', w :: ws' => (x, y, z, w) :: zip4 xs' ys' zs' ws'
  | _, _, _, _ => []
  end.

(** [enumerate(zip(ids, docs, metas, dists), start=1)]. *)
Definition hits (q : query_result) : list (Z * (pystr * pystr * meta_dict * D)) :=
  imap (fun i h => (Z.of_nat i + 1, h)) (zip4 (q_ids q) (q_docs q) (q_metas q) (q_dists q)).

(** ** [search_chroma.py] *)

(** [question = " ".join(args.question).strip()] (line 20). *)
Definition question_of (args : list pystr) : pystr := py_strip (py_join [32] args).



Definition rule : pystr := repeat 61 30.

(** [str.replace(old, new)] for one character. *)
Definition replace_char (old new : Z) (s : pystr) : pystr :=
  map (fun c => if c =? old then new else c) s.

(** Lines 59-61: the preview of a document. *)
Definition preview_of (doc : pystr) : pystr :=
  let preview := replace_char NL 32 (py_strip doc) in
  if 320 <? py_len preview then py_slice preview 0 320 ++ py "..." else preview.

(** The page part of a citation, when both page keys are present. *)
Definition page_range_of (meta : meta_dict) : option (pystr * pystr) :=
  match meta_lookup (py "start_page") meta, meta_lookup (py "end_page") meta with
  | Some sp, Some ep => Some (mval_str sp, mval_str ep)
  | _, _ => None
  end.

(** Lines 46-58: the citation line of a hit. *)
Definition citation_line (meta : meta_dict) : pystr :=
  let src := meta_get_str meta (py "source_file") (py "unknown") in
  let sl := meta_get_str meta (py "start_line") (py "?") in
  let el := meta_get_str meta (py "end_line") (py "?") in
  match page_range_of meta with
  | Some (sp, ep) =>
      py "    source=" ++ src ++ py " pages=" ++ sp ++ py "-" ++ ep ++
      py " lines=" ++ sl ++ py "-" ++ el
  | None => py "    source=" ++ src ++ py " lines=" ++ sl ++ py "-" ++ el
  end.

(** Lines 45-62: the [print] calls of one hit, each by its arguments. *)
Definition search_hit (rank : Z) (h : pystr * pystr * meta_dict * D) : list (list pystr) :=
  let '(cid, doc, meta, dist) := h in
  [[py "[" ++ py_repr_int rank ++ py "] id=" ++ cid ++ py "  distance=" ++ fmt_4f dist];
   [citation_line meta];
   [py "    text: " ++ preview_of doc ++ [NL]]].

(** Lines 36-62: the [print] calls of [search_chroma.py] after the query. *)
Definition search_output (question : pystr) (q : query_result) : list (list pystr) :=
  [[[NL] ++ rule]; [py "QUESTION:"; question]; [rule ++ [NL]]] ++
  concat (map (fun '(rank, h) => search_hit rank h) (hits q)).

(** ** [answer_ollama.py] *)

(** Lines 20-31: the header and block of one hit. *)
Definition source_block (rank : Z) (h : pystr * pystr * meta_dict * D) : pystr :=
  let '(cid, doc, meta, dist) := h in
  let src := meta_get_str meta (py "source_file") (py "unknown") in
  let sl := meta_get_str meta (py "start_line") (py "?") in
  let el := meta_get_str meta (py "end_line") (py "?") in
  let header :=
    match page_range_of meta with
    | Some (sp, ep) =>
        py "[" ++ py_repr_int rank ++ py "] " ++ src ++ py " pages=" ++ sp ++ py "-" ++ ep ++
        py " lines=" ++ sl ++ py "-" ++ el ++ py " (distance=" ++ fmt_4f dist ++
        py ", id=" ++ cid ++ py ")"
    | None =>
        py "[" ++ py_repr_int rank ++ py "] " ++ src ++ py " lines=" ++ sl ++ py "-" ++ el ++
        py " (distance=" ++ fmt_4f dist ++ py ", id=" ++ cid ++ py ")"
    end in
  header ++ [NL] ++ py_strip doc.

(** [format_sources(results)] (lines 13-32). *)
Definition format_sources (q : query_result) : pystr :=
  py_join ([NL; NL] ++ py "---" ++ [NL; NL]) (map (fun '(rank, h) => source_block rank h) (hits q)).

(** [textwrap.dedent]: whitespace-only lines are emptied, then the
    longest run of spaces and tabs common to the lines that hold
    something else is removed from the front of every line. *)
Definition is_blank_char (c : Z) : bool := (c =? 32) || (c =? 9).

Fixpoint leading_blanks (l : pystr) : pystr * pystr :=
  match l with
  | c :: l' => if is_blank_char c then let '(ind, r) := leading_blanks l' in (c :: ind, r) else ([], l)
  | [] => ([], [])
  end.

(** The indentation of a line that holds a character other than a space
    or a tab ([_leading_whitespace_re]). *)
Definition line_indent (l : pystr) : option pystr :=
  match leading_blanks l with
  | (ind, _ :: _) => Some ind
  | (_, []) => None
  end.

(** [_whitespace_only_re.sub('', text)] on one line. *)
Definition clear_blank_line (l : pystr) : pystr :=
  match line_indent l with Some _ => l | None => [] end.

Fixpoint common_prefix (a b : pystr) : pystr :=
  match a, b with
  | x :: a', y :: b' => if x =? y then x :: common_prefix a' b' else []
  | _, _ => []
  end.

Definition dedent_margin (indents : list pystr) : option pystr :=
  match indents with
  | [] => None
  | i :: is' => Some (fold_left common_prefix is' i)
  end.

Definition dedent (text : pystr) : pystr :=
  let lines := map clear_blank_line (py_split NL text) in
  match dedent_margin (omap line_indent lines) with
  | Some ((_ :: _) as margin) =>
      py_join [NL] (map (fun l => match strip_prefix margin l with Some r => r | None => l end) lines)
  | _ => py_join [NL] lines
  end.

(** The f-string of lines 75-92, with its indentation. *)
Definition prompt_template (question sources_text : pystr) : pystr :=
  py_join [NL]
    [[];
     py "    You are answering questions using ONLY the provided sources from a book.";
     py "    Rules:";
     py "    - If the sources do not contain the answer, say: " ++ [34] ++
       py "Not found in the provided sources." ++ [34];
     py "    - Do not invent facts.";
     py "    - Write a concise answer (5-8 sentences).";
     py "    - Add citations after claims using the format:";
     py "      - TXT/MD: (source_file:lines start-end)";
     py "      - PDF: (source_file:pages start-end, lines start-end)";
     py "    - Do NOT paste long quotes; keep quotes under 20 words.";
     [];
     py "    Question:";
     py "    " ++ question;
     [];
     py "    Sources:";
     py "    " ++ sources_text;
     [];
     py "    Now write the answer with citations.";
     py "    "].

(** Lines 73-93: the prompt sent to the model. *)
Definition build_prompt (question : pystr) (q : query_result) : pystr :=
  py_strip (dedent (prompt_template question (format_sources q))).

(** Lines 108-113: the line of one source used. *)
Definition source_used_line (meta : meta_dict) : pystr :=
  let src := meta_get_str meta (py "source_file") (py "unknown") in
  let sl := meta_get_str meta (py "start_line") (py "?") in
  let el := meta_get_str meta (py "end_line") (py "?") in
  match page_range_of meta with
  | Some (sp, ep) => py "- " ++ src ++ py " pages=" ++ sp ++ py "-" ++ ep ++ py " lines=" ++ sl ++ py "-" ++ el
  | None => py "- " ++ src ++ py " lines=" ++ sl ++ py "-" ++ el
  end.

(** Lines 97-116: the [print] calls after the model answered [answer]. *)
Definition answer_output (question answer : pystr) (q : query_result) : list (list pystr) :=
  [[[NL] ++ rule]; [py "QUESTION:"; question]; [rule ++ [NL]];
   [py_strip answer]; [[NL] ++ repeat 45 30];
   [py "SOURCES USED (top-k retrieved):"]] ++
  map (fun meta => [source_used_line meta]) (q_metas q) ++
  [[repeat 45 30 ++ [NL]]].

(** ** [textwrap.dedent] keeps a text whose lines are not all indented *)

Lemma fold_common_prefix_nil l acc : [] ∈ l -> fold_left common_prefix l acc = [].
Proof.
  revert acc. induction l as [|x l IH]; intros acc Hin; [set_solver |]. simpl.
  apply elem_of_cons in Hin as [<- | Hin].
  - destruct acc; simpl; clear IH; induction l as [|y l IHl]; simpl; done.
  - by apply IH.
Qed.

Lemma dedent_margin_nil indents : [] ∈ indents -> dedent_margin indents = Some [].
Proof.
  destruct indents as [|i is']; [set_solver |]. intros Hin. simpl. f_equal.
  apply elem_of_cons in Hin as [<- | Hin].
  - induction is' as [|y l IH]; [done |]. exact IH.
  - by apply fold_common_prefix_nil.
Qed.

(** A line that starts at the first column: no margin is common. *)
Lemma dedent_unindented u c v :
  is_blank_char c = false -> c <> NL ->
  dedent (u ++ NL :: c :: v) = py_join [NL] (map clear_blank_line (py_split NL (u ++ NL :: c :: v))).
Proof.
  intros Hc HNL. unfold dedent. rewrite dedent_margin_nil; [done |].
  rewrite py_split_app_sep. destruct (py_split_head NL c v HNL) as (p & ps & Hs). rewrite Hs.
  rewrite map_app. cbn [map]. apply list_elem_of_omap. exists (c :: p).
  unfold clear_blank_line, line_indent. cbn [leading_blanks]. rewrite Hc. set_solver.
Qed.

(** The template around its [Rules:] line and its sources line. *)
Definition template_head : pystr :=
  [NL] ++ py "    You are answering questions using ONLY the provided sources from a book.".
Definition rules_line : pystr := py "    Rules:".
Definition template_mid (question : pystr) : pystr :=
  py_join [NL]
    [py "    - If the sources do not contain the answer, say: " ++ [34] ++
       py "Not found in the provided sources." ++ [34];
     py "    - Do not invent facts.";
     py "    - Write a concise answer (5-8 sentences).";
     py "    - Add citations after claims using the format:";
     py "      - TXT/MD: (source_file:lines start-end)";
     py "      - PDF: (source_file:pages start-end, lines start-end)";
     py "    - Do NOT paste long quotes; keep quotes under 20 words.";
     [];
     py "    Question:";
     py "    " ++ question;
     [];
     py "    Sources:"] ++ [NL].
Definition template_tail : pystr :=
  py_join [NL] [[]; py "    Now write the answer with citations."; py "    "].

Lemma prompt_template_shape question s :
  prompt_template question s =
  template_head ++ NL :: (rules_line ++ NL :: (template_mid question ++ (py "    " ++ s) ++
                          NL :: template_tail)).
Proof.
  unfold prompt_template, template_head, rules_line, template_mid, template_tail.
  cbn [py_join]. rewrite <- !app_assoc. reflexivity.
Qed.

Lemma format_sources_two q :
  (2 <= length (hits q))%nat -> exists b rest, format_sources q = b ++ NL :: NL :: 45 :: rest.
Proof.
  unfold format_sources. destruct (hits q) as [|[r1 h1] [|[r2 h2] hs]]; cbn [length map]; [lia | lia |].
  intros _. rewrite py_join_cons by discriminate. by eexists _, _.
Qed.

Lemma clear_lines_nonempty x : map clear_blank_line (py_split NL x) <> [].
Proof. destruct (py_split NL x) eqn:E; [by apply py_split_nonempty in E | discriminate]. Qed.

(** The lines of a dedented text around a line [r] kept as it is. *)
Lemma join_clear_mid a r w :
  NL ∉ r -> clear_blank_line r = r ->
  py_join [NL] (map clear_blank_line (py_split NL (a ++ NL :: (r ++ NL :: w)))) =
  py_join [NL] (map clear_blank_line (py_split NL a)) ++ NL :: (r ++ NL ::
  py_join [NL] (map clear_blank_line (py_split NL w))).
Proof.
  intros Hr Hc. rewrite !py_split_app_sep.
  replace (py_split NL r) with [r] by (symmetry; apply (py_split_join NL [r]);
    [discriminate | by constructor]).
  rewrite !map_app. cbn [map]. rewrite Hc.
  rewrite py_join_app by (apply clear_lines_nonempty || discriminate).
  change ([r] ++ map clear_blank_line (py_split NL w)) with
    (r :: map clear_blank_line (py_split NL w)).
  rewrite py_join_cons by apply clear_lines_nonempty. done.
Qed.

(** ** Properties of the citations *)

(** C31 [Safety] (finding: [textwrap.dedent] is defeated): as soon as the
    query returns two hits, the sources text has a line at the first
    column (the [---] separator), so no margin is common to all lines,
    [dedent] removes nothing and the prompt keeps the four-space
    indentation of the template: its rules line is ["    Rules:"], not
    ["Rules:"]. *)
Theorem build_prompt_keeps_indent question q :
  (2 <= length (hits q))%nat -> rules_line ∈ py_split NL (build_prompt question q).
Proof.
  intros H2. destruct (format_sources_two q H2) as (b & rest & Hf).
  unfold build_prompt. rewrite prompt_template_shape, Hf.
  set (w1 := template_mid question ++ py "    " ++ b ++ [NL]).
  assert (Ht : template_head ++ NL :: (rules_line ++ NL :: (template_mid question ++
                 (py "    " ++ (b ++ NL :: NL :: 45 :: rest)) ++ NL :: template_tail)) =
               (template_head ++ NL :: (rules_line ++ NL :: w1)) ++ NL :: 45 :: (rest ++ NL :: template_tail))
    by (subst w1; rewrite <- !app_assoc, <- !app_comm_cons, <- !app_assoc, <- !app_comm_cons, <- !app_assoc; reflexivity).
  rewrite Ht, dedent_unindented by (reflexivity || discriminate). rewrite <- Ht.
  rewrite join_clear_mid by (reflexivity || (vm_compute; not_in_literal)).
  set (JA := py_join [NL] (map clear_blank_line (py_split NL template_head))).
  set (JB := py_join [NL] (map clear_blank_line (py_split NL _))).
  assert (HA : exists ch, ch ∈ JA /\ py_isspace ch = false)
    by (exists 89; split; [subst JA; apply (bool_decide_unpack _); vm_compute; reflexivity | reflexivity]).
  assert (HB : exists ch, ch ∈ JB /\ py_isspace ch = false).
  { exists 78. split; [| reflexivity]. subst JB.
    rewrite app_assoc, py_split_app_sep, map_app.
    apply (py_join_elem _ _ (py "    Now write the answer with citations.")).
    - apply elem_of_app. right. apply (bool_decide_unpack _). vm_compute. reflexivity.
    - apply (bool_decide_unpack _). vm_compute. reflexivity. }
  clearbody JA JB. unfold py_strip.
  replace (JA ++ NL :: (rules_line ++ NL :: JB)) with ((JA ++ NL :: rules_line ++ [NL]) ++ JB)
    by (rewrite <- !app_assoc; reflexivity).
  rewrite py_rstrip_app by exact HB. rewrite <- app_assoc, py_lstrip_app by exact HA.
  replace ((NL :: rules_line ++ [NL]) ++ py_rstrip JB) with (NL :: (rules_line ++ NL :: py_rstrip JB))
    by (rewrite <- app_comm_cons, <- !app_assoc; reflexivity).
  rewrite py_split_app_sep, py_split_app_sep.
  replace (py_split NL rules_line) with [rules_line] by reflexivity.
  apply elem_of_app. right. apply elem_of_app. left. apply list_elem_of_singleton. done.
Qed.

Lemma replace_char_not_in old new s : new <> old -> old ∉ replace_char old new s.
Proof.
  intros Hne Hin. unfold replace_char in Hin. apply elem_of_map_iff in Hin as (c & Hc & _).
  destruct (Z.eqb_spec c old); congruence.
Qed.

(** C32 [Bounds] (spec §6 retrieval display): the preview
    [search_chroma.py] prints of a hit is one line of at most 323
    characters (320 of the text and ["..."]). *)
Theorem preview_of_bounds doc :
  (length (preview_of doc) <= 323)%nat /\ NL ∉ preview_of doc.
Proof.
  unfold preview_of. set (p := replace_char NL 32 (py_strip doc)).
  assert (Hp : NL ∉ p) by (apply replace_char_not_in; discriminate).
  destruct (Z.ltb_spec 320 (py_len p)) as [Hlt | Hge].
  - rewrite length_app, py_slice_length by lia. split; [simpl; lia |].
    rewrite elem_of_app. intros [Hin | Hin].
    + by apply elem_of_py_slice_sub in Hin.
    + revert Hin. vm_compute. not_in_literal.
  - unfold py_len in Hge. split; [lia | done].
Qed.

(** The metadata dict [main] of [ingest_chroma.py] builds (lines 57-66),
    as the collection returns it: the source file, the two line numbers
    and, when present, the two page numbers, in that order. *)
Definition stored_meta (m : metadata) : option meta_dict :=
  match meta_source_file m with
  | JStr src =>
      Some ([(py "source_file", MStr src); (py "start_line", MInt (meta_start_line m));
             (py "end_line", MInt (meta_end_line m))] ++
            match meta_pages m with
            | Some (sp, ep) => [(py "start_page", MInt sp); (py "end_page", MInt ep)]
            | None => []
            end)
  | _ => None
  end.

(** C33 [Functional] (spec §6, §3 citation): the citation line
    [search_chroma.py] prints for the entry of a record names the
    record's source file and line range, and its page range exactly when
    the record has one. *)
Theorem citation_line_record r :
  exists m, stored_meta (record_metadata r) = Some m /\
  citation_line m =
  let lines := py " lines=" ++ py_repr_int (rec_start_line r) ++ py "-" ++
               py_repr_int (rec_end_line r) in
  py "    source=" ++ source_file r ++
  match pages r with
  | Some (sp, ep) => py " pages=" ++ py_repr_int sp ++ py "-" ++ py_repr_int ep ++ lines
  | None => lines
  end.
Proof.
  unfold stored_meta, record_metadata. cbn [meta_source_file meta_pages meta_start_line meta_end_line].
  eexists. split; [reflexivity |].
  unfold citation_line, page_range_of, meta_get_str.
  destruct (pages r) as [[sp ep] |]; reflexivity.
Qed.
End Citation.

(** ** Witnesses *)

(** Distances as integers, formatted in decimal. *)
Definition two_hits : query_result Z :=
  mk_query_result Z [py "a__chunk_00000"; py "a__chunk_00001"] [py "x"; py "y"]
    [[(py "source_file", MStr Z (py "a.txt"))]; []] [1; 2].

Lemma build_prompt_keeps_indent_witness :
  (2 <= length (hits Z two_hits))%nat /\
  rules_line ∈ py_split NL (build_prompt Z py_repr_int py_repr_int (py "why?") two_hits).
Proof.
  assert (H2 : (2 <= length (hits Z two_hits))%nat) by (apply Nat.leb_le; reflexivity).
  split; [exact H2 | exact (build_prompt_keeps_indent Z py_repr_int py_repr_int (py "why?") two_hits H2)].
Defined.

(** With no hit the template's margin is common to all its lines and
    [dedent] does remove it: the rules line is then ["Rules:"]. *)
Lemma build_prompt_no_hits :
  py "Rules:" ∈ py_split NL (build_prompt Z py_repr_int py_repr_int (py "why?")
                              (mk_query_result Z [] [] [] [])).
Proof. apply (bool_decide_unpack _). vm_compute. constructor. Qed.
