(* ===== verification/Query.v ===== *)
(** * The query scripts: [main] of [src/search_chroma.py] and of [src/answer_ollama.py]

    Both scripts open the Chroma client, get the collection by name,
    query it with the question and print.  [search_chroma.py] prints the
    hits ([Citation.search_output]); [answer_ollama.py] builds the prompt
    ([Citation.build_prompt]), sends it to [ollama run MODEL] through a
    pipe ([call_ollama], lines 35-46) and prints the answer and the
    sources ([Citation.answer_output]).

    Chroma is an interface, the class [Chroma]: getting a collection by
    name and querying it are the library's, and its one law is the
    contract the scripts rely on: a query returns at most [n_results]
    hits, each the id, document and metadata of an entry of the
    collection.  An instance that meets the law ([notes_chroma]) shows
    the class can be implemented.  What the scripts print goes through
    the strict standard output of [Io]: a surrogate in a printed string
    raises [UnicodeEncodeError].

    The ollama process is the function [ollama_run] of the section: from
    the command line and the bytes of its standard input, the return code
    and the bytes of its standard output and error (or the exception
    [subprocess.run] raises).  The prompt goes through the strict UTF-8
    encoder and the answer through the ignoring decoder of [Utf8].

    [answer_ollama.py] imports [Settingss] from [chromadb.config] (line
    10), a name the module does not define: [answer_script] raises
    [ImportError] before [main] runs ([answer_script_fails]), given that
    the name list of [chromadb.config], a variable of the section, lacks
    [Settingss]. *)

From S2P Require Import Prelude PyStr Io Utf8 Records Jsonl Ingest Citation.

(** ** The command lines *)

(** [args] of [search_chroma.py] (lines 12-18) and of [answer_ollama.py]
    (lines 50-56), after argparse. *)
Record query_args := mk_query_args {
  qa_db_dir : pystr;
  qa_collection : pystr;
  qa_model : pystr;
  qa_k : Z;
  qa_question : list pystr
}.

(** ** Chroma *)

Class Chroma (V D : Type) := {
  (** [client.get_collection(name=...)]: the entries of the collection. *)
  chroma_get_collection : pystr -> res (list (entry V));
  (** [collection.query(query_texts=[q], n_results=k, include=...)], first query. *)
  chroma_query : list (entry V) -> pystr -> Z -> res (query_result D);
  (** The contract: at most [k] hits, each stored in the collection. *)
  chroma_query_sound coll q k r :
    chroma_query coll q k = inr r ->
    (length (zip4 (q_ids D r) (q_docs D r) (q_metas D r) (q_dists D r)) <= Z.to_nat k)%nat /\
    Forall (fun '(cid, doc, meta, _) =>
              exists e, e ∈ coll /\ entry_id e = JStr cid /\ entry_document e = JStr doc /\
                        stored_meta D (entry_metadata e) = Some meta)
           (zip4 (q_ids D r) (q_docs D r) (q_metas D r) (q_dists D r))
}.

(** What the process [subprocess.run] started gives back. *)
Record completed_process := mk_completed_process {
  returncode : Z;
  proc_stdout : list Z;
  proc_stderr : list Z
}.

Section Query.
Context {V D : Type} `{Chroma V D}.
(** [format(d, ".4f")] and [str(d)] of a distance. *)
Variables (fmt_4f float_str : D -> pystr).
(** [subprocess.run(argv, input=..., stdout=PIPE, stderr=PIPE, check=False)]. *)
Variable ollama_run : list pystr -> list Z -> res completed_process.

(** ** [search_chroma.py] *)

(** Lines 20-62. *)
Definition search_main (a : query_args) : io unit :=
  let question := question_of (qa_question a) in
  (coll <- io_lift (chroma_get_collection (qa_collection a)) ;;
   r <- io_lift (chroma_query coll question (qa_k a)) ;;
   io_prints (search_output D fmt_4f float_str question r))%io.

(** ** [answer_ollama.py] *)

(** Lines 35-46. *)
Definition call_ollama (model prompt : pystr) : res pystr :=
  (input <- utf8_encode prompt ;;
   proc <- ollama_run [py "ollama"; py "run"; model] input ;;
   if negb (returncode proc =? 0) then
     (err <- utf8_decode Ignore (proc_stderr proc) ;; inl (RuntimeError err))
   else utf8_decode Ignore (proc_stdout proc))%py.

(** Lines 58-115. *)
Definition answer_main (a : query_args) : io unit :=
  let question := question_of (qa_question a) in
  (coll <- io_lift (chroma_get_collection (qa_collection a)) ;;
   r <- io_lift (chroma_query coll question (qa_k a)) ;;
   answer <- io_lift (call_ollama (qa_model a) (build_prompt D fmt_4f float_str question r)) ;;
   io_prints (answer_output D float_str question answer r))%io.

(** The names [chromadb.config] defines. *)
Variable chromadb_config_names : list pystr.

(** [from M import name]. *)
Definition import_from (names : list pystr) (name : pystr) : res unit :=
  if bool_decide (name ∈ names) then inr tt else inl (ImportError name).

(** The script: the imports of lines 4-10, then [main] (lines 118-119). *)
Definition answer_script (a : query_args) : io unit :=
  (io_lift (import_from chromadb_config_names (py "Settingss")) ;;; answer_main a)%io.

(** ** Lemmas *)

Lemma hits_forall (P : pystr * pystr * meta_dict D * D -> Prop) (q : query_result D) :
  Forall P (zip4 (q_ids D q) (q_docs D q) (q_metas D q) (q_dists D q)) ->
  Forall (fun rh => P rh.2) (hits D q).
Proof.
  intros HP. apply Forall_forall. intros [rank h] Hin. unfold hits in Hin.
  apply elem_of_lookup_imap_1 in Hin as (i & h' & [= -> <-] & Hl).
  eapply Forall_forall; [exact HP |]. by eapply list_elem_of_lookup_2.
Qed.

(** With the collection and the hits of the query, [search_chroma.py]
    prints the hits, when every string it prints is encodable. *)
Lemma search_main_run a coll r out :
  chroma_get_collection (qa_collection a) = inr coll ->
  chroma_query coll (question_of (qa_question a)) (qa_k a) = inr r ->
  Forall (Forall encodable) (search_output D fmt_4f float_str (question_of (qa_question a)) r) ->
  search_main a out =
  (inr tt, out ++ prints (search_output D fmt_4f float_str (question_of (qa_question a)) r)).
Proof.
  intros Hg Hq He. unfold search_main. rewrite Hg, io_bind_lift_ok, Hq, io_bind_lift_ok.
  by apply io_prints_ok.
Qed.

(** The ollama call: the process reads the UTF-8 bytes of the prompt; a
    zero return code gives its output decoded, ignoring invalid bytes;
    any other raises [RuntimeError] with its error output. *)
Lemma call_ollama_run model prompt bs proc :
  utf8_encode prompt = inr bs ->
  ollama_run [py "ollama"; py "run"; model] bs = inr proc ->
  call_ollama model prompt =
  if returncode proc =? 0 then inr (omap id (utf8_scan (proc_stdout proc)))
  else inl (RuntimeError (omap id (utf8_scan (proc_stderr proc)))).
Proof.
  intros He Hr. unfold call_ollama. rewrite He. cbn [res_bind]. rewrite Hr. cbn [res_bind].
  by destruct (returncode proc =? 0).
Qed.

(** A prompt that holds a surrogate is never sent: [prompt.encode]
    raises first. *)
Lemma call_ollama_surrogate model prompt c :
  Forall (fun c => 0 <= c < 1114112) prompt -> c ∈ prompt -> is_surrogate c = true ->
  call_ollama model prompt = inl UnicodeEncodeError.
Proof.
  intros Hr Hc Hs. unfold call_ollama.
  rewrite (proj2 (utf8_encode_error prompt Hr)); [done |].
  apply Exists_exists. eauto.
Qed.

(** Whatever the command line, [answer_ollama.py] stops at the import of
    line 10 with [ImportError] naming [Settingss], before printing
    anything, as soon as [chromadb.config] defines no such name. *)
Theorem answer_script_fails a out :
  py "Settingss" ∉ chromadb_config_names ->
  answer_script a out = (inl (ImportError (py "Settingss")), out).
Proof.
  intros Hn. unfold answer_script, import_from. rewrite bool_decide_eq_false_2 by done.
  apply io_bind_lift_err.
Qed.

(** Were the import fixed, [answer_ollama.py] would print the question,
    the model's answer and the sources of the query. *)
Lemma answer_main_run a coll r answer out :
  chroma_get_collection (qa_collection a) = inr coll ->
  chroma_query coll (question_of (qa_question a)) (qa_k a) = inr r ->
  call_ollama (qa_model a) (build_prompt D fmt_4f float_str (question_of (qa_question a)) r) =
    inr answer ->
  Forall (Forall encodable) (answer_output D float_str (question_of (qa_question a)) answer r) ->
  answer_main a out =
  (inr tt, out ++ prints (answer_output D float_str (question_of (qa_question a)) answer r)).
Proof.
  intros Hg Hq Hc He. unfold answer_main.
  rewrite Hg, io_bind_lift_ok, Hq, io_bind_lift_ok, Hc, io_bind_lift_ok. by apply io_prints_ok.
Qed.
End Query.

(** ** A collection that meets the contract *)

(** The hit of a stored entry, at distance [0]. *)
Definition entry_hit (e : entry Z) : option (pystr * pystr * meta_dict Z * Z) :=
  match entry_id e, entry_document e, stored_meta Z (entry_metadata e) with
  | JStr i, JStr d, Some m => Some (i, d, m, 0)
  | _, _, _ => None
  end.

(** The first [k] entries, whatever the question. *)
Definition first_k_query (coll : list (entry Z)) (q : pystr) (k : Z) : res (query_result Z) :=
  let hs := take (Z.to_nat k) (omap entry_hit coll) in
  inr (mk_query_result Z (map (fun '(i, _, _, _) => i) hs) (map (fun '(_, d, _, _) => d) hs)
         (map (fun '(_, _, m, _) => m) hs) (map (fun '(_, _, _, x) => x) hs)).

Lemma zip4_unzip {A B C E} (hs : list (A * B * C * E)) :
  zip4 (map (fun '(i, _, _, _) => i) hs) (map (fun '(_, d, _, _) => d) hs)
       (map (fun '(_, _, m, _) => m) hs) (map (fun '(_, _, _, x) => x) hs) = hs.
Proof. induction hs as [|[[[i d] m] x] hs IH]; [done |]. cbn. by rewrite IH. Qed.

Lemma first_k_query_sound coll q k r :
  first_k_query coll q k = inr r ->
  (length (zip4 (q_ids Z r) (q_docs Z r) (q_metas Z r) (q_dists Z r)) <= Z.to_nat k)%nat /\
  Forall (fun '(cid, doc, meta, _) =>
            exists e, e ∈ coll /\ entry_id e = JStr cid /\ entry_document e = JStr doc /\
                      stored_meta Z (entry_metadata e) = Some meta)
         (zip4 (q_ids Z r) (q_docs Z r) (q_metas Z r) (q_dists Z r)).
Proof.
  unfold first_k_query. intros [= <-]. cbn [q_ids q_docs q_metas q_dists].
  rewrite zip4_unzip. split; [rewrite length_take; lia |].
  apply Forall_forall. intros [[[i d] m] x] Hin.
  apply elem_of_take in Hin as (n & Hn & _). apply list_elem_of_lookup_2 in Hn.
  apply list_elem_of_omap in Hn as (e & He & Hh). exists e. split; [done |].
  unfold entry_hit in Hh. repeat case_match; simplify_eq; auto.
Qed.

Definition notes_entries (rs : list record) : list (entry Z) :=
  map (fun r => mk_entry (JStr (rec_id r)) (JStr (rec_text r)) 0 (record_metadata r)) rs.

Definition notes_records : list record :=
  [mk_record (py "notes__chunk_00000") (py "notes.md") 1 2 (py "x" ++ [NL] ++ py "y") None;
   mk_record (py "notes__chunk_00001") (py "notes.md") 2 3 (py "y" ++ [NL] ++ py "z") None].

#[local] Instance notes_chroma : Chroma Z Z := {|
  chroma_get_collection name :=
    if bool_decide (name = py "art_of_war") then inr (notes_entries notes_records)
    else inl (ValueError (py "Collection does not exist."));
  chroma_query := first_k_query;
  chroma_query_sound := first_k_query_sound
|}.

Definition notes_args : query_args :=
  mk_query_args (py "db") (py "art_of_war") (py "all-MiniLM-L6-v2") 1 [py "what"; py "is"; py "y?"].

(** [search_chroma.py] on the notes: the first hit is printed. *)
Lemma search_main_notes :
  search_main py_repr_int py_repr_int notes_args [] =
  (inr tt, prints (search_output Z py_repr_int py_repr_int (py "what is y?")
                     (mk_query_result Z [py "notes__chunk_00000"] [py "x" ++ [NL] ++ py "y"]
                        [[(py "source_file", MStr Z (py "notes.md")); (py "start_line", MInt Z 1);
                          (py "end_line", MInt Z 2)]] [0]))).
Proof. vm_compute. reflexivity. Qed.

Lemma answer_script_fails_witness :
  py "Settingss" ∉ [py "Settings"; py "System"; py "DEFAULT_TENANT"] /\
  answer_script (V := Z) (D := Z) py_repr_int py_repr_int (fun _ _ => inl NotModelled)
    [py "Settings"; py "System"; py "DEFAULT_TENANT"] notes_args [] =
  (inl (ImportError (py "Settingss")), []).
Proof.
  assert (Hn : py "Settingss" ∉ [py "Settings"; py "System"; py "DEFAULT_TENANT"])
    by (apply (bool_decide_unpack _); vm_compute; constructor).
  split; [exact Hn |].
  exact (answer_script_fails py_repr_int py_repr_int (fun _ _ => inl NotModelled) _ notes_args [] Hn).
Defined.
